(** * Meson's [dist] command ([mesonbuild/mdist.py]): model and properties

    The module packages a source tree kept under Git or Mercurial into
    release archives, checks the first archive by a full configure, build,
    test and install cycle, and writes a [.sha256sum] file next to every
    archive.

    The development has two parts.  The first part is the model: Python's
    string and path functions, a file system, a monad for Python's
    exceptions and side effects, and the functions of [mdist.py], one
    definition per source function and under the source's name.  The second
    part states and proves the properties. *)

From Stdlib Require Import ZArith Ascii String.
From stdpp Require Import base option list strings gmap fin_maps.

(** ** Python strings

    A [str] or [bytes] value is a [string], a list of 8-bit characters.
    Text is taken to be ASCII. *)

Definition LF : ascii := ascii_of_nat 10.
Definition CR : ascii := ascii_of_nat 13.
Definition DQUOTE : ascii := ascii_of_nat 34.
Definition NL : string := String LF "".
Definition DQ : string := String DQUOTE "".

(** [c in s] for a one-character [c]. *)
Fixpoint contains_char (c : ascii) (s : string) : bool :=
  match s with
  | "" => false
  | String d s' => if decide (c = d) then true else contains_char c s'
  end.

(** [s.split(sep)] for a one-character separator: never the empty list. *)
Fixpoint split_on (sep : ascii) (s : string) : list string :=
  match s with
  | "" => [""]
  | String c s' =>
      if decide (c = sep) then "" :: split_on sep s'
      else match split_on sep s' with
           | w :: ws => String c w :: ws
           | [] => [String c ""]
           end
  end.

(** [s.split(sep, 1)] when [sep in s]: the text before the first separator
    and the text after it. *)
Fixpoint split1 (sep : ascii) (s : string) : string * string :=
  match s with
  | "" => ("", "")
  | String c s' =>
      if decide (c = sep) then ("", s')
      else let '(a, b) := split1 sep s' in (String c a, b)
  end.

(** The ASCII characters that [str.isspace] accepts, which are the ones
    [str.strip()] removes: tab, line feed, vertical tab, form feed,
    carriage return, the four separators 28 to 31, and the space. *)
Definition py_isspace (c : ascii) : bool :=
  let n := nat_of_ascii c in
  (((9 <=? n) && (n <=? 13)) || ((28 <=? n) && (n <=? 32)))%nat.

Fixpoint lstrip (s : string) : string :=
  match s with
  | String c s' => if py_isspace c then lstrip s' else s
  | "" => ""
  end.

Definition rstrip (s : string) : string := String.rev (lstrip (String.rev s)).

(** [s.strip()] *)
Definition strip (s : string) : string := rstrip (lstrip s).

(** [needle in hay] for strings. *)
Fixpoint is_infix (needle hay : string) : bool :=
  String.prefix needle hay ||
  match hay with
  | "" => false
  | String _ hay' => is_infix needle hay'
  end.

(** [sep.join(l)] *)
Definition str_join (sep : string) (l : list string) : string := String.concat sep l.

(** [repr(s)] of a string without quotes, backslashes or control
    characters, which is how the messages below print names. *)
Definition py_repr (s : string) : string := "'" +:+ s +:+ "'".

(** [repr(l)] of a list of such strings. *)
Definition py_repr_list (l : list string) : string :=
  "[" +:+ str_join ", " (py_repr <$> l) +:+ "]".

(** The lines a text file yields when iterated, in universal-newline mode:
    a line ends at a line feed, a carriage return, or the pair of them, and
    is yielded with a line feed at its end; text after the last terminator
    is a last line without one. *)
Fixpoint py_lines_go (cur : string) (s : string) : list string :=
  match s with
  | "" => if decide (cur = "") then [] else [String.rev cur]
  | String c s' =>
      if decide (c = LF) then String.rev (String LF cur) :: py_lines_go "" s'
      else if decide (c = CR) then
        String.rev (String LF cur) ::
        match s' with
        | String c' s'' => if decide (c' = LF) then py_lines_go "" s'' else py_lines_go "" s'
        | "" => []
        end
      else py_lines_go (String c cur) s'
  end.

Definition py_lines (s : string) : list string := py_lines_go "" s.


(** ** Paths ([posixpath])

    A path is a string, as in the source. *)

(** [os.path.isabs(p)], which is [p.startswith('/')] *)
Definition isabs (p : string) : bool :=
  match p with
  | String c _ => bool_decide (c = "/"%char)
  | "" => false
  end.

(** [p.endswith('/')] *)
Fixpoint endswith_slash (p : string) : bool :=
  match p with
  | "" => false
  | String c "" => bool_decide (c = "/"%char)
  | String _ p' => endswith_slash p'
  end.

(** [os.path.join(a, b)] *)
Definition join (a b : string) : string :=
  if isabs b then b
  else if bool_decide (a = "") || endswith_slash a then a +:+ b
  else a +:+ "/" +:+ b.

(** The text up to and including the last slash, if there is one, and the
    text after it: [p[:i]] and [p[i:]] for [i = p.rfind('/') + 1]. *)
Fixpoint rsplit_slash (p : string) : option string * string :=
  match p with
  | "" => (None, "")
  | String c p' =>
      match rsplit_slash p' with
      | (Some h, t) => (Some (String c h), t)
      | (None, t) =>
          if decide (c = "/"%char) then (Some "/", t) else (None, String c t)
      end
  end.

(** [os.path.basename(p)] *)
Definition basename (p : string) : string := (rsplit_slash p).2.

(** [p.rstrip('/')] *)
Fixpoint rstrip_slash (p : string) : string :=
  match p with
  | "" => ""
  | String c p' =>
      match rstrip_slash p' with
      | "" => if decide (c = "/"%char) then "" else String c ""
      | r => String c r
      end
  end.

(** [os.path.split(p)]: the head loses its trailing slashes unless it
    consists of slashes only. *)
Definition os_path_split (p : string) : string * string :=
  let '(h, t) := rsplit_slash p in
  let head := default "" h in
  (if decide (rstrip_slash head = "") then head else rstrip_slash head, t).

(** A name that a directory entry can have. *)
Definition valid_name (n : string) : bool :=
  bool_decide (n ≠ "") && bool_decide (n ≠ ".") && bool_decide (n ≠ "..")
  && negb (contains_char "/" n).

(** One step of path resolution: an empty component and [.] stay in place,
    [..] goes to the parent (the root is its own parent), a name goes
    down. *)
Definition walk (at_ : list string) (c : string) : list string :=
  if decide (c = "" ∨ c = ".") then at_
  else if decide (c = "..") then removelast at_
  else at_ ++ [c].

(** The names from the root to the file a path denotes.  The current
    directory of the process is the root, and resolution is lexical: no
    symbolic link is followed on the way. *)
Definition components (p : string) : list string :=
  fold_left walk (split_on "/" p) [].

(** ** [fnmatch] and the hidden-file rule of [glob]

    Patterns are made of literal characters, [*] and [?]; the two patterns
    of the source, [.git*] and [*], use nothing else. *)
Fixpoint fnmatch (pat : string) (name : string) : bool :=
  match pat with
  | "" => bool_decide (name = "")
  | String p pat' =>
      if decide (p = "*"%char) then
        (fix star (name : string) : bool :=
           fnmatch pat' name ||
           match name with
           | "" => false
           | String _ name' => star name'
           end) name
      else
        match name with
        | "" => false
        | String c name' =>
            (bool_decide (p = "?"%char) || bool_decide (p = c)) && fnmatch pat' name'
        end
  end.

(** [glob._ishidden] *)
Definition ishidden (s : string) : bool :=
  match s with
  | String c _ => bool_decide (c = "."%char)
  | "" => false
  end.

(** A name is listed for a pattern when it matches; a name that starts with
    a dot is listed only for a pattern that starts with a dot. *)
Definition glob_match (pat name : string) : bool :=
  (ishidden pat || negb (ishidden name)) && fnmatch pat name.

(** ** The file system

    A finite map from resolved paths to nodes.  The root is the empty list
    of names and is always a directory.  A symbolic link is a leaf: paths
    are resolved name by name without following links, so the model is
    exact for trees in which no path the program uses runs through a link.
    A link at the end of a path is followed by [stat], at most 40 times as
    in the kernel. *)

Inductive node :=
  | File (data : string)
  | Symlink (target : string)
  | Dir.

Global Instance node_eq_dec : EqDecision node.
Proof. solve_decision. Defined.

Abbreviation fs :=
  (@gmap (list string) (@list_eq_dec string String.eq_dec)
     (@list_countable string String.eq_dec String.countable) node).

Definition node_at (t : fs) (k : list string) : option node :=
  match k with
  | [] => Some Dir
  | _ => t !! k
  end.

(** [os.lstat] *)
Definition lstat (t : fs) (p : string) : option node := node_at t (components p).

(** Where a link found at [k] points. *)
Definition link_target (k : list string) (target : string) : list string :=
  fold_left walk (split_on "/" target) (if isabs target then [] else removelast k).

Fixpoint follow (fuel : nat) (t : fs) (k : list string) : option (list string) :=
  match node_at t k with
  | Some (Symlink target) =>
      match fuel with
      | O => None
      | S fuel' => follow fuel' t (link_target k target)
      end
  | _ => Some k
  end.

Definition MAXSYMLINKS : nat := 40.

(** [os.stat]: [None] for a missing file, a dangling link and a loop. *)
Definition stat (t : fs) (p : string) : option node :=
  k ← follow MAXSYMLINKS t (components p); node_at t k.

(** The name of the entry [k] in the directory [d], if [k] is one. *)
Definition entry_name (d k : list string) : option string :=
  match last k with
  | Some n => if decide (k = d ++ [n]) then (if valid_name n then Some n else None) else None
  | None => None
  end.

(** [os.listdir], in the order the map enumerates its keys. *)
Definition listdir (t : fs) (d : list string) : list string :=
  omap (entry_name d) (map_to_list t).*1.

(** [glob.glob(pathname)] for a pathname whose last component is a pattern
    and whose directory part has no [*], [?] or bracket.  Python expands a
    directory part with one of these characters as a pattern of its own;
    here the directory part is taken as it is written, so this is
    [glob.glob] only where [has_magic], defined below, is [false] of the
    directory part; the statements on what [del_gitfiles] strips carry
    that as a hypothesis. *)
Definition glob (t : fs) (pathname : string) : list string :=
  let '(dirname, pattern) := os_path_split pathname in
  match lstat t dirname with
  | Some Dir =>
      join dirname <$> filter (λ n, glob_match pattern n) (listdir t (components dirname))
  | _ => []
  end.


(** ** SHA-256 (FIPS 180-4), the function behind [hashlib.sha256]

    Words are integers below [2^32]; a message is a list of byte values. *)

Module Sha256.
Open Scope Z_scope.

(** The constants are the first 32 bits of the fractional parts of the cube
    roots (for [K]) and of the square roots (for [H0]) of the first primes:
    of a root [r] of [p], the integer part of [r * 2^32], modulo [2^32]. *)
Definition is_prime (n : Z) : bool :=
  (2 <=? n) && forallb (λ d : nat, negb (n mod Z.of_nat d =? 0)) (seq 2 (Z.to_nat (Z.sqrt n) - 1)).

Definition primes (count : nat) : list Z :=
  take count (filter (λ n, is_prime n) (Z.of_nat <$> seq 2 400)).

(** The largest [r] below [2^bits] with [r ^ 3 <= n]. *)
Fixpoint cube_root (bits : nat) (n r : Z) : Z :=
  match bits with
  | O => r
  | S bits' =>
      let r' := r + 2 ^ Z.of_nat bits' in
      cube_root bits' n (if r' ^ 3 <=? n then r' else r)
  end.

Definition K : list Z :=
  (λ p, cube_root 40 (p * 2 ^ 96) 0 mod 2 ^ 32) <$> primes 64.

Definition H0 : list Z :=
  (λ p, Z.sqrt (p * 2 ^ 64) mod 2 ^ 32) <$> primes 8.

Definition wrap (x : Z) : Z := x mod 2 ^ 32.
Definition add (x y : Z) : Z := wrap (x + y).
Definition rotr (n x : Z) : Z := wrap (Z.lor (Z.shiftr x n) (Z.shiftl x (32 - n))).
Definition lnot32 (x : Z) : Z := Z.lxor x (2 ^ 32 - 1).

Definition Ch (x y z : Z) : Z := Z.lxor (Z.land x y) (Z.land (lnot32 x) z).
Definition Maj (x y z : Z) : Z := Z.lxor (Z.lxor (Z.land x y) (Z.land x z)) (Z.land y z).
Definition Sigma0 (x : Z) : Z := Z.lxor (Z.lxor (rotr 2 x) (rotr 13 x)) (rotr 22 x).
Definition Sigma1 (x : Z) : Z := Z.lxor (Z.lxor (rotr 6 x) (rotr 11 x)) (rotr 25 x).
Definition sigma0 (x : Z) : Z := Z.lxor (Z.lxor (rotr 7 x) (rotr 18 x)) (Z.shiftr x 3).
Definition sigma1 (x : Z) : Z := Z.lxor (Z.lxor (rotr 17 x) (rotr 19 x)) (Z.shiftr x 10).

(** The message followed by the bit 1, zeros up to 56 modulo 64 bytes, and
    the bit length on 8 bytes, most significant first. *)
Definition be_bytes (count : nat) (x : Z) : list Z :=
  (λ i : nat, Z.shiftr x (8 * Z.of_nat (count - 1 - i)) mod 256) <$> seq 0 count.

Definition pad (msg : list Z) : list Z :=
  let len := Z.of_nat (length msg) in
  let zeros := Z.to_nat ((55 - len) mod 64) in
  msg ++ [0x80] ++ replicate zeros 0 ++ be_bytes 8 (8 * len).

Fixpoint be_words (bytes : list Z) : list Z :=
  match bytes with
  | a :: b :: c :: d :: rest =>
      (Z.shiftl a 24 + Z.shiftl b 16 + Z.shiftl c 8 + d) :: be_words rest
  | _ => []
  end.

(** The schedule, latest word first: [W_t] from the 16 words before it. *)
Fixpoint schedule (more : nat) (w : list Z) : list Z :=
  match more with
  | O => w
  | S more' =>
      let at_ (i : nat) := nth i w 0 in
      schedule more' (add (add (sigma1 (at_ 1%nat)) (at_ 6%nat))
                          (add (sigma0 (at_ 14%nat)) (at_ 15%nat)) :: w)
  end.

Definition round (s : list Z) (kw : Z * Z) : list Z :=
  match s with
  | [a; b; c; d; e; f; g; h] =>
      let t1 := add (add (add h (Sigma1 e)) (add (Ch e f g) kw.1)) kw.2 in
      let t2 := add (Sigma0 a) (Maj a b c) in
      [add t1 t2; a; b; c; add d t1; e; f; g]
  | _ => s
  end.

Definition compress (h : list Z) (block : list Z) : list Z :=
  let w := reverse (schedule 48 (reverse block)) in
  zip_with add h (fold_left round (zip K w) h).

Fixpoint blocks (count : nat) (words : list Z) : list (list Z) :=
  match count with
  | O => []
  | S count' => take 16 words :: blocks count' (drop 16 words)
  end.

Definition digest (msg : list Z) : list Z :=
  let words := be_words (pad msg) in
  fold_left compress (blocks (length words / 16) words) H0.

Definition hex_digit (x : Z) : ascii :=
  if x <? 10 then ascii_of_nat (Z.to_nat (48 + x)) else ascii_of_nat (Z.to_nat (87 + x)).

Definition hex_word (x : Z) : string :=
  string_of_list_ascii ((λ i : nat, hex_digit (Z.shiftr x (4 * Z.of_nat (7 - i)) mod 16)) <$> seq 0 8).

Definition bytes_of (s : string) : list Z :=
  (λ c, Z.of_nat (nat_of_ascii c)) <$> list_ascii_of_string s.

(** [hashlib.sha256(data).hexdigest()] *)
Definition hexdigest (data : string) : string :=
  String.concat "" (hex_word <$> digest (bytes_of data)).
End Sha256.

(** ** Exceptions, events and the host

    The program runs child processes and library code whose behaviour is
    not in the source: they are the fields of [Host]. *)

Inductive os_error :=
  | FileNotFoundError
  | FileExistsError
  | IsADirectoryError
  | NotADirectoryError
  | TooManyLinks
  | OtherOSError.

Inductive exit_status :=
  | ExitCode (n : Z)
  | ExitMessage (msg : string).

Inductive exn :=
  | SystemExit (status : exit_status)
  | AssertionError
  | CalledProcessError (returncode : Z) (cmd : list string)
  | OSError (e : os_error) (path : string)
  | KeyError (key : string)
  | IndexError
  | TypeError
  | UnboundLocalError (name : string)
  | LibraryError (what : string).

Inductive res (A : Type) :=
  | Ok (a : A)
  | Raise (e : exn).
Global Arguments Ok {A} a.
Global Arguments Raise {A} e.

(** A child process: [env = None] passes the parent's environment on. *)
Record call := Call {
  argv : list string;
  cwd : option string;
  env : option (gmap string string);
}.

Inductive outcome :=
  | Exited (returncode : Z) (stdout : string)
  | NotLaunched (e : os_error).

(** What the program does that is neither a value nor a change of the file
    system: console output and child processes. *)
Inductive event :=
  | EvPrint (msg : string)
  | EvWarning (msg : string)
  | EvSpawn (c : call) (o : outcome).

(** An entry of [build.dist_scripts]. *)
Record dist_script := DistScript {
  exe : list string;
  args : list string;
}.

(** What [run] reads from the object [build.load] returns. *)
Record build := Build {
  source_dir : string;
  build_dir : string;
  project_name : string;
  project_version : string;
  dist_scripts : list dist_script;
}.

Record options := Options {
  formats : string;
}.

Class Host := {
  (** [os.environ] *)
  environ : gmap string string;
  (** a child process run to its end, and what it does to the files *)
  spawn : call → fs → outcome * fs;
  (** the bytes [lzma.open] and [gzip.open] write for the bytes given *)
  lzma_compress : string → string;
  gzip_compress : string → string;
  (** [shutil.make_archive(base_name, format, root_dir, base_dir)] *)
  make_archive : string → string → string → string → fs → option exn * fs;
  (** [shutil.unpack_archive(filename, extract_dir)] *)
  unpack_archive : string → string → fs → option exn * fs;
  (** [mesonbuild.environment.detect_ninja()] *)
  detect_ninja : option string;
  (** [mesonbuild.mesonlib.meson_command] *)
  meson_command : list string;
  (** [mesonbuild.build.load] *)
  build_load : string → fs → res build;
}.

(** ** The monad

    A computation takes the file system and returns a value or an
    exception, the file system it leaves, and the events it produced.  An
    exception keeps the changes made before it. *)

Definition M (A : Type) : Type := fs → res A * fs * list event.

Global Instance M_ret : MRet M := λ A a t, (Ok a, t, []).

Definition bind {A B} (m : M A) (f : A → M B) : M B := λ t,
  match m t with
  | (Ok a, t1, l1) => let '(r, t2, l2) := f a t1 in (r, t2, l1 ++ l2)
  | (Raise e, t1, l1) => (Raise e, t1, l1)
  end.

Global Instance M_bind : MBind M := λ A B f m, bind m f.

Declare Scope prog_scope.
Delimit Scope prog_scope with prog.
Bind Scope prog_scope with M.
Notation "x ← y ; z" := (bind y (λ x : _, z))
  (at level 20, y at level 100, z at level 200, only parsing) : prog_scope.
Notation "' x ← y ; z" := (bind y (λ x : _, z))
  (at level 20, x pattern, y at level 100, z at level 200, only parsing) : prog_scope.
Notation "x ;; z" := (bind x (λ _, z))
  (at level 100, z at level 200, only parsing, right associativity) : prog_scope.
Open Scope prog_scope.

Definition raise {A} (e : exn) : M A := λ t, (Raise e, t, []).
Definition emit (ev : event) : M unit := λ t, (Ok (), t, [ev]).
Definition query {A} (f : fs → A) : M A := λ t, (Ok (f t), t, []).

(** [for x in l: body(x)] *)
Fixpoint for_ {A} (l : list A) (body : A → M unit) : M unit :=
  match l with
  | [] => mret ()
  | x :: l' => body x;; for_ l' body
  end.

(** [try: body finally: final] *)
Definition try_finally {A} (body : M A) (final : M unit) : M A := λ t,
  let '(r, t1, l1) := body t in
  match final t1 with
  | (Ok _, t2, l2) => (r, t2, l1 ++ l2)
  | (Raise e, t2, l2) => (Raise e, t2, l1 ++ l2)
  end.

Definition is_OSError (e : exn) : bool :=
  match e with
  | OSError _ _ => true
  | _ => false
  end.

(** [try: body except OSError: handler] *)
Definition try_except_OSError {A} (body : M A) (handler : M A) : M A := λ t,
  match body t with
  | (Raise e, t1, l1) =>
      if is_OSError e then let '(r, t2, l2) := handler t1 in (r, t2, l1 ++ l2)
      else (Raise e, t1, l1)
  | ok => ok
  end.

(** [assert(b)] *)
Definition py_assert (b : bool) : M unit :=
  if b then mret () else raise AssertionError.

(** [sys.exit(arg)] *)
Definition sys_exit {A} (status : exit_status) : M A := raise (SystemExit status).

Definition print (msg : string) : M unit := emit (EvPrint msg).
Definition mlog_warning (msg : string) : M unit := emit (EvWarning msg).


(** ** Operating-system and library calls *)

Section Program.
Context `{Host}.

Definition os_path_exists (p : string) : M bool :=
  query (λ t, bool_decide (is_Some (stat t p))).

Definition os_path_isdir (p : string) : M bool :=
  query (λ t, bool_decide (stat t p = Some Dir)).

Definition os_path_isfile (p : string) : M bool :=
  query (λ t, match stat t p with Some (File _) => true | _ => false end).

Definition os_path_islink (p : string) : M bool :=
  query (λ t, match lstat t p with Some (Symlink _) => true | _ => false end).

Definition glob_glob (pathname : string) : M (list string) :=
  query (λ t, glob t pathname).

(** [os.unlink(p)] *)
Definition os_unlink (p : string) : M unit := λ t,
  match lstat t p with
  | Some (File _) | Some (Symlink _) => (Ok (), delete (components p) t, [])
  | Some Dir => (Raise (OSError IsADirectoryError p), t, [])
  | None => (Raise (OSError FileNotFoundError p), t, [])
  end.

(** What is left when the directory [k] and all below it are removed. *)
Definition prune (k : list string) (t : fs) : fs :=
  filter (λ kv, ¬ k `prefix_of` kv.1) t.

(** [shutil.rmtree(p)]: a link, a plain file and a missing path are
    errors. *)
Definition shutil_rmtree (p : string) : M unit := λ t,
  match lstat t p with
  | Some Dir =>
      if decide (components p = []) then (Raise (OSError OtherOSError p), t, [])
      else (Ok (), prune (components p) t, [])
  | Some (Symlink _) => (Raise (OSError OtherOSError p), t, [])
  | Some (File _) => (Raise (OSError NotADirectoryError p), t, [])
  | None => (Raise (OSError FileNotFoundError p), t, [])
  end.

(** Modelled from the spec: [mesonbuild.mesonlib.windows_proof_rmtree] is
    not among the sources; the specification has directories removed
    recursively. *)
Definition windows_proof_rmtree (f : string) : M unit := shutil_rmtree f.

(** The directory [k] is created under its parent [removelast k]. *)
Definition mkdir_at (k : list string) (p : string) : M unit := λ t,
  match node_at t k with
  | Some _ => (Raise (OSError FileExistsError p), t, [])
  | None =>
      match node_at t (removelast k) with
      | Some Dir => (Ok (), <[k := Dir]> t, [])
      | Some _ => (Raise (OSError NotADirectoryError p), t, [])
      | None => (Raise (OSError FileNotFoundError p), t, [])
      end
  end.

(** [os.mkdir(p)] *)
Definition os_mkdir (p : string) : M unit := mkdir_at (components p) p.

(** [os.makedirs(p, exist_ok=exist_ok)]: the missing ancestors are created
    from the root down, then the directory itself. *)
Fixpoint makedirs_from (above below : list string) (p : string) (exist_ok : bool) : M unit :=
  match below with
  | [] => mret ()
  | n :: below' =>
      let k := above ++ [n] in
      there ← query (λ t, node_at t k);
      match there, below' with
      | None, _ => mkdir_at k p;; makedirs_from k below' p exist_ok
      | Some _, [] =>
          d ← query (λ t, bool_decide (stat t p = Some Dir));
          if exist_ok && d then mret () else raise (OSError FileExistsError p)
      | Some _, _ => makedirs_from k below' p exist_ok
      end
  end.

Definition os_makedirs (p : string) (exist_ok : bool) : M unit :=
  match components p with
  | [] => if exist_ok then mret () else raise (OSError FileExistsError p)
  | k => makedirs_from [] k p exist_ok
  end.

(** [open(p, 'rb').read()], and [open(p)] read to its end *)
Definition read_file (p : string) : M string := λ t,
  match follow MAXSYMLINKS t (components p) with
  | None => (Raise (OSError TooManyLinks p), t, [])
  | Some k =>
      match node_at t k with
      | Some (File data) => (Ok data, t, [])
      | Some Dir => (Raise (OSError IsADirectoryError p), t, [])
      | _ => (Raise (OSError FileNotFoundError p), t, [])
      end
  end.

(** [open(p, 'w')] or [open(p, 'wb')], one [write(data)], and [close()] *)
Definition write_file (p : string) (data : string) : M unit := λ t,
  match follow MAXSYMLINKS t (components p) with
  | None => (Raise (OSError TooManyLinks p), t, [])
  | Some k =>
      match node_at t k with
      | Some Dir => (Raise (OSError IsADirectoryError p), t, [])
      | _ =>
          match node_at t (removelast k) with
          | Some Dir => (Ok (), <[k := File data]> t, [])
          | Some _ => (Raise (OSError NotADirectoryError p), t, [])
          | None => (Raise (OSError FileNotFoundError p), t, [])
          end
      end
  end.

(** A child process is run to its end; its launch and its outcome are
    recorded. *)
Definition subprocess_run (c : call) : M (Z * string) := λ t,
  let '(o, t') := spawn c t in
  match o with
  | Exited rc out => (Ok (rc, out), t', [EvSpawn c o])
  | NotLaunched e => (Raise (OSError e (default "" (head (argv c)))), t', [EvSpawn c o])
  end.

(** [subprocess.call(argv, cwd=cwd, env=env)] *)
Definition subprocess_call (c : call) : M Z :=
  r ← subprocess_run c; mret r.1.

(** [subprocess.check_call] *)
Definition subprocess_check_call (c : call) : M unit :=
  rc ← subprocess_call c;
  if decide (rc ≠ 0%Z) then raise (CalledProcessError rc (argv c)) else mret ().

(** [subprocess.check_output] *)
Definition subprocess_check_output (c : call) : M string :=
  r ← subprocess_run c;
  if decide (r.1 ≠ 0%Z) then raise (CalledProcessError r.1 (argv c)) else mret r.2.

Definition library_call (f : fs → option exn * fs) : M unit := λ t,
  match f t with
  | (None, t') => (Ok (), t', [])
  | (Some e, t') => (Raise e, t', [])
  end.

Definition shutil_make_archive (base_name format root_dir base_dir : string) : M unit :=
  library_call (make_archive base_name format root_dir base_dir).

Definition shutil_unpack_archive (filename extract_dir : string) : M unit :=
  library_call (unpack_archive filename extract_dir).

(** [build.load(build_dir)] reads and changes nothing. *)
Definition build_load_from (build_dir : string) : M build := λ t,
  match build_load build_dir t with
  | Ok b => (Ok b, t, [])
  | Raise e => (Raise e, t, [])
  end.

(** [d[k]] *)
Definition dict_get (d : gmap string string) (k : string) : M string :=
  match d !! k with
  | Some v => mret v
  | None => raise (KeyError k)
  end.

(** [l[0]] *)
Definition list_first (l : list string) : M string :=
  match l with
  | x :: _ => mret x
  | [] => raise IndexError
  end.

(** ** [mdist.py] *)

Definition archive_choices : list string := ["gztar"; "xztar"; "zip"].

Definition archive_extension : gmap string string :=
  <["gztar" := ".tar.gz"]> (<["xztar" := ".tar.xz"]> (<["zip" := ".zip"]> ∅)).

Definition create_hash (fname : string) : M unit :=
  let hashname := fname +:+ ".sha256sum" in
  data ← read_file fname;
  let hexdigest := Sha256.hexdigest data in
  write_file hashname (hexdigest +:+ " " +:+ basename fname +:+ NL).

Definition del_gitfiles (dirname : string) : M unit :=
  files ← glob_glob (join dirname ".git*");
  for_ files (λ f,
    d ← os_path_isdir f;
    l ← os_path_islink f;
    if d && negb l then windows_proof_rmtree f else os_unlink f).

(** The body of the loop of [process_submodules]; [continue] is the
    return of the unit. *)
Definition process_submodules_line (dirname : string) (line : string) : M unit :=
  let line := strip line in
  if negb (contains_char "=" line) then mret ()
  else
    let '(k, v) := split1 "=" line in
    let k := strip k in
    let v := strip v in
    if decide (k ≠ "path") then mret ()
    else del_gitfiles (join dirname v).

Definition process_submodules (dirname : string) : M unit :=
  let module_file := join dirname ".gitmodules" in
  e ← os_path_exists module_file;
  if negb e then mret ()
  else
    subprocess_check_call
      (Call ["git"; "submodule"; "update"; "--init"; "--recursive"] (Some dirname) None);;
    text ← read_file module_file;
    for_ (py_lines text) (process_submodules_line dirname).

Definition run_dist_scripts (dist_root : string) (dist_scripts : list dist_script) : M unit :=
  py_assert (isabs dist_root);;
  let env := <["MESON_DIST_ROOT" := dist_root]> environ in
  for_ dist_scripts (λ d,
    let script := exe d in
    let args := args d in
    let name := str_join " " (script ++ args) in
    print ("Running custom dist script " +:+ py_repr name);;
    try_except_OSError
      (rc ← subprocess_call (Call (script ++ args) None (Some env));
       if decide (rc ≠ 0%Z) then sys_exit (ExitMessage "Dist script errored out")
       else mret ())
      (print ("Failed to run dist script " +:+ py_repr name);;
       sys_exit (ExitCode 1))).

Definition git_have_dirty_index (src_root : string) : M bool :=
  ret ← subprocess_call (Call ["git"; "-C"; src_root; "diff-index"; "--quiet"; "HEAD"] None None);
  mret (bool_decide (ret = 1%Z)).

Definition uncommitted_warning : string :=
  "Repository has uncommitted changes that will not be included in the dist tarball".

(** [for a in archives: ...; output_names.append(...)], the list being the
    state of the loop *)
Fixpoint for_append {A} (l : list A) (acc : list string) (body : A → M string) : M (list string) :=
  match l with
  | [] => mret acc
  | x :: l' => y ← body x; for_append l' (acc ++ [y]) body
  end.

Definition create_dist_git (dist_name : string) (archives : list string)
    (src_root bld_root dist_sub : string) (dist_scripts : list dist_script) : M (list string) :=
  dirty ← git_have_dirty_index src_root;
  (if dirty then mlog_warning uncommitted_warning else mret ());;
  let distdir := join dist_sub dist_name in
  e ← os_path_exists distdir;
  (if e then shutil_rmtree distdir else mret ());;
  os_makedirs distdir false;;
  subprocess_check_call (Call ["git"; "clone"; "--shared"; src_root; distdir] None None);;
  process_submodules distdir;;
  del_gitfiles distdir;;
  run_dist_scripts distdir dist_scripts;;
  output_names ← for_append archives [] (λ a,
    ext ← dict_get archive_extension a;
    let compressed_name := distdir +:+ ext in
    shutil_make_archive distdir a dist_sub dist_name;;
    mret compressed_name);
  shutil_rmtree distdir;;
  mret output_names.

Definition hg_have_dirty_index (src_root : string) : M bool :=
  out ← subprocess_check_output (Call ["hg"; "-R"; src_root; "summary"] None None);
  mret (negb (is_infix "commit: (clean)" out)).

(** [with opener(dst, 'wb') as zf, open(src, 'rb') as tf:
    shutil.copyfileobj(tf, zf)]: the destination is created first and holds
    the compressed empty stream if the source cannot be opened. *)
Definition compress_to (compress : string → string) (src dst : string) : M unit :=
  write_file dst (compress "");;
  data ← read_file src;
  write_file dst (compress data).

Definition create_dist_hg (dist_name : string) (archives : list string)
    (src_root bld_root dist_sub : string) (dist_scripts : list dist_script) : M (list string) :=
  dirty ← hg_have_dirty_index src_root;
  (if dirty then mlog_warning uncommitted_warning else mret ());;
  os_makedirs dist_sub true;;
  let tarname := join dist_sub (dist_name +:+ ".tar") in
  let xzname := tarname +:+ ".xz" in
  let gzname := tarname +:+ ".gz" in
  let zipname := join dist_sub (dist_name +:+ ".zip") in
  subprocess_check_call (Call ["hg"; "archive"; "-R"; src_root; "-S"; "-t"; "tar"; tarname] None None);;
  let output_names := [] in
  (if bool_decide (dist_scripts ≠ [])
   then mlog_warning "dist scripts are not supported in Mercurial projects"
   else mret ());;
  output_names ←
    (if bool_decide ("xztar" ∈ archives)
     then compress_to lzma_compress tarname xzname;; mret (output_names ++ [xzname])
     else mret output_names);
  output_names ←
    (if bool_decide ("gztar" ∈ archives)
     then compress_to gzip_compress tarname gzname;; mret (output_names ++ [gzname])
     else mret output_names);
  os_unlink tarname;;
  output_names ←
    (if bool_decide ("zip" ∈ archives)
     then subprocess_check_call
            (Call ["hg"; "archive"; "-R"; src_root; "-S"; "-t"; "zip"; zipname] None None);;
          mret (output_names ++ [zipname])
     else mret output_names);
  mret output_names.

(** The three scratch directories of [check_dist]. *)
Definition scratch_dirs (privdir : string) : list string :=
  [join privdir "dist-unpack"; join privdir "dist-build"; join privdir "dist-install"].

(** Lines 151 to 154 of [check_dist]: each scratch directory is removed if
    it exists and created. *)
Definition recreate (dirs : list string) : M unit :=
  for_ dirs (λ p,
    e ← os_path_exists p;
    (if e then shutil_rmtree p else mret ());;
    os_mkdir p).

(** [[ninja_bin] + rest] as an argument vector: [detect_ninja()] returns
    [None] when there is no ninja, and a [None] in the vector is a
    [TypeError] at the launch. *)
Definition ninja_argv (ninja_bin : option string) (rest : list string) : M (list string) :=
  match ninja_bin with
  | Some n => mret (n :: rest)
  | None => raise TypeError
  end.

(** The block under [try:] of [check_dist]: [Some rc] for [return rc], and
    [None] when the block runs to its end. *)
Definition check_dist_try (packagename : string) (meson_command : list string)
    (unpackdir builddir installdir : string) (ninja_bin : option string) : M (option Z) :=
  shutil_unpack_archive packagename unpackdir;;
  unpacked_files ← glob_glob (join unpackdir "*");
  py_assert (bool_decide (length unpacked_files = 1));;
  unpacked_src_dir ← list_first unpacked_files;
  rc ← subprocess_call
         (Call (meson_command ++ ["--backend=ninja"; unpacked_src_dir; builddir]) None None);
  if decide (rc ≠ 0%Z) then
    print "Running Meson on distribution package failed";; mret (Some 1%Z)
  else
  cmd ← ninja_argv ninja_bin [];
  rc ← subprocess_call (Call cmd (Some builddir) None);
  if decide (rc ≠ 0%Z) then
    print "Compiling the distribution package failed";; mret (Some 1%Z)
  else
  cmd ← ninja_argv ninja_bin ["test"];
  rc ← subprocess_call (Call cmd (Some builddir) None);
  if decide (rc ≠ 0%Z) then
    print "Running unit tests on the distribution package failed";; mret (Some 1%Z)
  else
  let myenv := <["DESTDIR" := installdir]> environ in
  cmd ← ninja_argv ninja_bin ["install"];
  rc ← subprocess_call (Call cmd (Some builddir) (Some myenv));
  if decide (rc ≠ 0%Z) then
    print "Installing the distribution package failed";; mret (Some 1%Z)
  else mret None.

(** The block under [finally:] of [check_dist]. *)
Definition check_dist_finally (unpackdir builddir installdir : string) : M unit :=
  shutil_rmtree unpackdir;;
  shutil_rmtree builddir;;
  shutil_rmtree installdir.

Definition check_dist (packagename : string) (meson_command : list string) (privdir : string) : M Z :=
  print ("Testing distribution package " +:+ packagename);;
  let unpackdir := join privdir "dist-unpack" in
  let builddir := join privdir "dist-build" in
  let installdir := join privdir "dist-install" in
  recreate [unpackdir; builddir; installdir];;
  let ninja_bin := detect_ninja in
  returned ← try_finally
    (check_dist_try packagename meson_command unpackdir builddir installdir ninja_bin)
    (check_dist_finally unpackdir builddir installdir);
  match returned with
  | Some rc => mret rc
  | None =>
      print ("Distribution package " +:+ packagename +:+ " tested");;
      mret 0%Z
  end.

Definition unpermitted_message (i : string) : string :=
  "Value " +:+ DQ +:+ i +:+ DQ +:+ " not one of permitted values "
  +:+ py_repr_list archive_choices +:+ ".".

(** The loop variable [i] outlives the loop: the state of the loop is the
    list [result] and the last value of [i], which is unbound before the
    first iteration. *)
Fixpoint determine_archives_loop (l : list string) (result : list string) (i : option string)
    : M (list string * option string) :=
  match l with
  | [] => mret (result, i)
  | i :: l' =>
      if decide (i ∉ archive_choices) then sys_exit (ExitMessage (unpermitted_message i))
      else determine_archives_loop l' (result ++ [i]) (Some i)
  end.

Definition determine_archives_to_generate (options : options) : M (list string) :=
  '(result, i) ← determine_archives_loop (split_on "," (formats options)) [] None;
  match i with
  | None => raise (UnboundLocalError "i")
  | Some i =>
      if decide (String.length i = 0) then sys_exit (ExitMessage "No archive types specified.")
      else mret result
  end.

(** Lines 214 to 221 of [run].  [names] is a list on both paths that reach
    these lines, so the test [names is None] is false. *)
Definition run_check_and_hash (names : list string) (meson_command : list string)
    (priv_dir : string) : M Z :=
  first ← list_first names;
  rc ← check_dist first meson_command priv_dir;
  (if decide (rc = 0%Z) then for_ names create_hash else mret ());;
  mret rc.

Definition run (options : options) : M Z :=
  b ← build_load_from ".";
  let src_root := source_dir b in
  let bld_root := build_dir b in
  let priv_dir := join bld_root "meson-private" in
  let dist_sub := join bld_root "meson-dist" in
  let dist_name := project_name b +:+ "-" +:+ project_version b in
  archives ← determine_archives_to_generate options;
  let _git := join src_root ".git" in
  is_dir ← os_path_isdir _git;
  is_file ← os_path_isfile _git;
  if is_dir || is_file then
    names ← create_dist_git dist_name archives src_root bld_root dist_sub (dist_scripts b);
    run_check_and_hash names meson_command priv_dir
  else
    is_hg ← os_path_isdir (join src_root ".hg");
    if is_hg then
      names ← create_dist_hg dist_name archives src_root bld_root dist_sub (dist_scripts b);
      run_check_and_hash names meson_command priv_dir
    else
      print "Dist currently only works with Git or Mercurial repos";;
      mret 1%Z.

End Program.


(** ** Vocabulary of the statements *)

Section Vocabulary.
Context `{Host}.

(** The child process of [git_have_dirty_index]. *)
Definition diff_index_call (src_root : string) : call :=
  Call ["git"; "-C"; src_root; "diff-index"; "--quiet"; "HEAD"] None None.

(** The child process [run_dist_scripts] starts for a hook. *)
Definition hook_call (dist_root : string) (d : dist_script) : call :=
  Call (exe d ++ args d) None (Some (<["MESON_DIST_ROOT" := dist_root]> environ)).

(** The child processes among the events, in order, with their outcomes. *)
Definition spawned (l : list event) : list (call * outcome) :=
  omap (λ ev, match ev with EvSpawn c o => Some (c, o) | _ => None end) l.

(** A hook fails when it cannot be launched or exits with a status other
    than 0. *)
Definition hook_failed (o : outcome) : bool :=
  match o with
  | Exited rc _ => bool_decide (rc ≠ 0%Z)
  | NotLaunched _ => true
  end.

(** The list [create_dist_hg] returns: one name per requested format, in the
    order of its three tests. *)
Definition hg_output_names (dist_name dist_sub : string) (archives : list string)
    : list string :=
  let tarname := join dist_sub (dist_name +:+ ".tar") in
  (if bool_decide ("xztar" ∈ archives) then [tarname +:+ ".xz"] else [])
  ++ (if bool_decide ("gztar" ∈ archives) then [tarname +:+ ".gz"] else [])
  ++ (if bool_decide ("zip" ∈ archives) then [join dist_sub (dist_name +:+ ".zip")] else []).

(** The name [create_dist_git] gives the archive of a format. *)
Definition git_output_name (dist_name dist_sub : string) (a : string) : option string :=
  (λ ext, join dist_sub dist_name +:+ ext) <$> archive_extension !! a.

(** One round of the loop of [run_dist_scripts]. *)
Definition hook_round (dist_root : string) (d : dist_script) : M unit :=
  let name := str_join " " (exe d ++ args d) in
  print ("Running custom dist script " +:+ py_repr name);;
  try_except_OSError
    (rc ← subprocess_call (hook_call dist_root d);
     if decide (rc ≠ 0%Z) then sys_exit (ExitMessage "Dist script errored out")
     else mret ())
    (print ("Failed to run dist script " +:+ py_repr name);;
     sys_exit (ExitCode 1)).

Definition hg_hooks_warning : string :=
  "dist scripts are not supported in Mercurial projects".

(** Two runs that differ by the warning [w] only: the same result, the same
    file system, the same child processes, and [w] among the events of the
    first run when it returns. *)
Definition differ_by_warning {A : Type} (w : event) (x y : res A * fs * list event) : Prop :=
  x.1 = y.1 ∧ spawned x.2 = spawned y.2 ∧ ∀ a, x.1.1 = Ok a → w ∈ x.2.

(** The child processes and the unpacking of the verifier take a file
    system with [P] to one with [P]. *)
Definition checker_keeps (P : fs → Prop) : Prop :=
  (∀ c t, P t → P (spawn c t).2)
  ∧ (∀ filename extract_dir t, P t → P (unpack_archive filename extract_dir t).2).

(** There is nothing at [k] or below it. *)
Definition absent (t : fs) (k : list string) : Prop :=
  ∀ k', k `prefix_of` k' → t !! k' = None.





(** The sidecar of an archive and the line [create_hash] writes in it. *)
Definition sidecar (fname : string) : string := fname +:+ ".sha256sum".

Definition sidecar_line (data fname : string) : string :=
  Sha256.hexdigest data +:+ " " +:+ basename fname +:+ NL.

(** The archives are in [t] what they are in [t0]. *)
Definition archives_kept (names : list string) (t0 t : fs) : Prop :=
  ∀ n, n ∈ names → t !! components n = t0 !! components n.

(** A file can be opened for writing at [k]: the directory of [k] is there,
    and [k] is free or a regular file. *)
Definition writable (t : fs) (k : list string) : Prop :=
  node_at t (removelast k) = Some Dir
  ∧ match node_at t k with
    | None | Some (File _) => True
    | Some (Symlink _) | Some Dir => False
    end.

(** The child process of [process_submodules]. *)
Definition submodule_update_call (dirname : string) : call :=
  Call ["git"; "submodule"; "update"; "--init"; "--recursive"] (Some dirname) None.

(** The value of a line [path = value] of [.gitmodules], as the loop of
    [process_submodules] reads it, and [None] for any other line. *)
Definition path_entry (line : string) : option string :=
  let line := strip line in
  if contains_char "=" line then
    let '(k, v) := split1 "=" line in
    if decide (strip k = "path") then Some (strip v) else None
  else None.

Definition gitmodules_paths (text : string) : list string :=
  omap path_entry (py_lines text).

(** No entry of the directory [dirname] has a name that starts with
    [.git]. *)
Definition no_gitfiles_in (t : fs) (dirname : string) : Prop :=
  glob t (join dirname ".git*") = [].

(** The paths at or below [d] that have a name starting with [.git] on the
    way down from [d]: the control files at any depth. *)
Definition gitfiles_below (t : fs) (d : list string) : list (list string) :=
  filter (λ k, d `prefix_of` k
               ∧ Exists (λ n, String.prefix ".git" n = true) (drop (length d) k))
         (map_to_list t).*1.

End Vocabulary.

(** A computation keeps [P] and emits [Q] when it takes a file system with
    [P] to one with [P], whatever its result, and all its events have
    [Q]. *)
Definition keeps {A : Type} (P : fs → Prop) (Q : event → Prop) (m : M A) : Prop :=
  ∀ t, P t → P (m t).1.2 ∧ Forall Q (m t).2.

(** A computation emits [Q] when all its events have [Q]. *)
Abbreviation emits Q m := (keeps (λ _, True) Q m).

(** ** A concrete world

    A source tree under Git with one submodule that has a submodule of its
    own, a source tree under Mercurial, a configured build directory, and
    child processes and library calls that behave as git, hg, meson, ninja
    and [shutil] do on them.  The statements below are run on it. *)

Module Demo.

Definition TAB : string := String (ascii_of_nat 9) "".

(** [.gitmodules] with one submodule at [path]. *)
Definition gitmodules (name path : string) : string :=
  "[submodule " +:+ DQ +:+ name +:+ DQ +:+ "]" +:+ NL
  +:+ TAB +:+ "path = " +:+ path +:+ NL
  +:+ TAB +:+ "url = ../" +:+ name +:+ ".git" +:+ NL.

Definition files : fs :=
  list_to_map
    [ (["src"], Dir);
      (["src"; ".git"], Dir);
      (["src"; ".git"; "HEAD"], File "ref: refs/heads/master");
      (["src"; ".gitignore"], File "build");
      (["src"; ".gitmodules"], File (gitmodules "sub" "sub"));
      (["src"; "meson.build"], File "project('proj', 'c', version : '1.0')");
      (["src"; "main.c"], File "int main(void) { return 0; }");
      (["src"; "sub"], Dir);
      (["hgsrc"], Dir);
      (["hgsrc"; ".hg"], Dir);
      (["hgsrc"; "meson.build"], File "project('proj', 'c', version : '1.0')");
      (["build"], Dir);
      (["build"; "meson-private"], Dir);
      (["build"; "meson-private"; "dist-build"], Dir);
      (["build"; "meson-private"; "dist-build"; "stale.o"], File "old") ].

(** The tree under [src] copied under [dst]. *)
Definition copy_tree (src dst : list string) (t : fs) : fs :=
  foldr (λ kv acc,
           if decide (src `prefix_of` kv.1)
           then <[dst ++ drop (length src) kv.1 := kv.2]> acc
           else acc)
        t (map_to_list t).

Definition put_all (entries : list (list string * node)) (t : fs) : fs :=
  foldr (λ kv acc, <[kv.1 := kv.2]> acc) t entries.

(** What [git submodule update --init --recursive] leaves in the work tree
    [d]: the submodule [sub] and, inside it, its own submodule [nested],
    each with a [.git] file that points to the repository of the parent. *)
Definition submodule_checkout (d : list string) : list (list string * node) :=
  [ (d ++ ["sub"; ".git"], File "gitdir: ../.git/modules/sub");
    (d ++ ["sub"; ".gitmodules"], File (gitmodules "nested" "nested"));
    (d ++ ["sub"; "lib.c"], File "int lib(void) { return 1; }");
    (d ++ ["sub"; "nested"], Dir);
    (d ++ ["sub"; "nested"; ".git"], File "gitdir: ../../.git/modules/sub/modules/nested");
    (d ++ ["sub"; "nested"; "n.c"], File "int n(void) { return 2; }") ].

(** What the archive holds at its top level. *)
Inductive archive_shape :=
  | OneDirectory
  | WithHiddenFile
  | TwoDirectories
  | NoEntry.

Definition unpacked (shape : archive_shape) : list (list string * node) :=
  let project :=
    [ (["proj-1.0"], Dir);
      (["proj-1.0"; "meson.build"], File "project('proj', 'c', version : '1.0')") ] in
  match shape with
  | OneDirectory => project
  | WithHiddenFile => project ++ [([".hidden"], File "")]
  | TwoDirectories => project ++ [(["docs"], Dir)]
  | NoEntry => []
  end.

Record scenario := Scenario {
  the_build : build;          (** what [build.load] returns *)
  dirty_status : Z;           (** the exit status of [git diff-index] *)
  meson_status : Z;           (** the exit status of the configure step *)
  shape : archive_shape;      (** what the archives hold *)
}.

Definition environment : gmap string string :=
  <["PATH" := "/usr/bin:/bin"]> (<["HOME" := "/root"]> ∅).

(** meson and ninja: the configure step writes [build.ninja] in the build
    directory, its last argument. *)
Definition tool (meson_status : Z) (c : call) (t : fs) : outcome * fs :=
  match argv c with
  | prog :: _ =>
      if decide (prog = "meson") then
        (Exited meson_status "",
         <[components (join (default "" (last (argv c))) "build.ninja") := File "rule cc"]> t)
      else if decide (prog = "ninja") then (Exited 0 "", t)
      else (NotLaunched FileNotFoundError, t)
  | [] => (NotLaunched FileNotFoundError, t)
  end.

Definition child (s : scenario) (c : call) (t : fs) : outcome * fs :=
  match argv c with
  | ["git"; "-C"; _; "diff-index"; "--quiet"; "HEAD"] => (Exited (dirty_status s) "", t)
  | ["git"; "clone"; "--shared"; src; dst] =>
      (Exited 0 "", copy_tree (components src) (components dst) t)
  | ["git"; "submodule"; "update"; "--init"; "--recursive"] =>
      (Exited 0 "", put_all (submodule_checkout (components (default "" (cwd c)))) t)
  | ["hg"; "-R"; _; "summary"] =>
      (Exited 0 ("parent: 0:2f1c tip" +:+ NL +:+ "commit: (clean)" +:+ NL), t)
  | ["hg"; "archive"; "-R"; _; "-S"; "-t"; kind; name] =>
      (Exited 0 "", <[components name := File (kind +:+ " archive of the working copy")]> t)
  | ["/src/tools/stamp.sh"; label] =>
      let root := default "" (env c ≫= (.!! "MESON_DIST_ROOT")) in
      (Exited 0 "", <[components (join root "VERSION") := File label]> t)
  | ["/bin/false"] => (Exited 1 "", t)
  | _ => tool (meson_status s) c t
  end.

Definition pack (base_name format root_dir base_dir : string) (t : fs)
    : option exn * fs :=
  match archive_extension !! format with
  | Some ext =>
      (None, <[components (base_name +:+ ext) := File (format +:+ " archive of " +:+ base_dir)]> t)
  | None => (Some (LibraryError "unknown archive format"), t)
  end.

Definition unpack (shape : archive_shape) (filename extract_dir : string) (t : fs)
    : option exn * fs :=
  match stat t filename with
  | Some (File _) =>
      (None,
       put_all ((λ kv, (components extract_dir ++ kv.1, kv.2)) <$> unpacked shape) t)
  | _ => (Some (LibraryError "cannot read the archive"), t)
  end.

(** The whole world: git, hg, the hooks, meson and ninja. *)
Definition host (s : scenario) : Host := {|
  environ := environment;
  spawn := child s;
  lzma_compress := λ data, "xz:" +:+ data;
  gzip_compress := λ data, "gz:" +:+ data;
  make_archive := pack;
  unpack_archive := unpack (shape s);
  detect_ninja := Some "ninja";
  meson_command := ["meson"];
  build_load := λ _ _, Ok (the_build s);
|}.

(** The part of the world the verifier meets: meson and ninja only. *)
Definition checker (meson_status : Z) (shape : archive_shape) : Host := {|
  environ := environment;
  spawn := tool meson_status;
  lzma_compress := λ data, "xz:" +:+ data;
  gzip_compress := λ data, "gz:" +:+ data;
  make_archive := pack;
  unpack_archive := unpack shape;
  detect_ninja := Some "ninja";
  meson_command := ["meson"];
  build_load := λ _ _, Raise (LibraryError "not a build directory");
|}.

(** The files once the archives of a Git run are made. *)
Definition packed : fs :=
  put_all
    [ (["build"; "meson-dist"], Dir);
      (["build"; "meson-dist"; "proj-1.0.tar.xz"], File "xztar archive of proj-1.0");
      (["build"; "meson-dist"; "proj-1.0.zip"], File "zip archive of proj-1.0") ]
    files.

(** The files once the snapshot directory is made and the source tree is
    cloned into it. *)
Definition cloned : fs :=
  copy_tree ["src"] ["build"; "meson-dist"; "proj-1.0"]
    (put_all [(["build"; "meson-dist"], Dir)] files).

Definition stamp_hook : dist_script := DistScript ["/src/tools/stamp.sh"] ["release"].

Definition git_build : build := Build "/src" "/build" "proj" "1.0" [stamp_hook].
Definition hg_build : build := Build "/hgsrc" "/build" "proj" "1.0" [stamp_hook].

(** A clean Git tree whose archive configures. *)
Definition git_ok : scenario := Scenario git_build 0 0 OneDirectory.
(** The same with a configure step that fails. *)
Definition git_configure_fails : scenario := Scenario git_build 0 2 OneDirectory.
Definition hg_ok : scenario := Scenario hg_build 0 0 OneDirectory.

End Demo.

(** ** Vocabulary of the further properties *)

Section Further.
Context `{Host}.

(** The child processes of [create_dist_hg]. *)
Definition hg_summary_call (src_root : string) : call :=
  Call ["hg"; "-R"; src_root; "summary"] None None.

Definition hg_archive_call (src_root kind name : string) : call :=
  Call ["hg"; "archive"; "-R"; src_root; "-S"; "-t"; kind; name] None None.

(** The file system [create_dist_hg] hands to the [hg archive] of the zip
    archive, from the one [t] that the [hg archive] of the tar archive has
    left, with the bytes [data] in the tar archive: the requested xz and gz
    archives are written, then the tar archive is removed. *)
Definition hg_compressed (dist_name dist_sub : string) (archives : list string)
    (data : string) (t : fs) : fs :=
  let tarname := join dist_sub (dist_name +:+ ".tar") in
  let t1 := if bool_decide ("xztar" ∈ archives)
            then <[components (tarname +:+ ".xz") := File (lzma_compress data)]> t else t in
  let t2 := if bool_decide ("gztar" ∈ archives)
            then <[components (tarname +:+ ".gz") := File (gzip_compress data)]> t1 else t1 in
  delete (components tarname) t2.

(** The child process that clones the source tree into the snapshot. *)
Definition clone_call (src_root distdir : string) : call :=
  Call ["git"; "clone"; "--shared"; src_root; distdir] None None.

(** The child processes of the four stages of [check_dist], for the
    unpacked source directory [src]. *)
Definition stage_calls (meson_command : list string) (ninja src privdir : string)
    : list call :=
  let builddir := join privdir "dist-build" in
  let installdir := join privdir "dist-install" in
  [ Call (meson_command ++ ["--backend=ninja"; src; builddir]) None None;
    Call [ninja] (Some builddir) None;
    Call [ninja; "test"] (Some builddir) None;
    Call [ninja; "install"] (Some builddir) (Some (<["DESTDIR" := installdir]> environ)) ].

(** What [check_dist] prints when a stage exits with a status other than
    0, stage by stage. *)
Definition stage_reports : list string :=
  [ "Running Meson on distribution package failed";
    "Compiling the distribution package failed";
    "Running unit tests on the distribution package failed";
    "Installing the distribution package failed" ].

(** A child process that ran to its end with status 0. *)
Definition exited_0 (o : outcome) : Prop := ∃ out, o = Exited 0 out.

(** [shutil.make_archive] writes the archive, a regular file named by the
    base name and the extension of the format, and nothing else. *)
Definition archiver_writes_archive : Prop :=
  ∀ base_name format root_dir base_dir ext (t t2 : fs),
    archive_extension !! format = Some ext →
    make_archive base_name format root_dir base_dir t = (None, t2) →
    ∃ data, t2 = <[components (base_name +:+ ext) := File data]> t.

End Further.

(** [glob.has_magic]: the pathname has a [*], a [?] or an opening
    bracket. *)
Definition has_magic (s : string) : bool :=
  contains_char "*" s || contains_char "?" s || contains_char "[" s.

(** The characters of [hexdigest()]: the digits and [a] to [f]. *)
Definition is_lower_hex (c : ascii) : bool :=
  let n := nat_of_ascii c in
  (((48 <=? n) && (n <=? 57)) || ((97 <=? n) && (n <=? 102)))%nat.

(** An event that is not a child process. *)
Definition not_spawn (ev : event) : Prop := ∀ c o, ev ≠ EvSpawn c o.

(** ** More of the concrete world

    A tree under no version control, private directories with a scratch
    path taken by a file, a machine without ninja, and one whose child
    processes remove the unpack directory. *)

Module Edge.

Definition plain_build : build := Build "/plain" "/build" "proj" "1.0" [].

(** [/plain] has a file where Mercurial has its directory. *)
Definition plain : fs :=
  Demo.put_all
    [ (["plain"], Dir);
      (["plain"; ".hg"], File "not a repository");
      (["plain"; "meson.build"], File "project('proj', 'c', version : '1.0')") ]
    Demo.files.

Definition plain_host : Host :=
  Demo.host (Demo.Scenario plain_build 0 0 Demo.OneDirectory).

Definition occupied : fs :=
  <[["build"; "meson-private"; "dist-unpack"] := File "left over"]> Demo.packed.

Definition without_ninja : Host := {|
  environ := Demo.environment;
  spawn := Demo.tool 2;
  lzma_compress := λ data, "xz:" +:+ data;
  gzip_compress := λ data, "gz:" +:+ data;
  make_archive := Demo.pack;
  unpack_archive := Demo.unpack Demo.OneDirectory;
  detect_ninja := None;
  meson_command := ["meson"];
  build_load := λ _ _, Raise (LibraryError "not a build directory");
|}.




End Edge.

(** * Properties *)

(** ** Strings and paths *)

Lemma append_cons x (a b : string) : String x a +:+ b = String x (a +:+ b).
Proof. reflexivity. Qed.

Lemma append_nil_l (b : string) : "" +:+ b = b.
Proof. reflexivity. Qed.

Lemma append_assoc (a b c : string) : (a +:+ b) +:+ c = a +:+ b +:+ c.
Proof.
  induction a as [|x a IH]; [done |]. by rewrite !append_cons, IH.
Qed.

Lemma append_nil_r (a : string) : a +:+ "" = a.
Proof.
  induction a as [|x a IH]; [done |]. by rewrite append_cons, IH.
Qed.

Lemma length_append (a b : string) :
  String.length (a +:+ b) = String.length a + String.length b.
Proof.
  induction a as [|x a IH]; [done |]. rewrite append_cons. simpl. by rewrite IH.
Qed.

Lemma split_on_nonempty sep s : split_on sep s ≠ [].
Proof.
  destruct s as [|c s]; simpl; [done |].
  destruct (decide (c = sep)); [done |]. by destruct (split_on sep s).
Qed.

Lemma split_on_app sep a b :
  split_on sep (a +:+ String sep b) = split_on sep a ++ split_on sep b.
Proof.
  induction a as [|c a IH]; simpl.
  - by rewrite decide_True.
  - destruct (decide (c = sep)); [by rewrite IH |].
    rewrite IH. pose proof (split_on_nonempty sep a).
    by destruct (split_on sep a).
Qed.

Lemma split_on_no_sep sep s : contains_char sep s = false → split_on sep s = [s].
Proof.
  induction s as [|c s IH]; simpl; [done |].
  destruct (decide (sep = c)) as [->|Hne]; [done |].
  intros Hs. rewrite decide_False by congruence. by rewrite IH.
Qed.

Lemma endswith_slash_inv a : endswith_slash a = true → ∃ a0, a = a0 +:+ "/".
Proof.
  induction a as [|c a IH]; [done |].
  destruct a as [|d a].
  - simpl. intros Hc%bool_decide_eq_true. exists "". by subst.
  - intros Ha. destruct (IH Ha) as [a0 Ha0]. exists (String c a0).
    by rewrite append_cons, <-Ha0.
Qed.

Lemma walk_empty at_ : walk at_ "" = at_.
Proof. unfold walk. rewrite decide_True; auto. Qed.

Lemma components_snoc_slash a : components (a +:+ "/") = components a.
Proof.
  unfold components. rewrite split_on_app, fold_left_app. simpl. apply walk_empty.
Qed.

(** A path joined to another resolves to the second walked from where the
    first leads, or from the root when the second is absolute. *)
Lemma components_join a b :
  components (join a b) =
  fold_left walk (split_on "/" b) (if isabs b then [] else components a).
Proof.
  unfold join. destruct (isabs b); [done |].
  destruct (bool_decide (a = "")) eqn:Ha; simpl.
  { apply bool_decide_eq_true in Ha as ->. done. }
  destruct (endswith_slash a) eqn:Hs.
  - apply endswith_slash_inv in Hs as [a0 ->].
    rewrite components_snoc_slash, append_assoc, append_cons, append_nil_l.
    unfold components. by rewrite split_on_app, fold_left_app.
  - rewrite append_cons, append_nil_l.
    unfold components. by rewrite split_on_app, fold_left_app.
Qed.

Lemma valid_name_spec n :
  valid_name n = true ↔ n ≠ "" ∧ n ≠ "." ∧ n ≠ ".." ∧ contains_char "/" n = false.
Proof.
  unfold valid_name. rewrite !andb_true_iff, !bool_decide_eq_true, negb_true_iff. tauto.
Qed.

Lemma valid_name_not_abs n : valid_name n = true → isabs n = false.
Proof.
  intros (_ & _ & _ & Hs)%valid_name_spec. destruct n as [|c n]; [done |].
  simpl in *. destruct (decide ("/"%char = c)) as [<-|]; [done |].
  apply bool_decide_eq_false. congruence.
Qed.

Lemma walk_valid at_ n : valid_name n = true → walk at_ n = at_ ++ [n].
Proof.
  intros (? & ? & ? & _)%valid_name_spec. unfold walk.
  rewrite decide_False by tauto. by rewrite decide_False.
Qed.

Lemma components_join_name a n :
  valid_name n = true → components (join a n) = components a ++ [n].
Proof.
  intros Hn. rewrite components_join, valid_name_not_abs by done.
  rewrite split_on_no_sep by (by apply valid_name_spec in Hn as (_ & _ & _ & ?)).
  simpl. by apply walk_valid.
Qed.









(** ** The monad *)

Section Monad.
Context {A B : Type}.

Lemma bind_inv (m : M A) (f : A → M B) t r t' l :
  bind m f t = (r, t', l) →
  (∃ a t1 l1 l2, m t = (Ok a, t1, l1) ∧ f a t1 = (r, t', l2) ∧ l = l1 ++ l2)
  ∨ (∃ e, m t = (Raise e, t', l) ∧ r = Raise e).
Proof.
  unfold bind. destruct (m t) as [[[a|e] t1] l1].
  - destruct (f a t1) as [[r2 t2] l2] eqn:Hf. intros [= <- <- <-].
    left. by exists a, t1, l1, l2.
  - intros [= <- <- <-]. right. by exists e.
Qed.

Lemma bind_Ok (m : M A) (f : A → M B) t a t1 l1 :
  m t = (Ok a, t1, l1) →
  bind m f t = ((f a t1).1.1, (f a t1).1.2, l1 ++ (f a t1).2).
Proof. unfold bind. intros ->. by destruct (f a t1) as [[??]?]. Qed.

Lemma bind_Raise (m : M A) (f : A → M B) t e t1 l1 :
  m t = (Raise e, t1, l1) → bind m f t = (Raise e, t1, l1).
Proof. unfold bind. by intros ->. Qed.

Lemma bind_mret (a : A) (f : A → M B) t : bind (mret a) f t = f a t.
Proof. unfold bind, mret, M_ret. by destruct (f a t) as [[??]?]. Qed.

Lemma bind_emit ev (f : unit → M B) t :
  bind (emit ev) f t = ((f () t).1.1, (f () t).1.2, ev :: (f () t).2).
Proof. unfold bind, emit. by destruct (f () t) as [[??]?]. Qed.

Lemma bind_query {C} (q : fs → C) (f : C → M B) t : bind (query q) f t = f (q t) t.
Proof. unfold bind, query. by destruct (f (q t) t) as [[??]?]. Qed.

End Monad.

Section Keeps.
Context (P : fs → Prop) (Q : event → Prop).

Lemma keeps_ret {A : Type} (a : A) : keeps P Q (mret a).
Proof. intros t Ht. by split. Qed.

Lemma keeps_raise {A : Type} e : keeps P Q (@raise A e).
Proof. intros t Ht. by split. Qed.

Lemma keeps_query {A : Type} (f : fs → A) : keeps P Q (query f).
Proof. intros t Ht. by split. Qed.

Lemma keeps_emit ev : Q ev → keeps P Q (emit ev).
Proof. intros Hev t Ht. split; [done |]. by constructor. Qed.

Lemma keeps_bind {A B : Type} (m : M A) (f : A → M B) :
  keeps P Q m → (∀ a, keeps P Q (f a)) → keeps P Q (bind m f).
Proof.
  intros Hm Hf t Ht. destruct (Hm t Ht) as [Hp Hq]. unfold bind.
  destruct (m t) as [[[a|e] t1] l1]; simpl in *; [| done].
  destruct (Hf a t1 Hp) as [Hp2 Hq2].
  destruct (f a t1) as [[r2 t2] l2]; simpl in *.
  split; [done |]. by apply Forall_app.
Qed.

Lemma keeps_for {A : Type} (l : list A) (body : A → M unit) :
  (∀ x, x ∈ l → keeps P Q (body x)) → keeps P Q (for_ l body).
Proof.
  induction l as [|x l IH]; intros Hb; simpl.
  - apply keeps_ret.
  - apply keeps_bind; [apply Hb; by left |].
    intros _. apply IH. intros y Hy. apply Hb. by right.
Qed.

Lemma keeps_for_append {A : Type} (l : list A) acc (body : A → M string) :
  (∀ x, keeps P Q (body x)) → keeps P Q (for_append l acc body).
Proof.
  intros Hb. revert acc. induction l as [|x l IH]; intros acc; simpl.
  - apply keeps_ret.
  - apply keeps_bind; [apply Hb |]. intros y. apply IH.
Qed.

Lemma keeps_try_finally {A : Type} (body : M A) (final : M unit) :
  keeps P Q body → keeps P Q final → keeps P Q (try_finally body final).
Proof.
  intros Hb Hf t Ht. destruct (Hb t Ht) as [Hp Hq]. unfold try_finally.
  destruct (body t) as [[r t1] l1]; simpl in *.
  destruct (Hf t1 Hp) as [Hp2 Hq2].
  destruct (final t1) as [[[[]|e] t2] l2]; simpl in *;
    (split; [done | by apply Forall_app]).
Qed.

Lemma keeps_try_except_OSError {A : Type} (body handler : M A) :
  keeps P Q body → keeps P Q handler → keeps P Q (try_except_OSError body handler).
Proof.
  intros Hb Hh t Ht. destruct (Hb t Ht) as [Hp Hq]. unfold try_except_OSError.
  destruct (body t) as [[[a|e] t1] l1]; simpl in *; [done |].
  destruct (is_OSError e); [| done].
  destruct (Hh t1 Hp) as [Hp2 Hq2].
  destruct (handler t1) as [[r2 t2] l2]; simpl in *.
  split; [done | by apply Forall_app].
Qed.

Lemma keeps_if {A : Type} (b : bool) (m1 m2 : M A) :
  keeps P Q m1 → keeps P Q m2 → keeps P Q (if b then m1 else m2).
Proof. by destruct b. Qed.

Lemma keeps_decide {A : Type} (R : Prop) `{Decision R} (m1 m2 : M A) :
  keeps P Q m1 → keeps P Q m2 → keeps P Q (if decide R then m1 else m2).
Proof. by destruct (decide R). Qed.

Lemma keeps_py_assert b : keeps P Q (py_assert b).
Proof. destruct b; [apply keeps_ret | apply keeps_raise]. Qed.

End Keeps.

(** ** Claim C4: the empty format list *)

Lemma unpermitted_message_not_empty_report i :
  unpermitted_message i ≠ "No archive types specified.".
Proof. unfold unpermitted_message. discriminate. Qed.

Section Formats.
Context `{Host}.

Lemma determine_archives_loop_last l : ∀ result i r t t' ev,
  determine_archives_loop l result i t = (r, t', ev) →
  from_option (λ x, x ∈ archive_choices) True i →
  t' = t ∧ ev = [] ∧
  match r with
  | Ok (_, last_i) => from_option (λ x, x ∈ archive_choices) True last_i
  | Raise e => ∃ x, e = SystemExit (ExitMessage (unpermitted_message x))
  end.
Proof.
  induction l as [|x l IH]; intros result i r t t' ev; simpl.
  - intros [= <- <- <-] Hi. done.
  - destruct (decide (x ∉ archive_choices)) as [Hx|Hx].
    + intros [= <- <- <-] _. eauto.
    + intros Hl _. eapply IH; [done |]. simpl. by apply dec_stable.
Qed.

Lemma archive_choice_not_empty x : x ∈ archive_choices → String.length x ≠ 0.
Proof.
  unfold archive_choices. rewrite !elem_of_cons, elem_of_nil.
  intros [->|[->|[->|[]]]]; done.
Qed.

(** The report [No archive types specified.] is never made: the value
    tested after the loop is the last format, which passed the test of the
    loop. *)
Lemma empty_report_unreachable o t :
  (determine_archives_to_generate o t).1.1
  ≠ Raise (SystemExit (ExitMessage "No archive types specified.")).
Proof.
  unfold determine_archives_to_generate.
  destruct (determine_archives_loop (split_on "," (formats o)) [] None t)
    as [[r t1] l1] eqn:Hloop.
  destruct (determine_archives_loop_last _ _ _ _ _ _ _ Hloop I) as (-> & -> & Hr).
  unfold bind. rewrite Hloop.
  destruct r as [[result [i|]]|e]; simpl.
  - destruct (decide (String.length i = 0)) as [Hi|Hi]; [| done].
    by apply archive_choice_not_empty in Hr.
  - done.
  - destruct Hr as [x ->]. intros Hx.
    apply (unpermitted_message_not_empty_report x). congruence.
Qed.

(** C4, at the failing input [--formats ''].  The run stops before any
    child process or change of the file system, as the claim says, but the
    report is the one for an unrecognised format, made for the empty name;
    the report written for the empty list is a different one. *)
Theorem C4_empty_formats_reported_as_unpermitted_value t :
  determine_archives_to_generate (Options "") t
  = (Raise (SystemExit (ExitMessage (unpermitted_message ""))), t, [])
  ∧ run (Options "") t
    = (match build_load "." t with
       | Ok _ => Raise (SystemExit (ExitMessage (unpermitted_message "")))
       | Raise e => Raise e
       end, t, [])
  ∧ unpermitted_message "" ≠ "No archive types specified.".
Proof.
  split; [done |]. split; [| apply unpermitted_message_not_empty_report].
  unfold run, build_load_from, bind at 1.
  destruct (build_load "." t); done.
Qed.

End Formats.

(** ** What the calls of the operating system keep *)

Section KeepsCalls.
Context `{Host} (P : fs → Prop) (Q : event → Prop).

Lemma keeps_os_unlink p :
  (∀ t, P t → P (delete (components p) t)) → keeps P Q (os_unlink p).
Proof.
  intros HP t Ht. unfold os_unlink. destruct (lstat t p) as [[]|]; simpl; auto.
Qed.

Lemma keeps_shutil_rmtree p :
  (∀ t, P t → P (prune (components p) t)) → keeps P Q (shutil_rmtree p).
Proof.
  intros HP t Ht. unfold shutil_rmtree. destruct (lstat t p) as [[]|]; simpl; auto.
  destruct (decide (components p = [])); simpl; auto.
Qed.

Lemma keeps_mkdir_at k p :
  (∀ t, P t → P (<[k := Dir]> t)) → keeps P Q (mkdir_at k p).
Proof.
  intros HP t Ht. unfold mkdir_at. destruct (node_at t k); simpl; auto.
  destruct (node_at t (removelast k)) as [[]|]; simpl; auto.
Qed.

Lemma keeps_makedirs_from below : ∀ above p exist_ok,
  (∀ k t, P t → P (<[k := Dir]> t)) → keeps P Q (makedirs_from above below p exist_ok).
Proof.
  induction below as [|n below IH]; intros above p exist_ok HP; simpl.
  - apply keeps_ret.
  - apply keeps_bind; [apply keeps_query |]. intros [nd|].
    + destruct below.
      * apply keeps_bind; [apply keeps_query |]. intros d.
        apply keeps_if; [apply keeps_ret | apply keeps_raise].
      * by apply IH.
    + apply keeps_bind; [apply keeps_mkdir_at; auto |]. intros _. by apply IH.
Qed.

Lemma keeps_os_makedirs p exist_ok :
  (∀ k t, P t → P (<[k := Dir]> t)) → keeps P Q (os_makedirs p exist_ok).
Proof.
  intros HP. unfold os_makedirs. destruct (components p) eqn:Hk.
  - apply keeps_if; [apply keeps_ret | apply keeps_raise].
  - by apply keeps_makedirs_from.
Qed.

Lemma keeps_read_file p : keeps P Q (read_file p).
Proof.
  intros t Ht. unfold read_file. destruct (follow _ _ _); simpl; auto.
  destruct (node_at t _) as [[]|]; simpl; auto.
Qed.

Lemma keeps_write_file p data :
  (∀ k t, P t → follow MAXSYMLINKS t (components p) = Some k → P (<[k := File data]> t)) →
  keeps P Q (write_file p data).
Proof.
  intros HP t Ht. unfold write_file.
  destruct (follow _ _ _) as [k|] eqn:Hk; simpl; auto.
  destruct (node_at t k) as [[]|]; simpl; auto;
    destruct (node_at t (removelast k)) as [[]|]; simpl; auto.
Qed.

Lemma keeps_subprocess_run c :
  (∀ t, P t → P (spawn c t).2) → (∀ o, Q (EvSpawn c o)) → keeps P Q (subprocess_run c).
Proof.
  intros HP HQ t Ht. unfold subprocess_run. specialize (HP t Ht).
  destruct (spawn c t) as [[rc out|e] t']; simpl in *; split; auto.
Qed.

Lemma keeps_subprocess_call c :
  (∀ t, P t → P (spawn c t).2) → (∀ o, Q (EvSpawn c o)) → keeps P Q (subprocess_call c).
Proof.
  intros. apply keeps_bind; [by apply keeps_subprocess_run |]. intros. apply keeps_ret.
Qed.

Lemma keeps_subprocess_check_call c :
  (∀ t, P t → P (spawn c t).2) → (∀ o, Q (EvSpawn c o)) → keeps P Q (subprocess_check_call c).
Proof.
  intros. apply keeps_bind; [by apply keeps_subprocess_call |]. intros.
  apply keeps_decide; [apply keeps_raise | apply keeps_ret].
Qed.

Lemma keeps_subprocess_check_output c :
  (∀ t, P t → P (spawn c t).2) → (∀ o, Q (EvSpawn c o)) → keeps P Q (subprocess_check_output c).
Proof.
  intros. apply keeps_bind; [by apply keeps_subprocess_run |]. intros.
  apply keeps_decide; [apply keeps_raise | apply keeps_ret].
Qed.

Lemma keeps_library_call f :
  (∀ t, P t → P (f t).2) → keeps P Q (library_call f).
Proof.
  intros HP t Ht. unfold library_call. specialize (HP t Ht).
  destruct (f t) as [[e|] t']; simpl in *; auto.
Qed.

Lemma keeps_dict_get d k : keeps P Q (dict_get d k).
Proof. unfold dict_get. destruct (d !! k); [apply keeps_ret | apply keeps_raise]. Qed.

Lemma keeps_list_first l : keeps P Q (list_first l).
Proof. destruct l; [apply keeps_raise | apply keeps_ret]. Qed.

End KeepsCalls.

Ltac keeps_step :=
  lazymatch goal with
  | |- keeps _ _ (mret _) => apply keeps_ret
  | |- keeps _ _ (raise _) => apply keeps_raise
  | |- keeps _ _ (query _) => apply keeps_query
  | |- keeps _ _ (py_assert _) => apply keeps_py_assert
  | |- keeps _ _ (read_file _) => apply keeps_read_file
  | |- keeps _ _ (dict_get _ _) => apply keeps_dict_get
  | |- keeps _ _ (list_first _) => apply keeps_list_first
  | |- keeps _ _ (bind _ _) => apply keeps_bind; [| intros ?]
  | |- keeps _ _ (if decide _ then _ else _) => apply keeps_decide
  | |- keeps _ _ (if _ then _ else _) => apply keeps_if
  | |- keeps _ _ (try_finally _ _) => apply keeps_try_finally
  | |- keeps _ _ (try_except_OSError _ _) => apply keeps_try_except_OSError
  | |- keeps _ _ (for_ _ _) => apply keeps_for; intros ? ?
  | |- keeps _ _ (for_append _ _ _) => apply keeps_for_append; intros ?
  | |- keeps _ _ (emit _) => apply keeps_emit
  | |- keeps _ _ (os_unlink _) => apply keeps_os_unlink
  | |- keeps _ _ (shutil_rmtree _) => apply keeps_shutil_rmtree
  | |- keeps _ _ (mkdir_at _ _) => apply keeps_mkdir_at
  | |- keeps _ _ (os_makedirs _ _) => apply keeps_os_makedirs
  | |- keeps _ _ (write_file _ _) => apply keeps_write_file
  | |- keeps _ _ (subprocess_call _) => apply keeps_subprocess_call
  | |- keeps _ _ (subprocess_check_call _) => apply keeps_subprocess_check_call
  | |- keeps _ _ (subprocess_check_output _) => apply keeps_subprocess_check_output
  | |- keeps _ _ (subprocess_run _) => apply keeps_subprocess_run
  | |- keeps _ _ (library_call _) => apply keeps_library_call
  end.

Ltac keeps_go :=
  unfold print, mlog_warning, sys_exit, os_path_exists, os_path_isdir, os_path_isfile,
    os_path_islink, glob_glob, windows_proof_rmtree, os_mkdir, shutil_make_archive,
    shutil_unpack_archive;
  repeat keeps_step.

(** ** What the functions of [mdist.py] emit *)

Section Emits.
Context `{Host} (Q : event → Prop).
Hypothesis Q_spawn : ∀ c o, Q (EvSpawn c o).
Hypothesis Q_print : ∀ msg, Q (EvPrint msg).

Lemma del_gitfiles_emits dirname : emits Q (del_gitfiles dirname).
Proof. unfold del_gitfiles. keeps_go; done. Qed.

Lemma process_submodules_emits dirname : emits Q (process_submodules dirname).
Proof.
  assert (∀ line, emits Q (process_submodules_line dirname line)) as Hline.
  { intros line. cbv beta zeta delta [process_submodules_line].
    destruct (contains_char "=" (strip line)); simpl; try apply keeps_ret.
    destruct (split1 "=" (strip line)) as [k v].
    apply keeps_decide; [apply keeps_ret | apply del_gitfiles_emits]. }
  unfold process_submodules. keeps_go; done.
Qed.

Lemma run_dist_scripts_emits dist_root scripts : emits Q (run_dist_scripts dist_root scripts).
Proof. unfold run_dist_scripts. keeps_go; done. Qed.

End Emits.

(** ** Claim C9: the dirty index of Git *)

Section DirtyIndex.
Context `{Host}.

Lemma git_have_dirty_index_eq src_root t :
  git_have_dirty_index src_root t =
  (match (spawn (diff_index_call src_root) t).1 with
   | Exited rc _ => Ok (bool_decide (rc = 1%Z))
   | NotLaunched e => Raise (OSError e "git")
   end,
   (spawn (diff_index_call src_root) t).2,
   [EvSpawn (diff_index_call src_root) (spawn (diff_index_call src_root) t).1]).
Proof.
  unfold git_have_dirty_index, subprocess_call, subprocess_run, bind.
  fold (diff_index_call src_root).
  by destruct (spawn (diff_index_call src_root) t) as [[rc out|e] t'].
Qed.

(** C9: the working tree counts as dirty exactly when [git diff-index]
    exits with status 1.  The warning about uncommitted changes is among
    the events of [create_dist_git] exactly in that case: no other status,
    128 included, and no failure to launch git produces it. *)
Theorem C9_dirty_exactly_on_status_1
    dist_name archives src_root bld_root dist_sub scripts t :
  (git_have_dirty_index src_root t).1.1
  = match (spawn (diff_index_call src_root) t).1 with
    | Exited rc _ => Ok (bool_decide (rc = 1%Z))
    | NotLaunched e => Raise (OSError e "git")
    end
  ∧ (EvWarning uncommitted_warning
       ∈ (create_dist_git dist_name archives src_root bld_root dist_sub scripts t).2
     ↔ ∃ out, (spawn (diff_index_call src_root) t).1 = Exited 1 out).
Proof.
  split.
  { by rewrite git_have_dirty_index_eq. }
  set (Q := λ ev, ev ≠ EvWarning uncommitted_warning).
  unfold create_dist_git.
  match goal with
  | |- context [bind (git_have_dirty_index _) (λ dirty, bind _ ?k)] => set (rest := k)
  end.
  assert (emits Q (rest ())) as Hrest.
  { assert (∀ c o, Q (EvSpawn c o)) as Hs by done.
    assert (∀ msg, Q (EvPrint msg)) as Hp by done.
    pose proof (process_submodules_emits Q Hs).
    pose proof (del_gitfiles_emits Q).
    pose proof (run_dist_scripts_emits Q Hs Hp).
    unfold rest. keeps_go; done. }
  assert (∀ t1, EvWarning uncommitted_warning ∉ (rest () t1).2) as Hno.
  { intros t1 Hin. destruct (Hrest t1 I) as [_ Hq].
    rewrite Forall_forall in Hq. by apply (Hq _ Hin). }
  pose proof (git_have_dirty_index_eq src_root t) as Hg.
  destruct (spawn (diff_index_call src_root) t) as [[rc out|e] t1]; simpl in Hg.
  - rewrite (bind_Ok _ _ _ _ _ _ Hg). simpl.
    destruct (bool_decide_reflect (rc = 1%Z)) as [->|Hrc].
    + split; [eauto |]. intros _. unfold mlog_warning. rewrite bind_emit. simpl.
      set_solver.
    + rewrite bind_mret. specialize (Hno t1). simpl. split.
      * rewrite elem_of_cons. intros [?|?]; done.
      * intros [out' [= ?]]. done.
  - rewrite (bind_Raise _ _ _ _ _ _ Hg). simpl. split.
    + rewrite list_elem_of_singleton. done.
    + intros [? ?]. done.
Qed.

End DirtyIndex.

(** ** Claim C10: the order of the produced archives *)

(** [H : bind m f t = (Ok x, t', l)]: the first computation returned. *)
Ltac bind_ok_as H a Hm :=
  let t1 := fresh "t" in
  let l1 := fresh "l" in
  let l2 := fresh "l" in
  apply bind_inv in H as [(a & t1 & l1 & l2 & Hm & H & ->) | (? & _ & [=])].

Tactic Notation "bind_ok" hyp(H) "as" ident(a) ident(Hm) := bind_ok_as H a Hm.
Tactic Notation "bind_ok" hyp(H) :=
  let a := fresh "a" in let Hm := fresh "Hm" in bind_ok_as H a Hm.

Section Order.
Context `{Host}.

Lemma mret_inv {A : Type} (a b : A) t t' l :
  (mret a : M A) t = (Ok b, t', l) → a = b ∧ t' = t ∧ l = [].
Proof. by intros [= -> -> <-]. Qed.

Lemma for_append_inv {A : Type} (R : A → string → Prop) (body : A → M string) l :
  (∀ x y t t' ev, body x t = (Ok y, t', ev) → R x y) →
  ∀ acc names t t' ev,
    for_append l acc body t = (Ok names, t', ev) →
    ∃ ys, names = acc ++ ys ∧ Forall2 R l ys.
Proof.
  intros Hbody. induction l as [|x l IH]; intros acc names t t' ev Hrun; simpl in Hrun.
  - apply mret_inv in Hrun as (<- & _ & _). exists []. by rewrite app_nil_r.
  - bind_ok Hrun. apply IH in Hrun as (ys & -> & Hys).
    exists (a :: ys). split; [by rewrite <-app_assoc |].
    constructor; [by eapply Hbody | done].
Qed.

Lemma create_dist_hg_names dist_name archives src_root bld_root dist_sub scripts t names t' l :
  create_dist_hg dist_name archives src_root bld_root dist_sub scripts t = (Ok names, t', l) →
  names = hg_output_names dist_name dist_sub archives.
Proof.
  unfold create_dist_hg, hg_output_names. intros Hrun.
  do 5 bind_ok Hrun.
  bind_ok Hrun. bind_ok Hrun. bind_ok Hrun. bind_ok Hrun.
  apply mret_inv in Hrun as (<- & _ & _).
  assert (a4 = if bool_decide ("xztar" ∈ archives)
               then [join dist_sub (dist_name +:+ ".tar") +:+ ".xz"] else []) as ->.
  { destruct (bool_decide ("xztar" ∈ archives)).
    - bind_ok Hm4. by apply mret_inv in Hm4 as (<- & _ & _).
    - by apply mret_inv in Hm4 as (<- & _ & _). }
  assert (a5 = (if bool_decide ("xztar" ∈ archives)
                then [join dist_sub (dist_name +:+ ".tar") +:+ ".xz"] else [])
               ++ if bool_decide ("gztar" ∈ archives)
                  then [join dist_sub (dist_name +:+ ".tar") +:+ ".gz"] else []) as ->.
  { destruct (bool_decide ("gztar" ∈ archives)).
    - bind_ok Hm5. by apply mret_inv in Hm5 as (<- & _ & _).
    - apply mret_inv in Hm5 as (<- & _ & _). by rewrite app_nil_r. }
  destruct (bool_decide ("zip" ∈ archives)).
  - bind_ok Hm7. apply mret_inv in Hm7 as (<- & _ & _). by rewrite <-app_assoc.
  - apply mret_inv in Hm7 as (<- & _ & _). by rewrite !app_nil_r.
Qed.

Lemma create_dist_hg_membership dist_name a1 a2 src_root bld_root dist_sub scripts :
  (∀ x, x ∈ a1 ↔ x ∈ a2) →
  create_dist_hg dist_name a1 src_root bld_root dist_sub scripts
  = create_dist_hg dist_name a2 src_root bld_root dist_sub scripts.
Proof.
  intros Hmem. unfold create_dist_hg.
  by rewrite !(bool_decide_ext _ _ (Hmem _)).
Qed.

Lemma create_dist_git_names dist_name archives src_root bld_root dist_sub scripts t names t' l :
  create_dist_git dist_name archives src_root bld_root dist_sub scripts t = (Ok names, t', l) →
  Forall2 (λ a n, git_output_name dist_name dist_sub a = Some n) archives names.
Proof.
  unfold create_dist_git. intros Hrun.
  do 9 bind_ok Hrun. bind_ok Hrun. bind_ok Hrun.
  apply mret_inv in Hrun as (<- & _ & _).
  eapply for_append_inv in Hm8 as (ys & -> & Hys); [exact Hys |].
  intros x y ta tb ev Hbody. simpl in Hbody.
  bind_ok Hbody as ext Hext. bind_ok Hbody. apply mret_inv in Hbody as (<- & _ & _).
  unfold git_output_name, dict_get in *.
  destruct (archive_extension !! x) as [ext'|]; [| done].
  by apply mret_inv in Hext as (<- & _ & _).
Qed.

(** C10: a run of the Mercurial strategy that returns, returns the archives
    in the order xztar, gztar, zip, whatever the order of the request; a
    request with the same formats in another order runs alike and names
    the archives alike, so the archive that is verified, the first of the
    list, is fixed by that order.  A run of the Git strategy that returns,
    returns one name per requested format in the order of the request.
    Neither half supposes a run of the other strategy. *)
Theorem C10_archive_order dist_name dist_sub archives :
  (∀ src_root bld_root scripts t names t' l,
     create_dist_hg dist_name archives src_root bld_root dist_sub scripts t = (Ok names, t', l) →
     names = hg_output_names dist_name dist_sub archives
     ∧ ∀ archives',
         (∀ x, x ∈ archives ↔ x ∈ archives') →
         create_dist_hg dist_name archives' src_root bld_root dist_sub scripts t = (Ok names, t', l)
         ∧ head names = head (hg_output_names dist_name dist_sub archives'))
  ∧ (∀ src_root bld_root scripts t names t' l,
       create_dist_git dist_name archives src_root bld_root dist_sub scripts t = (Ok names, t', l) →
       Forall2 (λ a n, git_output_name dist_name dist_sub a = Some n) archives names).
Proof.
  split.
  - intros src_root bld_root scripts t names t' l Hrun.
    pose proof (create_dist_hg_names _ _ _ _ _ _ _ _ _ _ Hrun) as Hnames.
    split; [done |]. intros archives' Hsame. split.
    + by rewrite <-(create_dist_hg_membership _ archives archives').
    + rewrite Hnames. unfold hg_output_names. by rewrite !(bool_decide_ext _ _ (Hsame _)).
  - intros src_root bld_root scripts t names t' l Hrun. by eapply create_dist_git_names.
Qed.

End Order.

(** ** Claim C7: the hooks *)

Section Hooks.
Context `{Host}.

Lemma spawned_app l1 l2 : spawned (l1 ++ l2) = spawned l1 ++ spawned l2.
Proof. unfold spawned. apply omap_app. Qed.

Lemma run_dist_scripts_rounds dist_root scripts t :
  isabs dist_root = true →
  run_dist_scripts dist_root scripts t = for_ scripts (hook_round dist_root) t.
Proof.
  intros Habs. unfold run_dist_scripts. rewrite Habs. simpl. by rewrite bind_mret.
Qed.

(** What one round does, by the outcome of the child process. *)
Lemma hook_round_eq dist_root d t :
  let c := hook_call dist_root d in
  let name := str_join " " (exe d ++ args d) in
  let running := EvPrint ("Running custom dist script " +:+ py_repr name) in
  hook_round dist_root d t =
  match (spawn c t).1 with
  | Exited rc out =>
      (if decide (rc ≠ 0%Z) then Raise (SystemExit (ExitMessage "Dist script errored out"))
       else Ok (),
       (spawn c t).2, [running; EvSpawn c (Exited rc out)])
  | NotLaunched e =>
      (Raise (SystemExit (ExitCode 1)), (spawn c t).2,
       [running; EvSpawn c (NotLaunched e);
        EvPrint ("Failed to run dist script " +:+ py_repr name)])
  end.
Proof.
  intros c name running.
  unfold hook_round, print. rewrite bind_emit. fold c name running.
  unfold try_except_OSError, subprocess_call, subprocess_run, bind.
  destruct (spawn c t) as [[rc out|e] t1]; simpl.
  - by destruct (decide (rc ≠ 0%Z)).
  - done.
Qed.

Lemma hook_rounds dist_root scripts : ∀ t r t' l,
  for_ scripts (hook_round dist_root) t = (r, t', l) →
  ∃ outs,
    spawned l = zip (hook_call dist_root <$> scripts) outs
    ∧ length outs ≤ length scripts
    ∧ match r with
      | Ok _ => length outs = length scripts ∧ Forall (λ o, hook_failed o = false) outs
      | Raise e =>
          ∃ pre o, outs = pre ++ [o]
            ∧ Forall (λ o, hook_failed o = false) pre
            ∧ hook_failed o = true
            ∧ e = SystemExit (match o with
                              | NotLaunched _ => ExitCode 1
                              | Exited _ _ => ExitMessage "Dist script errored out"
                              end)
      end.
Proof.
  induction scripts as [|d ds IH]; intros t r t' l; simpl.
  - intros [= <- <- <-]. exists []. by repeat split.
  - intros Hrun. apply bind_inv in Hrun as [(a & t1 & l1 & l2 & Hd & Hrest & ->)|(e & Hd & ->)].
    + rewrite hook_round_eq in Hd. simpl in Hd.
      destruct (spawn (hook_call dist_root d) t) as [[rc out|e] t2]; simpl in Hd; [| done].
      destruct (decide (rc ≠ 0%Z)) as [|Hrc]; [done |].
      simplify_eq. apply IH in Hrest as (outs & Hsp & Hlen & Hr).
      exists (Exited rc out :: outs). rewrite spawned_app, Hsp. simpl.
      split; [done |]. split; [lia |].
      assert (hook_failed (Exited rc out) = false) as Hok.
      { simpl. apply bool_decide_eq_false. done. }
      destruct r as [[]|e].
      * destruct Hr as [-> Hall]. split; [done |]. by constructor.
      * destruct Hr as (pre & o & -> & Hpre & Ho & ->).
        exists (Exited rc out :: pre), o. repeat split; try done. by constructor.
    + rewrite hook_round_eq in Hd. simpl in Hd.
      destruct (spawn (hook_call dist_root d) t) as [[rc out|e'] t2]; simpl in Hd.
      * destruct (decide (rc ≠ 0%Z)) as [Hrc|]; [| done].
        simplify_eq. exists [Exited rc out]. simpl.
        split; [by destruct ds |]. split; [lia |]. exists [], (Exited rc out).
        repeat split; try done. simpl. by apply bool_decide_eq_true.
      * simplify_eq. exists [NotLaunched e']. simpl.
        split; [by destruct ds |]. split; [lia |]. exists [], (NotLaunched e').
        by repeat split.
Qed.

(** C7: the hooks are launched in the order given, each with the
    environment of the parent and [MESON_DIST_ROOT] set to the absolute
    snapshot root.  A hook that cannot be launched and a hook that exits
    with a status other than 0 both end the run with [SystemExit], and the
    failing hook is the last one launched: the hooks before it succeeded
    and none after it is run. *)
Theorem C7_hooks_in_order_first_failure_fatal dist_root scripts t r t' l
    (Hrun : run_dist_scripts dist_root scripts t = (r, t', l))
    (Habs : isabs dist_root = true) :
  ∃ outs,
    spawned l = zip (hook_call dist_root <$> scripts) outs
    ∧ length outs ≤ length scripts
    ∧ (∀ c o, (c, o) ∈ spawned l →
         ∃ e, env c = Some e
           ∧ e !! "MESON_DIST_ROOT" = Some dist_root
           ∧ ∀ k, k ≠ "MESON_DIST_ROOT" → e !! k = environ !! k)
    ∧ match r with
      | Ok _ => length outs = length scripts ∧ Forall (λ o, hook_failed o = false) outs
      | Raise e =>
          ∃ pre o, outs = pre ++ [o]
            ∧ Forall (λ o, hook_failed o = false) pre
            ∧ hook_failed o = true
            ∧ e = SystemExit (match o with
                              | NotLaunched _ => ExitCode 1
                              | Exited _ _ => ExitMessage "Dist script errored out"
                              end)
      end.
Proof.
  rewrite run_dist_scripts_rounds in Hrun by done.
  apply hook_rounds in Hrun as (outs & Hsp & Hlen & Hr).
  exists outs. split; [done |]. split; [done |]. split; [| done].
  intros c o Hin. rewrite Hsp in Hin.
  apply elem_of_zip_l in Hin. apply list_elem_of_fmap in Hin as (d & -> & _).
  eexists. split; [done |]. split.
  - apply lookup_insert_eq.
  - intros k Hk. by apply lookup_insert_ne.
Qed.

End Hooks.

(** ** Hooks under Mercurial and under Git *)

Section HooksByStrategy.
Context `{Host}.

Lemma differ_by_warning_bind {A B : Type} w (m : M A) (f g : A → M B) t :
  (∀ a t1, differ_by_warning w (f a t1) (g a t1)) →
  differ_by_warning w (bind m f t) (bind m g t).
Proof.
  intros Hfg. unfold bind. destruct (m t) as [[[a|e] t1] l1]; [| done].
  destruct (Hfg a t1) as (Hres & Hsp & Hw).
  destruct (f a t1) as [[r2 t2] l2], (g a t1) as [[r3 t3] l3]; simpl in *.
  simplify_eq. split; [done |]. split; simpl.
  - by rewrite !spawned_app, Hsp.
  - intros b Hb. apply elem_of_app. right. by eapply Hw.
Qed.

Lemma differ_by_warning_here {B : Type} msg (k : unit → M B) t :
  differ_by_warning (EvWarning msg) (bind (mlog_warning msg) k t) (bind (mret ()) k t).
Proof.
  unfold mlog_warning. rewrite bind_emit, bind_mret.
  destruct (k () t) as [[r t1] l1]; simpl. split; [done |]. split; [done |].
  intros _ _. by left.
Qed.

Lemma create_dist_hg_skips_hooks dist_name archives src_root bld_root dist_sub scripts t :
  scripts ≠ [] →
  differ_by_warning (EvWarning hg_hooks_warning)
    (create_dist_hg dist_name archives src_root bld_root dist_sub scripts t)
    (create_dist_hg dist_name archives src_root bld_root dist_sub [] t).
Proof.
  intros Hs. unfold create_dist_hg.
  do 4 (apply differ_by_warning_bind; intros ? ?).
  rewrite (bool_decide_eq_true_2 _ Hs).
  rewrite (bool_decide_eq_false_2 (@nil dist_script ≠ [])) by (intros Hn; by apply Hn).
  apply differ_by_warning_here.
Qed.

Lemma run_dist_scripts_Ok dist_root scripts t t' l :
  run_dist_scripts dist_root scripts t = (Ok (), t', l) →
  ∃ outs, spawned l = zip (hook_call dist_root <$> scripts) outs
    ∧ length outs = length scripts
    ∧ Forall (λ o, hook_failed o = false) outs.
Proof.
  intros Hrun. destruct (isabs dist_root) eqn:Habs.
  - rewrite run_dist_scripts_rounds in Hrun by done.
    apply hook_rounds in Hrun as (outs & Hsp & _ & Hlen & Hall). eauto.
  - unfold run_dist_scripts in Hrun. by rewrite Habs in Hrun.
Qed.

Lemma hook_not_failed o : hook_failed o = false → ∃ out, o = Exited 0 out.
Proof.
  destruct o as [rc out|e]; simpl; [| done].
  intros Hrc%bool_decide_eq_false. exists out. f_equal. by apply dec_stable.
Qed.

Lemma create_dist_git_ran_hooks dist_name archives src_root bld_root dist_sub scripts t names t' l :
  create_dist_git dist_name archives src_root bld_root dist_sub scripts t = (Ok names, t', l) →
  Forall (λ d, ∃ out, (hook_call (join dist_sub dist_name) d, Exited 0 out) ∈ spawned l) scripts.
Proof.
  unfold create_dist_git. intros Hrun.
  do 8 bind_ok Hrun. bind_ok Hrun as u Hhooks. destruct u.
  apply run_dist_scripts_Ok in Hhooks as (outs & Hsp & Hlen & Hall).
  apply Forall_forall. intros d Hd.
  apply list_elem_of_lookup in Hd as [i Hi].
  destruct (lookup_lt_is_Some_2 outs i) as [o Ho].
  { rewrite Hlen. by eapply lookup_lt_Some. }
  rewrite Forall_forall in Hall.
  destruct (hook_not_failed o) as [out ->]; [by eapply Hall, list_elem_of_lookup_2 |].
  exists out. rewrite !spawned_app, Hsp, !elem_of_app.
  do 8 right. left. apply list_elem_of_lookup. exists i.
  apply lookup_zip_with_Some. exists (hook_call (join dist_sub dist_name) d), (Exited 0 out).
  split; [done |]. split; [| done]. by rewrite list_lookup_fmap, Hi.
Qed.

End HooksByStrategy.

(** ** The file system *)

Lemma node_at_insert (t : fs) k n k' :
  k ≠ [] →
  node_at (<[k := n]> t) k' = if decide (k = k') then Some n else node_at t k'.
Proof.
  intros Hk. unfold node_at. destruct k' as [|x k'].
  - by rewrite decide_False.
  - destruct (decide (k = x :: k')) as [->|Hne].
    + apply lookup_insert_eq.
    + by apply lookup_insert_ne.
Qed.

Lemma node_at_delete (t : fs) k k' :
  node_at (delete k t) k' =
  if decide (k = k' ∧ k' ≠ []) then None else node_at t k'.
Proof.
  unfold node_at. destruct k' as [|x k'].
  - rewrite decide_False; [done | tauto].
  - destruct (decide (k = x :: k')) as [->|Hne].
    + rewrite decide_True by done. apply lookup_delete_eq.
    + rewrite decide_False by tauto. by apply lookup_delete_ne.
Qed.


(** A link is followed to the same place after a file is written where the
    chain of links ends. *)
Lemma follow_insert_file (fuel : nat) (t : fs) k data : ∀ k0,
  k ≠ [] →
  follow fuel t k0 = Some k →
  follow fuel (<[k := File data]> t) k0 = Some k.
Proof.
  induction fuel as [|fuel IH]; intros k0 Hk; simpl;
    rewrite node_at_insert by done;
    (destruct (decide (k = k0)) as [->|Hne]; [done |]);
    destruct (node_at t k0) as [[]|]; try done.
  apply IH. done.
Qed.

Lemma follow_not_link (fuel : nat) (t : fs) k0 k :
  follow fuel t k0 = Some k → ∀ target, node_at t k ≠ Some (Symlink target).
Proof.
  revert k0. induction fuel as [|fuel IH]; intros k0; simpl;
    destruct (node_at t k0) as [[]|] eqn:Hn; try done;
    try (intros [= <-] target; by rewrite Hn).
  apply IH.
Qed.

(** ** Claim C5: the layout of the sidecar *)

Section Sidecar.
Context `{Host}.

Lemma read_file_inv p t data t' l :
  read_file p t = (Ok data, t', l) →
  t' = t ∧ l = [] ∧ ∃ k, follow MAXSYMLINKS t (components p) = Some k
                      ∧ node_at t k = Some (File data).
Proof.
  unfold read_file. destruct (follow _ _ _) as [k|] eqn:Hk; [| done].
  destruct (node_at t k) as [[]|] eqn:Hn; try done.
  intros [= <- <- <-]. eauto.
Qed.

Lemma write_file_inv p data t t' l :
  write_file p data t = (Ok (), t', l) →
  l = [] ∧ ∃ k, follow MAXSYMLINKS t (components p) = Some k
             ∧ k ≠ []
             ∧ node_at t k ≠ Some Dir
             ∧ node_at t (removelast k) = Some Dir
             ∧ t' = <[k := File data]> t.
Proof.
  unfold write_file. destruct (follow _ _ _) as [k|] eqn:Hk; [| done].
  assert (node_at t k ≠ Some Dir → k ≠ []) as Hroot by (intros Hd ->; by apply Hd).
  destruct (node_at t k) as [[]|] eqn:Hn; try done;
    destruct (node_at t (removelast k)) as [[]|] eqn:Hp; try done;
    intros [= <- <-]; (split; [done |]); exists k.
  all: split; [done |].
  all: split; [by apply Hroot |].
  all: rewrite Hn; done.
Qed.

Lemma read_after_write p data t t' l :
  write_file p data t = (Ok (), t', l) →
  read_file p t' = (Ok data, t', []).
Proof.
  intros (_ & k & Hk & Hne & _ & _ & ->)%write_file_inv.
  unfold read_file. rewrite (follow_insert_file _ _ _ _ _ Hne Hk).
  rewrite node_at_insert by done. by rewrite decide_True.
Qed.

(** C5 as the code has it: the sidecar of [fname] is [fname] followed by
    [.sha256sum] and holds the SHA-256 of the bytes of [fname] in
    hexadecimal, one space, the base name of [fname] and a line feed. *)
Theorem C5_sidecar_has_digest_space_basename fname data t t' l
    (Hdata : (read_file fname t).1.1 = Ok data)
    (Hrun : create_hash fname t = (Ok (), t', l)) :
  read_file (fname +:+ ".sha256sum") t'
  = (Ok (Sha256.hexdigest data +:+ " " +:+ basename fname +:+ NL), t', []).
Proof.
  unfold create_hash in Hrun. bind_ok Hrun as data' Hread.
  rewrite Hread in Hdata. simpl in Hdata. injection Hdata as ->.
  by eapply read_after_write.
Qed.

End Sidecar.

(** ** Claim C3: the scratch directories of the verifier *)

Lemma lookup_prune (t : fs) k k' :
  prune k t !! k' = if decide (k `prefix_of` k') then None else t !! k'.
Proof.
  unfold prune. destruct (decide (k `prefix_of` k')) as [Hp|Hp].
  - apply map_lookup_filter_None. right. intros n _ Hn. by apply Hn.
  - destruct (t !! k') as [n|] eqn:Hn.
    + by apply map_lookup_filter_Some.
    + apply map_lookup_filter_None. by left.
Qed.

Lemma prune_absent (t : fs) k : absent (prune k t) k.
Proof. intros k' Hk. by rewrite lookup_prune, decide_True. Qed.



Lemma prefix_snoc_snoc (kp : list string) a b : kp ++ [a] `prefix_of` kp ++ [b] → a = b.
Proof.
  intros [rest Hrest]. rewrite <-app_assoc in Hrest.
  apply app_inv_head in Hrest. by injection Hrest.
Qed.


Section Scratch.
Context `{Host}.

Lemma stat_of_plain t p n :
  lstat t p = Some n → (∀ target, n ≠ Symlink target) → stat t p = Some n.
Proof.
  unfold stat, lstat. intros Hn Hl. simpl. rewrite Hn.
  destruct n; simpl; try done. by destruct (Hl target).
Qed.

Lemma stat_of_missing t p : lstat t p = None → stat t p = None.
Proof. unfold stat, lstat. intros Hn. simpl. by rewrite Hn. Qed.







Lemma scratch_keys privdir :
  components <$> scratch_dirs privdir
  = (λ n, components privdir ++ [n]) <$> ["dist-unpack"; "dist-build"; "dist-install"].
Proof. unfold scratch_dirs. simpl. by rewrite !components_join_name. Qed.

Lemma scratch_name_cases n :
  n ∈ ["dist-unpack"; "dist-build"; "dist-install"] ↔
  n = "dist-unpack" ∨ n = "dist-build" ∨ n = "dist-install".
Proof. rewrite !elem_of_cons, elem_of_nil. tauto. Qed.


Lemma scratch_dirs_mem privdir n :
  n ∈ ["dist-unpack"; "dist-build"; "dist-install"] → join privdir n ∈ scratch_dirs privdir.
Proof.
  unfold scratch_dirs. rewrite !elem_of_cons, !elem_of_nil.
  intros [->|[->|[->|[]]]]; tauto.
Qed.



Lemma keeps_ninja_argv P Q ninja_bin rest : keeps P Q (ninja_argv ninja_bin rest).
Proof. destruct ninja_bin; [apply keeps_ret | apply keeps_raise]. Qed.

(** The [try] block keeps what the child processes and the unpacking
    keep: it changes no file itself. *)
Lemma check_dist_try_keeps P packagename cmd unpackdir builddir installdir ninja_bin :
  checker_keeps P →
  keeps P (λ _, True) (check_dist_try packagename cmd unpackdir builddir installdir ninja_bin).
Proof.
  intros [Hspawn Hunpack]. unfold check_dist_try.
  repeat first [ apply keeps_ninja_argv | progress keeps_go ]; auto.
Qed.






(** ** Claim C6: the shape of the unpacked archive *)





End Scratch.

(** ** Claim C2: stamping if and only if the verification succeeds *)

Lemma follow_plain (fuel : nat) (t : fs) k :
  (∀ target, node_at t k ≠ Some (Symlink target)) → follow fuel t k = Some k.
Proof.
  intros Hk. destruct fuel; simpl; destruct (node_at t k) as [[]|] eqn:Hn; try done;
    by destruct (Hk target).
Qed.

Section Stamping.
Context `{Host}.

(** One stamp, for an archive that is a file and a sidecar path that is not
    a link: the sidecar is written where its path says. *)
Lemma create_hash_step fname data t t' l :
  t !! components fname = Some (File data) →
  (∀ target, t !! components (sidecar fname) ≠ Some (Symlink target)) →
  create_hash fname t = (Ok (), t', l) →
  components fname ≠ []
  ∧ components (sidecar fname) ≠ []
  ∧ t' = <[components (sidecar fname) := File (sidecar_line data fname)]> t.
Proof.
  intros Hfile Hplain Hrun. unfold create_hash in Hrun. bind_ok Hrun as data' Hread.
  apply read_file_inv in Hread as (-> & -> & k & Hk & Hnode).
  assert (components fname ≠ []) as Hne.
  { intros Hnil. rewrite Hnil in Hk. destruct MAXSYMLINKS; simpl in Hk;
      injection Hk as <-; done. }
  assert (node_at t (components fname) = Some (File data)) as Hn
    by (by destruct (components fname)).
  rewrite follow_plain in Hk by (intros target; by rewrite Hn).
  injection Hk as <-. rewrite Hn in Hnode. injection Hnode as <-.
  apply write_file_inv in Hrun as (_ & k & Hk & Hkne & _ & _ & ->).
  fold (sidecar fname) in Hk.
  destruct (decide (components (sidecar fname) = [])) as [Hnil|Hsne].
  { rewrite Hnil in Hk. destruct MAXSYMLINKS; simpl in Hk; by injection Hk as <-. }
  rewrite follow_plain in Hk.
  - injection Hk as <-. done.
  - intros target. destruct (components (sidecar fname)) eqn:Hc; [done |]. apply Hplain.
Qed.

(** The stamping loop writes the sidecars of its archives and nothing
    else. *)
Lemma stamp_all ns : ∀ t t' l,
  (∀ n, n ∈ ns → ∃ data, t !! components n = Some (File data)) →
  (∀ n target, n ∈ ns → t !! components (sidecar n) ≠ Some (Symlink target)) →
  (∀ n m, n ∈ ns → m ∈ ns → components (sidecar n) ≠ components m) →
  (∀ n m, n ∈ ns → m ∈ ns → components (sidecar n) = components (sidecar m) → n = m) →
  for_ ns create_hash t = (Ok (), t', l) →
  (∀ k, (∀ m, m ∈ ns → k ≠ components (sidecar m)) → t' !! k = t !! k)
  ∧ (∀ n data, n ∈ ns → t !! components n = Some (File data) →
       t' !! components (sidecar n) = Some (File (sidecar_line data n)))
  ∧ (∀ n, n ∈ ns → components n ≠ [] ∧ components (sidecar n) ≠ []).
Proof.
  induction ns as [|n ns IH]; intros t t' l Harch Hplain Hside Hinj Hrun; simpl in Hrun.
  - apply mret_inv in Hrun as (_ & -> & _). split; [done |].
    split; intros n; intros; by apply elem_of_nil in H0.
  - bind_ok Hrun as u Hstep. destruct u. destruct (Harch n) as [data Hdata]; [by left |].
    apply (create_hash_step n data) in Hstep as (Hroot & Hne & ->);
      [| done | intros target; apply Hplain; by left].
    set (t1 := <[components (sidecar n) := File (sidecar_line data n)]> t) in *.
    assert (∀ m, m ∈ n :: ns → t1 !! components m = t !! components m) as Hkept.
    { intros m Hm. apply lookup_insert_ne. apply Hside; [by left | done]. }
    apply IH in Hrun as (Hframe & Hwritten & Hroots).
    + split; [| split].
      * intros k Hk. rewrite Hframe by (intros m Hm; apply Hk; by right).
        apply lookup_insert_ne. intros Heq. apply (Hk n); [by left | done].
      * intros m data' Hm Hdata'.
        destruct (decide (m ∈ ns)) as [Hin|Hnotin].
        { apply Hwritten; [done |]. by rewrite Hkept. }
        apply elem_of_cons in Hm as [->|Hm]; [| done].
        rewrite Hdata in Hdata'. injection Hdata' as <-.
        rewrite Hframe.
        -- apply lookup_insert_eq.
        -- intros m Hm Heq. apply Hnotin. apply Hinj in Heq as ->; [done | by left | by right].
      * intros m [->|Hm]%elem_of_cons; [done | by apply Hroots].
    + intros m Hm. destruct (Harch m) as [d Hd]; [by right |].
      exists d. rewrite Hkept by (by right). done.
    + intros m target Hm. unfold t1.
      destruct (decide (components (sidecar n) = components (sidecar m))) as [->|Hneq].
      * by rewrite lookup_insert_eq.
      * rewrite lookup_insert_ne by done. apply Hplain. by right.
    + intros a b Ha Hb. apply Hside; by right.
    + intros a b Ha Hb. apply Hinj; by right.
Qed.

(** One stamp runs to its end when the archive is a file and its sidecar
    can be written. *)
Lemma create_hash_runs fname data (t : fs) :
  node_at t (components fname) = Some (File data) →
  writable t (components (sidecar fname)) →
  create_hash fname t
  = (Ok (), <[components (sidecar fname) := File (sidecar_line data fname)]> t, []).
Proof.
  intros Hfile [Hparent Hfree]. unfold create_hash.
  assert (read_file fname t = (Ok data, t, [])) as Hread.
  { unfold read_file. rewrite follow_plain by (intros target; by rewrite Hfile).
    by rewrite Hfile. }
  rewrite (bind_Ok _ _ _ _ _ _ Hread). fold (sidecar fname). fold (sidecar_line data fname).
  unfold write_file. rewrite follow_plain.
  - destruct (node_at t (components (sidecar fname))) as [[]|]; try done;
      by rewrite Hparent.
  - intros target Hlink. by rewrite Hlink in Hfree.
Qed.

(** The stamping loop runs to its end when every archive is a file and
    every sidecar can be written. *)
Lemma stamp_runs ns : ∀ t : fs,
  (∀ n, n ∈ ns → ∃ data, node_at t (components n) = Some (File data)) →
  (∀ n, n ∈ ns → writable t (components (sidecar n))) →
  (∀ n m, n ∈ ns → m ∈ ns → components (sidecar n) ≠ components m) →
  (for_ ns create_hash t).1.1 = Ok ().
Proof.
  induction ns as [|n ns IH]; intros t Harch Hfree Hside; [done |].
  destruct (Harch n) as [data Hdata]; [by left |].
  pose proof (Hfree n ltac:(by left)) as Hn.
  assert (components (sidecar n) ≠ []) as Hne.
  { intros Hnil. destruct Hn as [_ Hn]. by rewrite Hnil in Hn. }
  simpl. rewrite (bind_Ok _ _ _ _ _ _ (create_hash_runs n data t Hdata Hn)). simpl.
  apply IH.
  - intros m Hm. destruct (Harch m) as [d Hd]; [by right |]. exists d.
    rewrite node_at_insert by done. rewrite decide_False; [done |].
    apply Hside; [by left | by right].
  - intros m Hm. destruct (Hfree m) as [Hparent Hm']; [by right |].
    split; rewrite node_at_insert by done.
    + destruct (decide (components (sidecar n) = removelast (components (sidecar m))))
        as [Heq|]; [| done].
      exfalso. destruct Hn as [_ Hn]. rewrite Heq, Hparent in Hn. done.
    + by destruct (decide (components (sidecar n) = components (sidecar m))).
  - intros a b Ha Hb. apply Hside; by right.
Qed.

(** The verifier changes nothing outside its scratch directories, if its
    child processes do not. *)
Lemma check_dist_keeps_archives names t0 packagename cmd privdir :
  (∀ n p, n ∈ names → p ∈ scratch_dirs privdir →
     ¬ components p `prefix_of` components n) →
  checker_keeps (archives_kept names t0) →
  keeps (archives_kept names t0) (λ _, True) (check_dist packagename cmd privdir).
Proof.
  intros Hout Hhost.
  assert (∀ p, p ∈ scratch_dirs privdir →
            ∀ t, archives_kept names t0 t → archives_kept names t0 (prune (components p) t))
    as Hprune.
  { intros p Hp t Ht n Hn. rewrite lookup_prune, decide_False by (by apply Hout). by apply Ht. }
  assert (∀ p, p ∈ scratch_dirs privdir →
            ∀ t, archives_kept names t0 t → archives_kept names t0 (<[components p := Dir]> t))
    as Hmkdir.
  { intros p Hp t Ht n Hn. rewrite lookup_insert_ne; [by apply Ht |].
    intros Heq. apply (Hout n p Hn Hp). by rewrite Heq. }
  assert (∀ n, n ∈ ["dist-unpack"; "dist-build"; "dist-install"] →
            join privdir n ∈ scratch_dirs privdir) as Hmem by apply scratch_dirs_mem.
  unfold check_dist. fold (scratch_dirs privdir).
  apply keeps_bind; [by apply keeps_emit |]. intros _.
  apply keeps_bind.
  { unfold recreate. keeps_go; auto. }
  intros _. apply keeps_bind.
  - apply keeps_try_finally; [by apply check_dist_try_keeps |].
    unfold check_dist_finally.
    keeps_go; apply Hprune, Hmem, scratch_name_cases; tauto.
  - intros [rc|]; keeps_go; done.
Qed.

(** C2: the archives are after the verification what they were before it.
    When the verifier does not return 0, the run is the run of the
    verifier: its result, its files and its events, so that no sidecar is
    written and the verifier's status is the result.  When it returns 0,
    the stamping loop runs on the files the verifier left and runs to its
    end, the run returns 0, and every archive can be read as before and its
    sidecar holds the digest of its bytes. *)
Theorem C2_stamping_iff_verified names first cmd priv_dir t
    (Hfirst : head names = Some first)
    (Harch : ∀ n, n ∈ names → ∃ data, node_at t (components n) = Some (File data))
    (Hout : ∀ n p, n ∈ names → p ∈ scratch_dirs priv_dir →
              ¬ components p `prefix_of` components n)
    (Hhost : checker_keeps (archives_kept names t))
    (Hside : ∀ n m, n ∈ names → m ∈ names → components (sidecar n) ≠ components m)
    (Hinj : ∀ n m, n ∈ names → m ∈ names →
              components (sidecar n) = components (sidecar m) → n = m)
    (Hfree : ∀ n, n ∈ names →
               writable (check_dist first cmd priv_dir t).1.2 (components (sidecar n))) :
  let v := check_dist first cmd priv_dir t in
  let x := run_check_and_hash names cmd priv_dir t in
  archives_kept names t v.1.2
  ∧ (v.1.1 ≠ Ok 0%Z → x = v)
  ∧ (v.1.1 = Ok 0%Z →
       x.1.1 = Ok 0%Z
       ∧ x.1.2 = (for_ names create_hash v.1.2).1.2
       ∧ spawned x.2 = spawned v.2
       ∧ ∀ n, n ∈ names →
           ∃ data, read_file n x.1.2 = (Ok data, x.1.2, [])
             ∧ read_file (sidecar n) x.1.2 = (Ok (sidecar_line data n), x.1.2, [])).
Proof.
  cbv zeta.
  destruct (check_dist_keeps_archives names t first cmd priv_dir Hout Hhost t) as [Hkept _];
    [done |].
  split; [done |].
  assert (∀ n, n ∈ names → ∃ data, t !! components n = Some (File data)) as Harch'.
  { intros n Hn. destruct (Harch n Hn) as [d Hd]. exists d.
    by destruct (components n). }
  assert (∀ t0, run_check_and_hash names cmd priv_dir t0
                = bind (check_dist first cmd priv_dir)
                    (λ rc, bind (if decide (rc = 0%Z) then for_ names create_hash else mret ())
                             (λ _, mret rc)) t0) as Hx.
  { intros t0. unfold run_check_and_hash.
    assert (list_first names = mret first) as ->.
    { destruct names as [|n names']; [done |]. by injection Hfirst as ->. }
    by rewrite bind_mret. }
  rewrite !Hx. clear Hx.
  assert (spawned (for_ names create_hash (check_dist first cmd priv_dir t).1.2).2 = [])
    as Hquiet.
  { destruct (keeps_for (λ _, True) (λ _, False) names create_hash)
      with (t := (check_dist first cmd priv_dir t).1.2) as [_ Hnone]; [| done |].
    - intros n _. unfold create_hash. keeps_go; done.
    - by destruct Hnone. }
  destruct (check_dist first cmd priv_dir t) as [[[rc|e] tv] lv] eqn:Hv; simpl in *.
  2: { rewrite (bind_Raise _ _ _ _ _ _ Hv). split; [done |]. by intros ?. }
  rewrite (bind_Ok _ _ _ _ _ _ Hv).
  destruct (decide (rc = 0%Z)) as [->|Hrc].
  - split; [done |]. intros _. unfold bind.
    assert (∀ n, n ∈ names → ∃ data, node_at tv (components n) = Some (File data))
      as Harchv.
    { intros m Hm. destruct (Harch m Hm) as [d Hd]. exists d.
      destruct (components m) eqn:Hc; [done |]. simpl. rewrite <- Hc, Hkept by done.
      rewrite Hc. done. }
    pose proof (stamp_runs names tv Harchv Hfree Hside) as Hruns.
    destruct (for_ names create_hash tv) as [[[[]|e] ts] ls] eqn:Hstamp; simpl in *;
      [| done].
    split; [done |]. split; [done |]. rewrite app_nil_r.
    split; [by rewrite spawned_app, Hquiet, app_nil_r |].
    intros n Hn.
    apply stamp_all in Hstamp as (Hframe & Hwritten & Hroots); try done; cycle 1.
    { intros m Hm. destruct (Harch' m Hm) as [d Hd]. exists d. by rewrite Hkept. }
    { intros m target Hm Hlink. destruct (Hfree m Hm) as [_ Hm'].
      destruct (components (sidecar m)); [done |]. simpl in Hm'. by rewrite Hlink in Hm'. }
    destruct (Harch' n Hn) as [data Hdata]. exists data.
    assert (∀ k d, (ts : fs) !! k = Some (File d) → k ≠ [] →
              ∀ p, components p = k → read_file p ts = (Ok d, ts, [])) as Hread.
    { intros k d Hk Hne p Hp. unfold read_file. rewrite Hp.
      assert (node_at ts k = Some (File d)) as Hnode by (by destruct k).
      rewrite follow_plain by (intros target; by rewrite Hnode). by rewrite Hnode. }
    split.
    + apply (Hread (components n)); [| by apply Hroots | done].
      rewrite Hframe by (intros m Hm Heq; by apply (Hside m n)).
      by rewrite Hkept.
    + apply (Hread (components (sidecar n))); [| by apply Hroots | done].
      apply Hwritten; [done |]. by rewrite Hkept.
  - split; [| by intros [= ?]]. intros _. rewrite bind_mret. simpl. by rewrite !app_nil_r.
Qed.

End Stamping.

(** ** Claim C1: the control files of Git *)

Lemma elem_of_listdir (t : fs) d n :
  n ∈ listdir t d ↔ valid_name n = true ∧ is_Some (t !! (d ++ [n])).
Proof.
  unfold listdir. rewrite list_elem_of_omap. split.
  - intros (k & Hk & Hentry). unfold entry_name in Hentry.
    destruct (last k) as [n'|]; [| done].
    destruct (decide (k = d ++ [n'])) as [->|]; [| done].
    destruct (valid_name n') eqn:Hvalid; [| done]. injection Hentry as ->.
    split; [done |]. apply list_elem_of_fmap in Hk as ([k' v] & Hk' & Hin).
    simpl in Hk'. subst k'. apply elem_of_map_to_list in Hin. eauto.
  - intros [Hvalid [v Hv]]. exists (d ++ [n]). split.
    + apply list_elem_of_fmap. exists (d ++ [n], v). split; [done |].
      by apply elem_of_map_to_list.
    + unfold entry_name. by rewrite last_snoc, decide_True, Hvalid.
Qed.

Lemma node_at_weaken (t t' : fs) k n :
  t' ⊆ t → node_at t' k = Some n → node_at t k = Some n.
Proof.
  intros Hsub. destruct k; [done |]. simpl. intros Hn. exact (lookup_weaken _ _ _ _ Hn Hsub).
Qed.

Lemma elem_of_glob (t : fs) pathname f :
  f ∈ glob t pathname ↔
  ∃ n, f = join (os_path_split pathname).1 n
     ∧ lstat t (os_path_split pathname).1 = Some Dir
     ∧ glob_match (os_path_split pathname).2 n = true
     ∧ n ∈ listdir t (components (os_path_split pathname).1).
Proof.
  unfold glob. destruct (os_path_split pathname) as [d pat]. simpl.
  destruct (lstat t d) as [[]|] eqn:Hd.
  1, 2, 4: (split; [by intros ?%elem_of_nil | by intros (? & ? & ? & ?)]).
  rewrite list_elem_of_fmap. split.
  - intros (n & -> & [Hm Hin]%list_elem_of_filter). exists n.
    repeat split; try done. by apply Is_true_true.
  - intros (n & -> & _ & Hm & Hin). exists n. split; [done |].
    apply list_elem_of_filter. split; [by apply Is_true_true | done].
Qed.

(** A pattern that lists nothing lists nothing once files are removed. *)
Lemma glob_nil_shrink (t t' : fs) pathname :
  t' ⊆ t → glob t pathname = [] → glob t' pathname = [].
Proof.
  intros Hsub Hnil. apply elem_of_nil_inv. intros f Hf.
  apply elem_of_glob in Hf as (n & -> & Hd & Hm & Hin).
  assert (join (os_path_split pathname).1 n ∈ glob t pathname) as Hin'.
  { apply elem_of_glob. exists n. repeat split; try done.
    - unfold lstat in *. by eapply node_at_weaken.
    - apply elem_of_listdir in Hin as [Hvalid [v Hv]]. apply elem_of_listdir.
      split; [done |]. exists v. exact (lookup_weaken _ _ _ _ Hv Hsub). }
  rewrite Hnil in Hin'. by apply elem_of_nil in Hin'.
Qed.

(** One round of the loop of [del_gitfiles]: the file is gone and nothing
    is added. *)
Lemma del_gitfiles_round f t t' l :
  bind (os_path_isdir f)
    (λ d, bind (os_path_islink f)
            (λ l, if d && negb l then windows_proof_rmtree f else os_unlink f)) t
  = (Ok (), t', l) →
  t' ⊆ t ∧ t' !! components f = None.
Proof.
  unfold os_path_isdir, os_path_islink. rewrite !bind_query.
  destruct (_ && _).
  - unfold windows_proof_rmtree, shutil_rmtree.
    destruct (lstat t f) as [[]|]; try done.
    destruct (decide (components f = [])); [done |].
    intros [= <- <-]. split; [apply map_filter_subseteq | by apply prune_absent].
  - unfold os_unlink. destruct (lstat t f) as [[]|]; try done;
      intros [= <- <-]; (split; [apply delete_subseteq | apply lookup_delete_eq]).
Qed.

Lemma del_gitfiles_loop files : ∀ t t' l,
  for_ files
    (λ f, bind (os_path_isdir f)
            (λ d, bind (os_path_islink f)
                    (λ l, if d && negb l then windows_proof_rmtree f else os_unlink f))) t
  = (Ok (), t', l) →
  t' ⊆ t ∧ ∀ f, f ∈ files → t' !! components f = None.
Proof.
  induction files as [|f files IH]; intros t t' l Hrun; simpl in Hrun.
  - apply mret_inv in Hrun as (_ & -> & _). split; [done |].
    intros f Hf. by apply elem_of_nil in Hf.
  - bind_ok Hrun as u Hround. destruct u.
    apply del_gitfiles_round in Hround as [Hsub Hgone].
    apply IH in Hrun as [Hsub' Hgone']. split; [by etrans |].
    intros g [->|Hg]%elem_of_cons; [| by apply Hgone'].
    destruct (t' !! components f) as [n|] eqn:Hn; [| done].
    by rewrite (lookup_weaken _ _ _ _ Hn Hsub') in Hgone.
Qed.

(** [del_gitfiles]: nothing is added, and no entry of the directory has a
    name that starts with [.git] any more. *)
Lemma del_gitfiles_strips dirname t t' l :
  del_gitfiles dirname t = (Ok (), t', l) →
  t' ⊆ t ∧ no_gitfiles_in t' dirname.
Proof.
  unfold del_gitfiles, glob_glob. rewrite bind_query. intros Hrun.
  apply del_gitfiles_loop in Hrun as [Hsub Hgone]. split; [done |].
  apply elem_of_nil_inv. intros f Hf.
  apply elem_of_glob in Hf as (n & -> & Hd & Hm & Hin).
  assert (join (os_path_split (join dirname ".git*")).1 n
          ∈ glob t (join dirname ".git*")) as Hin'.
  { apply elem_of_glob. exists n. repeat split; try done.
    - unfold lstat in *. by eapply node_at_weaken.
    - apply elem_of_listdir in Hin as [Hvalid [v Hv]]. apply elem_of_listdir.
      split; [done |]. exists v. exact (lookup_weaken _ _ _ _ Hv Hsub). }
  apply Hgone in Hin'. apply elem_of_listdir in Hin as [Hvalid [v Hv]].
  rewrite components_join_name in Hin' by done. by rewrite Hv in Hin'.
Qed.

Section Submodules.
Context `{Host}.

Lemma process_submodules_line_strips dirname line t t' l :
  process_submodules_line dirname line t = (Ok (), t', l) →
  t' ⊆ t ∧ ∀ v, path_entry line = Some v → no_gitfiles_in t' (join dirname v).
Proof.
  unfold process_submodules_line, path_entry.
  destruct (contains_char "=" (strip line)); simpl.
  - destruct (split1 "=" (strip line)) as [k v].
    destruct (decide (strip k ≠ "path")) as [Hk|Hk].
    + intros (_ & -> & _)%mret_inv. split; [done |]. intros v'. by rewrite decide_False.
    + apply dec_stable in Hk. rewrite decide_True by done.
      intros [Hsub Hnone]%del_gitfiles_strips. split; [done |]. by intros v' [= <-].
  - intros (_ & -> & _)%mret_inv. by split.
Qed.

Lemma process_submodules_lines dirname lines : ∀ t t' l,
  for_ lines (process_submodules_line dirname) t = (Ok (), t', l) →
  t' ⊆ t ∧ ∀ v, v ∈ omap path_entry lines → no_gitfiles_in t' (join dirname v).
Proof.
  induction lines as [|line lines IH]; intros t t' l Hrun; simpl in Hrun.
  - apply mret_inv in Hrun as (_ & -> & _). split; [done |].
    intros v Hv. by apply elem_of_nil in Hv.
  - bind_ok Hrun as u Hline. destruct u.
    apply process_submodules_line_strips in Hline as [Hsub Hstripped].
    apply IH in Hrun as [Hsub' Hstripped']. split; [by etrans |].
    intros v Hv. simpl in Hv. destruct (path_entry line) as [v0|] eqn:Hentry.
    + apply elem_of_cons in Hv as [->|Hv]; [| by apply Hstripped'].
      eapply glob_nil_shrink; [exact Hsub' |]. by apply Hstripped.
    + by apply Hstripped'.
Qed.

Lemma subprocess_check_call_Ok c t t' l :
  subprocess_check_call c t = (Ok (), t', l) → t' = (spawn c t).2.
Proof.
  unfold subprocess_check_call, subprocess_call, subprocess_run, bind.
  destruct (spawn c t) as [[rc out|e] ts]; simpl; [| done].
  destruct (decide (rc ≠ 0%Z)); by intros [= <-].
Qed.

(** C1 as the code has it, for directory names that [glob] takes as they
    are written: the snapshot root has no [*], [?] or opening bracket in
    its name, and neither has the directory of a [path =] entry of the
    [.gitmodules] of the root, read once the submodules are updated.
    After [process_submodules] and [del_gitfiles] on the snapshot root, no
    entry of the root has a name that starts with [.git], and the same
    holds for the directory of every such entry.  Only entries of these
    directories themselves are removed, and only the [.gitmodules] of the
    root is read. *)
Theorem C1_gitfiles_stripped_from_root_and_listed_submodules dirname t t' l
    (Hliteral : has_magic dirname = false)
    (Hentries : ∀ text v,
        (read_file (join dirname ".gitmodules")
           (spawn (submodule_update_call dirname) t).2).1.1 = Ok text →
        v ∈ gitmodules_paths text →
        has_magic (join dirname v) = false)
    (Hrun : bind (process_submodules dirname) (λ _, del_gitfiles dirname) t = (Ok (), t', l)) :
  no_gitfiles_in t' dirname
  ∧ ∀ text v,
      stat t (join dirname ".gitmodules") ≠ None →
      (read_file (join dirname ".gitmodules")
         (spawn (submodule_update_call dirname) t).2).1.1 = Ok text →
      v ∈ gitmodules_paths text →
      no_gitfiles_in t' (join dirname v).
Proof.
  bind_ok Hrun as u Hsub. destruct u.
  apply del_gitfiles_strips in Hrun as [Hshrink Hroot]. split; [done |].
  intros text v Hexists Hread Hv.
  unfold process_submodules, os_path_exists in Hsub. rewrite bind_query in Hsub.
  rewrite bool_decide_eq_true_2 in Hsub by (by apply not_eq_None_Some).
  simpl in Hsub. bind_ok Hsub as u Hupdate. destruct u.
  bind_ok Hsub as text' Htext.
  apply subprocess_check_call_Ok in Hupdate. subst.
  fold (submodule_update_call dirname) in Htext.
  rewrite Htext in Hread. simpl in Hread. injection Hread as ->.
  apply read_file_inv in Htext as (-> & _ & _).
  apply process_submodules_lines in Hsub as [Hshrink' Hstripped].
  eapply glob_nil_shrink; [exact Hshrink |]. by apply Hstripped.
Qed.

End Submodules.

(** * The statements on the concrete world *)

(** ** The digest on the standard test messages

    The empty message, the three bytes [abc] and the 56-byte message of
    FIPS 180-4, which needs a second block for its padding. *)

Example hexdigest_empty :
  Sha256.hexdigest ""
  = "e3b0c44298fc1c149afbf4c8996fb92427ae41e4649b934ca495991b7852b855".
Proof. vm_compute. reflexivity. Qed.

Example hexdigest_abc :
  Sha256.hexdigest "abc"
  = "ba7816bf8f01cfea414140de5dae2223b00361a396177a9cb410ff61f20015ad".
Proof. vm_compute. reflexivity. Qed.

Example hexdigest_two_blocks :
  Sha256.hexdigest "abcdbcdecdefdefgefghfghighijhijkijkljklmklmnlmnomnopnopq"
  = "248d6a61d20638b8e5c026930c3e6039a33ce45964ff2167f6ecedd419db06c1".
Proof. vm_compute. reflexivity. Qed.


Lemma triple_eta {A B C : Type} (x : A * B * C) : x = (x.1.1, x.1.2, x.2).
Proof. by destruct x as [[??]?]. Qed.

Lemma run_result {A B C : Type} (x : A * B * C) r : x.1.1 = r → x = (r, x.1.2, x.2).
Proof. intros <-. apply triple_eta. Qed.

(** C10 on a request for zip and then xztar: Mercurial returns the xz
    archive first, as it does for the request in the other order, and Git
    the zip archive. *)
Lemma C10_archive_order_witness :
  let xz := "/build/meson-dist/proj-1.0.tar.xz" in
  let zip := "/build/meson-dist/proj-1.0.zip" in
  let hg archives := create_dist_hg (H := Demo.host Demo.hg_ok) "proj-1.0" archives
                       "/hgsrc" "/build" "/build/meson-dist" [Demo.stamp_hook] Demo.files in
  let git := create_dist_git (H := Demo.host Demo.git_ok) "proj-1.0" ["zip"; "xztar"]
               "/src" "/build" "/build/meson-dist" [Demo.stamp_hook] Demo.files in
  (hg ["zip"; "xztar"]).1.1 = Ok [xz; zip]
  ∧ git.1.1 = Ok [zip; xz]
  ∧ [xz; zip] = hg_output_names "proj-1.0" "/build/meson-dist" ["zip"; "xztar"]
  ∧ hg ["xztar"; "zip"] = (Ok [xz; zip], (hg ["zip"; "xztar"]).1.2, (hg ["zip"; "xztar"]).2)
  ∧ head [xz; zip] = head (hg_output_names "proj-1.0" "/build/meson-dist" ["xztar"; "zip"])
  ∧ Forall2 (λ a n, git_output_name "proj-1.0" "/build/meson-dist" a = Some n)
      ["zip"; "xztar"] [zip; xz].
Proof.
  intros xz zip hg git.
  assert ((hg ["zip"; "xztar"]).1.1 = Ok [xz; zip]) as Hhg by (vm_compute; reflexivity).
  assert (git.1.1 = Ok [zip; xz]) as Hgit by (vm_compute; reflexivity).
  split; [exact Hhg |]. split; [exact Hgit |].
  destruct (C10_archive_order (H := Demo.host Demo.hg_ok) "proj-1.0" "/build/meson-dist"
              ["zip"; "xztar"]) as [Horder _].
  destruct (C10_archive_order (H := Demo.host Demo.git_ok) "proj-1.0" "/build/meson-dist"
              ["zip"; "xztar"]) as [_ Hrequest].
  destruct (Horder "/hgsrc" "/build" [Demo.stamp_hook] Demo.files [xz; zip]
              (hg ["zip"; "xztar"]).1.2 (hg ["zip"; "xztar"]).2 (run_result _ _ Hhg))
    as [Hnames Hsame].
  destruct (Hsame ["xztar"; "zip"]) as [Halike Hfirst].
  { intros x. rewrite !elem_of_cons, !elem_of_nil. tauto. }
  split; [exact Hnames |]. split; [exact Halike |]. split; [exact Hfirst |].
  exact (Hrequest "/src" "/build" [Demo.stamp_hook] Demo.files [zip; xz] git.1.2 git.2
           (run_result _ _ Hgit)).
Defined.

(** C7 on three hooks of which the second exits with status 1: two are
    launched, in order, and the run ends with [SystemExit]. *)
Lemma C7_hooks_witness :
  let scripts := [Demo.stamp_hook; DistScript ["/bin/false"] []; Demo.stamp_hook] in
  let x := run_dist_scripts (H := Demo.host Demo.git_ok) "/build/meson-dist" scripts Demo.packed in
  x.1.1 = Raise (SystemExit (ExitMessage "Dist script errored out"))
  ∧ length (spawned x.2) = 2
  ∧ ∃ outs,
      spawned x.2 = zip (hook_call (H := Demo.host Demo.git_ok) "/build/meson-dist" <$> scripts) outs
      ∧ length outs ≤ length scripts
      ∧ (∀ c o, (c, o) ∈ spawned x.2 →
           ∃ e, env c = Some e
             ∧ e !! "MESON_DIST_ROOT" = Some "/build/meson-dist"
             ∧ ∀ k, k ≠ "MESON_DIST_ROOT" → e !! k = Demo.environment !! k)
      ∧ match x.1.1 with
        | Ok _ => length outs = length scripts ∧ Forall (λ o, hook_failed o = false) outs
        | Raise e =>
            ∃ pre o, outs = pre ++ [o]
              ∧ Forall (λ o, hook_failed o = false) pre
              ∧ hook_failed o = true
              ∧ e = SystemExit (match o with
                                | NotLaunched _ => ExitCode 1
                                | Exited _ _ => ExitMessage "Dist script errored out"
                                end)
        end.
Proof.
  intros scripts x. split; [vm_compute; reflexivity |]. split; [vm_compute; reflexivity |].
  apply (C7_hooks_in_order_first_failure_fatal (H := Demo.host Demo.git_ok)
           "/build/meson-dist" scripts Demo.packed x.1.1 x.1.2 x.2).
  - apply triple_eta.
  - reflexivity.
Defined.

(** C5 on the xz archive of the concrete world. *)
Lemma C5_sidecar_witness :
  let x := create_hash "/build/meson-dist/proj-1.0.tar.xz" Demo.packed in
  read_file "/build/meson-dist/proj-1.0.tar.xz.sha256sum" x.1.2
  = (Ok (Sha256.hexdigest "xztar archive of proj-1.0" +:+ " "
         +:+ basename "/build/meson-dist/proj-1.0.tar.xz" +:+ NL), x.1.2, []).
Proof.
  intros x.
  apply (C5_sidecar_has_digest_space_basename "/build/meson-dist/proj-1.0.tar.xz"
           "xztar archive of proj-1.0" Demo.packed x.1.2 x.2).
  - vm_compute. reflexivity.
  - apply run_result. vm_compute. reflexivity.
Defined.

(** The claim C5 as stated, with two spaces between the digest and the
    name, fails on the xz archive of the concrete world: the sidecar holds
    one space. *)
Lemma C5_two_spaces_counterexample :
  let fname := "/build/meson-dist/proj-1.0.tar.xz" in
  let digest := "54d958e6b59785698b06a072e6a37a53c727719db958648232626ef060ec03d9" in
  let t' := (create_hash fname Demo.packed).1.2 in
  Sha256.hexdigest "xztar archive of proj-1.0" = digest
  ∧ (read_file (fname +:+ ".sha256sum") t').1.1
    = Ok (digest +:+ " " +:+ "proj-1.0.tar.xz" +:+ NL)
  ∧ (read_file (fname +:+ ".sha256sum") t').1.1
    ≠ Ok (digest +:+ "  " +:+ basename fname +:+ NL).
Proof.
  intros fname digest t'.
  split; [vm_compute; reflexivity |]. split; [vm_compute; reflexivity |].
  vm_compute. discriminate.
Qed.

(** The verifier's world writes only files named [build.ninja] and what the
    archive holds, so it leaves alone every path with another last name. *)
Lemma put_all_frame (entries : list (list string * node)) (t : fs) k :
  (∀ kv, kv ∈ entries → kv.1 ≠ k) → Demo.put_all entries t !! k = t !! k.
Proof.
  induction entries as [|kv entries IH]; intros Hne; simpl; [done |].
  rewrite lookup_insert_ne by (apply Hne; by left).
  apply IH. intros kv' Hin. apply Hne. by right.
Qed.

Lemma tool_frame status c (t : fs) k :
  last k ≠ Some "build.ninja" → (Demo.tool status c t).2 !! k = t !! k.
Proof.
  intros Hk. unfold Demo.tool. destruct (argv c) as [|prog rest]; [done |].
  destruct (decide (prog = "meson")); [| by destruct (decide (prog = "ninja"))].
  simpl. apply lookup_insert_ne. intros <-.
  by rewrite components_join_name, last_snoc in Hk.
Qed.

Lemma unpack_frame shape filename extract_dir (t : fs) k :
  last k ∉ [Some "proj-1.0"; Some "meson.build"; Some ".hidden"; Some "docs"] →
  (Demo.unpack shape filename extract_dir t).2 !! k = t !! k.
Proof.
  intros Hk. unfold Demo.unpack. destruct (stat t filename) as [[]|]; try done.
  simpl. apply put_all_frame. intros kv Hkv <-.
  apply list_elem_of_fmap in Hkv as ([k0 n] & -> & Hin). simpl in Hk.
  apply Hk. destruct shape; simpl in Hin;
    repeat (apply elem_of_cons in Hin as [[= -> ->]|Hin]; [rewrite last_app; simpl |]);
    try (by apply elem_of_nil in Hin);
    rewrite !elem_of_cons; tauto.
Qed.


Lemma absent_of_prune (t : fs) k : bool_decide (prune k t = t) = true → absent t k.
Proof. intros <-%bool_decide_eq_true. apply prune_absent. Qed.

Lemma pair_result {A B : Type} (x : A * B) r : x.1 = r → x = (r, x.2).
Proof. intros <-. by destruct x. Qed.






Lemma not_by_computation (P : Prop) `{Decision P} : bool_decide P = false → ¬ P.
Proof. apply bool_decide_eq_false. Qed.

Ltac refute_by_computation :=
  lazymatch goal with
  | |- ?x ∉ ?y => apply (not_by_computation (x ∈ y))
  | |- ?x ≠ ?y => apply (not_by_computation (x = y))
  | |- ¬ ?P => apply (not_by_computation P)
  end;
  vm_compute; reflexivity.

Lemma checker_keeps_packed_archives status shape :
  let names := ["/build/meson-dist/proj-1.0.tar.xz"; "/build/meson-dist/proj-1.0.zip"] in
  checker_keeps (H := Demo.checker status shape) (archives_kept names Demo.packed).
Proof.
  intros names. split.
  - intros c t Hp n Hn. simpl. rewrite tool_frame; [by apply Hp |].
    apply elem_of_cons in Hn as [->|[->|[]%elem_of_nil]%elem_of_cons];
      refute_by_computation.
  - intros filename extract_dir t Hp n Hn. simpl. rewrite unpack_frame; [by apply Hp |].
    apply elem_of_cons in Hn as [->|[->|[]%elem_of_nil]%elem_of_cons];
      refute_by_computation.
Qed.

(** C2 on the two archives of the packed world, with a configure step that
    exits with status 2 and with one that succeeds. *)
Lemma C2_stamping_witness :
  let names := ["/build/meson-dist/proj-1.0.tar.xz"; "/build/meson-dist/proj-1.0.zip"] in
  let privdir := "/build/meson-private" in
  let failed := check_dist (H := Demo.checker 2 Demo.OneDirectory)
                  "/build/meson-dist/proj-1.0.tar.xz" ["meson"] privdir Demo.packed in
  let v := check_dist (H := Demo.checker 0 Demo.OneDirectory)
             "/build/meson-dist/proj-1.0.tar.xz" ["meson"] privdir Demo.packed in
  let x := run_check_and_hash (H := Demo.checker 0 Demo.OneDirectory)
             names ["meson"] privdir Demo.packed in
  (failed.1.1 = Ok 1%Z
   ∧ run_check_and_hash (H := Demo.checker 2 Demo.OneDirectory)
       names ["meson"] privdir Demo.packed = failed)
  ∧ v.1.1 = Ok 0%Z
  ∧ archives_kept names Demo.packed v.1.2
  ∧ (v.1.1 ≠ Ok 0%Z → x = v)
  ∧ (v.1.1 = Ok 0%Z →
       x.1.1 = Ok 0%Z
       ∧ x.1.2 = (for_ names create_hash v.1.2).1.2
       ∧ spawned x.2 = spawned v.2
       ∧ ∀ n, n ∈ names →
           ∃ data, read_file n x.1.2 = (Ok data, x.1.2, [])
             ∧ read_file (sidecar n) x.1.2 = (Ok (sidecar_line data n), x.1.2, [])).
Proof.
  intros names privdir failed v x.
  assert (∀ status,
    let H := Demo.checker status Demo.OneDirectory in
    let v := check_dist "/build/meson-dist/proj-1.0.tar.xz" ["meson"] privdir Demo.packed in
    let x := run_check_and_hash names ["meson"] privdir Demo.packed in
    (∀ n, n ∈ names → writable v.1.2 (components (sidecar n))) →
    archives_kept names Demo.packed v.1.2
    ∧ (v.1.1 ≠ Ok 0%Z → x = v)
    ∧ (v.1.1 = Ok 0%Z →
         x.1.1 = Ok 0%Z
         ∧ x.1.2 = (for_ names create_hash v.1.2).1.2
         ∧ spawned x.2 = spawned v.2
         ∧ ∀ n, n ∈ names →
             ∃ data, read_file n x.1.2 = (Ok data, x.1.2, [])
               ∧ read_file (sidecar n) x.1.2 = (Ok (sidecar_line data n), x.1.2, [])))
    as Hgeneral.
  { intros status H0 v0 x0 Hfree.
    apply (C2_stamping_iff_verified (H := H0) names "/build/meson-dist/proj-1.0.tar.xz"
             ["meson"] privdir Demo.packed).
    - reflexivity.
    - intros n [->|[->|[]%elem_of_nil]%elem_of_cons]%elem_of_cons.
      + exists "xztar archive of proj-1.0". vm_compute. reflexivity.
      + exists "zip archive of proj-1.0". vm_compute. reflexivity.
    - intros n p [->|[->|[]%elem_of_nil]%elem_of_cons]%elem_of_cons
        [->|[->|[->|[]%elem_of_nil]%elem_of_cons]%elem_of_cons]%elem_of_cons;
        refute_by_computation.
    - apply checker_keeps_packed_archives.
    - intros n m [->|[->|[]%elem_of_nil]%elem_of_cons]%elem_of_cons
        [->|[->|[]%elem_of_nil]%elem_of_cons]%elem_of_cons;
        refute_by_computation.
    - intros n m [->|[->|[]%elem_of_nil]%elem_of_cons]%elem_of_cons
        [->|[->|[]%elem_of_nil]%elem_of_cons]%elem_of_cons Heq; try done;
        exfalso; revert Heq; refute_by_computation.
    - exact Hfree. }
  split; [| split].
  - split; [vm_compute; reflexivity |].
    destruct (Hgeneral 2%Z) as (_ & Hfail & _).
    + intros n [->|[->|[]%elem_of_nil]%elem_of_cons]%elem_of_cons;
        (split; vm_compute; [reflexivity | exact I]).
    + apply Hfail. change (failed.1.1 ≠ Ok 0%Z).
      assert (failed.1.1 = Ok 1%Z) as -> by (vm_compute; reflexivity). discriminate.
  - vm_compute. reflexivity.
  - apply (Hgeneral 0%Z).
    intros n [->|[->|[]%elem_of_nil]%elem_of_cons]%elem_of_cons;
      (split; vm_compute; [reflexivity | exact I]).
Defined.

(** C1 as amended, on the clone of the concrete world. *)
Lemma C1_gitfiles_witness :
  let H := Demo.host Demo.git_ok in
  let d := "/build/meson-dist/proj-1.0" in
  let x := bind (process_submodules d) (λ _, del_gitfiles d) Demo.cloned in
  no_gitfiles_in x.1.2 d
  ∧ ∀ text v,
      stat Demo.cloned (join d ".gitmodules") ≠ None →
      (read_file (join d ".gitmodules") (spawn (submodule_update_call d) Demo.cloned).2).1.1
      = Ok text →
      v ∈ gitmodules_paths text →
      no_gitfiles_in x.1.2 (join d v).
Proof.
  intros H d x.
  apply (C1_gitfiles_stripped_from_root_and_listed_submodules (H := H) d Demo.cloned x.1.2 x.2).
  - reflexivity.
  - intros text v Hread Hv.
    assert ((read_file (join d ".gitmodules")
               (spawn (submodule_update_call d) Demo.cloned).2).1.1
            = Ok (Demo.gitmodules "sub" "sub")) as Htext by (vm_compute; reflexivity).
    rewrite Htext in Hread. injection Hread as <-.
    assert (gitmodules_paths (Demo.gitmodules "sub" "sub") = ["sub"]) as Hpaths
      by (vm_compute; reflexivity).
    rewrite Hpaths in Hv. apply list_elem_of_singleton in Hv as ->. reflexivity.
  - apply run_result. vm_compute. reflexivity.
Defined.

(** The claim C1 as stated fails on the clone of the concrete world, whose
    submodule [sub] has a submodule [nested] of its own.  The update
    checks both out; [nested] is the [path =] entry of [sub/.gitmodules];
    the run returns; and the [.git] file of [nested] is still there, a
    control file two levels down in the snapshot. *)
Lemma C1_nested_submodule_counterexample :
  let H := Demo.host Demo.git_ok in
  let d := "/build/meson-dist/proj-1.0" in
  let updated := (spawn (submodule_update_call d) Demo.cloned).2 in
  let x := bind (process_submodules d) (λ _, del_gitfiles d) Demo.cloned in
  x.1.1 = Ok ()
  ∧ (read_file (join d ".gitmodules") updated).1.1 = Ok (Demo.gitmodules "sub" "sub")
  ∧ gitmodules_paths (Demo.gitmodules "sub" "sub") = ["sub"]
  ∧ (read_file (join (join d "sub") ".gitmodules") updated).1.1
    = Ok (Demo.gitmodules "nested" "nested")
  ∧ gitmodules_paths (Demo.gitmodules "nested" "nested") = ["nested"]
  ∧ glob x.1.2 (join (join (join d "sub") "nested") ".git*")
    = ["/build/meson-dist/proj-1.0/sub/nested/.git"]
  ∧ gitfiles_below x.1.2 (components d)
    = [["build"; "meson-dist"; "proj-1.0"; "sub"; "nested"; ".git"]]
  ∧ has_magic (join (join d "sub") "nested") = false.
Proof.
  intros H d updated x. repeat split; vm_compute; reflexivity.
Qed.

(** * Further properties of [mdist.py] *)

(** ** Strings and paths, continued *)

(** [','.join(s.split(','))] is [s]. *)
Lemma str_join_split_on c s : str_join (String c "") (split_on c s) = s.
Proof.
  unfold str_join. induction s as [|d s IH]; [done |]. simpl.
  destruct (decide (d = c)) as [->|Hne].
  - pose proof (split_on_nonempty c s) as Hs.
    destruct (split_on c s) as [|w ws] eqn:Hw; [done |].
    cbn [String.concat]. rewrite append_nil_l, append_cons, append_nil_l. by rewrite <- IH.
  - pose proof (split_on_nonempty c s) as Hs.
    destruct (split_on c s) as [|w ws] eqn:Hw; [done |].
    rewrite <- IH. destruct ws; [done |]. cbn [String.concat]. by rewrite append_cons.
Qed.

Lemma contains_char_app c a b :
  contains_char c (a +:+ b) = contains_char c a || contains_char c b.
Proof.
  induction a as [|d a IH]; [done |]. rewrite append_cons. simpl.
  by destruct (decide (c = d)).
Qed.

(** The last piece of a split takes what is appended to the string. *)
Lemma split_on_last sep s :
  ∃ init piece,
    split_on sep s = init ++ [piece]
    ∧ contains_char sep piece = false
    ∧ ∀ x, contains_char sep x = false → split_on sep (s +:+ x) = init ++ [piece +:+ x].
Proof.
  induction s as [|c s (init & piece & Hs & Hp & Hx)].
  - exists [], "". repeat split; try done. intros x Hx. rewrite append_nil_l.
    by apply split_on_no_sep.
  - simpl. destruct (decide (c = sep)) as [->|Hne].
    + exists ("" :: init), piece. rewrite Hs. repeat split; try done.
      intros x Hcx. by rewrite Hx.
    + rewrite Hs. destruct init as [|w init]; simpl.
      * exists [], (String c piece). repeat split; try done.
        -- simpl. rewrite decide_False by congruence. done.
        -- intros x Hcx. by rewrite Hx.
      * exists (String c w :: init), piece. repeat split; try done.
        intros x Hcx. by rewrite Hx.
Qed.

Lemma length_removelast_le {A : Type} (l : list A) : length (removelast l) ≤ length l.
Proof. induction l as [|a [|b l] IH]; simpl in *; lia. Qed.

(** A path with a suffix of three characters or more and no slash in it
    denotes an entry of the directory that the path without its last piece
    leads to. *)
Lemma components_suffix f x :
  contains_char "/" x = false → 2 < String.length x →
  ∃ base piece,
    components f = walk base piece
    ∧ components (f +:+ x) = base ++ [piece +:+ x]
    ∧ valid_name (piece +:+ x) = true.
Proof.
  intros Hx Hlen. destruct (split_on_last "/" f) as (init & piece & Hs & Hp & Happ).
  exists (fold_left walk init []), piece.
  assert (valid_name (piece +:+ x) = true) as Hvalid.
  { apply valid_name_spec.
    assert (2 < String.length (piece +:+ x)) as Hl by (rewrite length_append; lia).
    repeat split; try (intros Heq; rewrite Heq in Hl; simpl in Hl; lia).
    by rewrite contains_char_app, Hp, Hx. }
  unfold components. rewrite Hs, Happ by done. rewrite !fold_left_app. simpl.
  split; [done |]. split; [| done]. by apply walk_valid.
Qed.

(** Such a suffix makes a path of another file. *)
Lemma suffixed_not_same f x :
  contains_char "/" x = false → 2 < String.length x →
  components (f +:+ x) ≠ components f
  ∧ components (f +:+ x) ≠ []
  ∧ removelast (components (f +:+ x)) ≠ components (f +:+ x).
Proof.
  intros Hx Hlen. destruct (components_suffix f x Hx Hlen) as (base & piece & Hf & -> & _).
  split; [| split].
  - rewrite Hf. unfold walk. intros Heq.
    destruct (decide (piece = "" ∨ piece = ".")).
    { apply (f_equal length) in Heq. rewrite length_app in Heq. simpl in Heq. lia. }
    destruct (decide (piece = "..")).
    { apply (f_equal length) in Heq. rewrite length_app in Heq.
      pose proof (length_removelast_le base). simpl in Heq. lia. }
    apply app_inj_tail in Heq as [_ Heq]. apply (f_equal String.length) in Heq.
    rewrite length_append in Heq. lia.
  - by destruct base.
  - rewrite removelast_last. intros Heq. apply (f_equal length) in Heq.
    rewrite length_app in Heq. simpl in Heq. lia.
Qed.

Lemma append_inv_head p a b : p +:+ a = p +:+ b → a = b.
Proof. induction p as [|c p IH]; [done |]. rewrite !append_cons. intros [= ?]. auto. Qed.

Lemma components_suffixes f :
  ∃ base piece,
    components f = walk base piece
    ∧ ∀ x, contains_char "/" x = false → 2 < String.length x →
           components (f +:+ x) = base ++ [piece +:+ x].
Proof.
  destruct (split_on_last "/" f) as (init & piece & Hs & Hp & Happ).
  exists (fold_left walk init []), piece. split.
  - unfold components. by rewrite Hs, fold_left_app.
  - intros x Hx Hlen.
    assert (valid_name (piece +:+ x) = true) as Hvalid.
    { apply valid_name_spec.
      assert (2 < String.length (piece +:+ x)) as Hl by (rewrite length_append; lia).
      repeat split; try (intros Heq; rewrite Heq in Hl; simpl in Hl; lia).
      by rewrite contains_char_app, Hp, Hx. }
    unfold components. rewrite Happ by done. rewrite fold_left_app. simpl.
    by apply walk_valid.
Qed.

(** Two suffixes of a path name two entries of one directory. *)
Lemma suffixed_apart f x y :
  contains_char "/" x = false → 2 < String.length x →
  contains_char "/" y = false → 2 < String.length y →
  x ≠ y →
  components (f +:+ x) ≠ components (f +:+ y)
  ∧ removelast (components (f +:+ x)) = removelast (components (f +:+ y))
  ∧ components (f +:+ x) ≠ removelast (components (f +:+ y)).
Proof.
  intros Hx Hlx Hy Hly Hne. destruct (components_suffixes f) as (base & piece & _ & Hall).
  rewrite (Hall x), (Hall y) by done. rewrite !removelast_last.
  split; [| split; [done |]].
  - intros [_ Heq]%app_inj_tail. by apply append_inv_head in Heq.
  - intros Heq. apply (f_equal length) in Heq. rewrite length_app in Heq. simpl in Heq. lia.
Qed.

Lemma join_append a b e : isabs (b +:+ e) = isabs b → join a (b +:+ e) = join a b +:+ e.
Proof.
  unfold join. intros ->. destruct (isabs b); [done |].
  destruct (bool_decide (a = "") || endswith_slash a); by rewrite !append_assoc.
Qed.

Lemma isabs_append b c e :
  isabs (b +:+ String c e) = if decide (b = "") then bool_decide (c = "/"%char) else isabs b.
Proof. by destruct b. Qed.

(** What [rsplit_slash] returns: the text after the last slash, and before
    it the text up to and including that slash. *)
Lemma rsplit_slash_spec p :
  contains_char "/" (rsplit_slash p).2 = false
  ∧ p = default "" (rsplit_slash p).1 +:+ (rsplit_slash p).2
  ∧ match (rsplit_slash p).1 with
    | Some h => endswith_slash h = true
    | None => True
    end.
Proof.
  induction p as [|c p (IH1 & IH2 & IH3)]; [done |]. simpl.
  destruct (rsplit_slash p) as [[h|] t]; simpl in *.
  - split; [done |]. split; [rewrite ?append_cons; by rewrite <- IH2 |]. by destruct h.
  - destruct (decide (c = "/"%char)) as [->|Hne]; simpl.
    + split; [done |]. split; [| done]. by rewrite IH2.
    + rewrite decide_False by congruence. rewrite append_nil_l in *.
      split; [done |]. split; [by f_equal | done].
Qed.

Lemma substring_prefix (a b : string) :
  String.substring 0 (String.length a) (a +:+ b) = a.
Proof.
  induction a as [|c a IH]; simpl.
  - by destruct b.
  - by rewrite IH.
Qed.

Lemma string_length_of_list (l : list ascii) :
  String.length (string_of_list_ascii l) = length l.
Proof. induction l as [|c l IH]; [done |]. simpl. by rewrite IH. Qed.

Lemma list_of_string_app (a b : string) :
  list_ascii_of_string (a +:+ b) = list_ascii_of_string a ++ list_ascii_of_string b.
Proof. induction a as [|c a IH]; [done |]. rewrite append_cons. simpl. by rewrite IH. Qed.

Lemma concat_empty_cons (w : string) (ws : list string) :
  String.concat "" (w :: ws) = w +:+ String.concat "" ws.
Proof. destruct ws; simpl; [by rewrite append_nil_r | done]. Qed.

(** *** [str.strip] and [str.split] on a line [key = value] *)

Lemma rev_app_spec (s acc : string) : String.rev_app s acc = String.rev s +:+ acc.
Proof.
  revert acc. induction s as [|c s IH]; intros acc; [done |].
  unfold String.rev. simpl. rewrite (IH (String c acc)), (IH (String c "")).
  by rewrite append_assoc.
Qed.

Lemma rev_cons c (s : string) : String.rev (String c s) = String.rev s +:+ String c "".
Proof. unfold String.rev at 1. simpl. apply rev_app_spec. Qed.

Lemma rev_append (a b : string) : String.rev (a +:+ b) = String.rev b +:+ String.rev a.
Proof.
  induction a as [|c a IH].
  - rewrite append_nil_l. change (String.rev "") with "". by rewrite append_nil_r.
  - rewrite append_cons, !rev_cons, IH. by rewrite append_assoc.
Qed.

Lemma rev_involutive (a : string) : String.rev (String.rev a) = a.
Proof.
  induction a as [|c a IH]; [done |]. rewrite rev_cons, rev_append, IH. done.
Qed.

Lemma lstrip_app_nonspace k c x :
  py_isspace c = false → lstrip (k +:+ String c x) = lstrip k +:+ String c x.
Proof.
  intros Hc. induction k as [|d k IH]; simpl.
  - by rewrite Hc.
  - by destruct (py_isspace d).
Qed.

Lemma rstrip_app_nonspace a c v :
  py_isspace c = false → rstrip (a +:+ String c v) = a +:+ String c (rstrip v).
Proof.
  intros Hc. unfold rstrip. rewrite rev_append, rev_cons, append_assoc.
  rewrite append_cons, append_nil_l.
  rewrite lstrip_app_nonspace by done. rewrite rev_append, rev_cons, rev_involutive.
  by rewrite append_assoc.
Qed.

Lemma lstrip_head s :
  lstrip s = "" ∨ ∃ c r, lstrip s = String c r ∧ py_isspace c = false.
Proof.
  induction s as [|c s IH]; simpl; [by left |].
  destruct (py_isspace c) eqn:Hc; [done |]. right. eauto.
Qed.

Lemma lstrip_nonspace c r : py_isspace c = false → lstrip (String c r) = String c r.
Proof. intros Hc. simpl. by rewrite Hc. Qed.

Lemma lstrip_idemp s : lstrip (lstrip s) = lstrip s.
Proof.
  destruct (lstrip_head s) as [->|(c & r & -> & Hc)]; [done |]. by apply lstrip_nonspace.
Qed.

Lemma rstrip_idemp s : rstrip (rstrip s) = rstrip s.
Proof. unfold rstrip. by rewrite rev_involutive, lstrip_idemp. Qed.

Lemma lstrip_snoc x c :
  lstrip (x +:+ String c "")
  = match lstrip x with
    | "" => if py_isspace c then "" else String c ""
    | r => r +:+ String c ""
    end.
Proof.
  induction x as [|d x IH]; simpl; [done |].
  destruct (py_isspace d); [done |]. done.
Qed.

Lemma rstrip_cons c v :
  rstrip (String c v)
  = match rstrip v with
    | "" => if py_isspace c then "" else String c ""
    | r => String c r
    end.
Proof.
  unfold rstrip. rewrite rev_cons, lstrip_snoc.
  destruct (lstrip (String.rev v)) as [|d r] eqn:Hl.
  - by destruct (py_isspace c).
  - rewrite rev_append. change (String.rev (String c "")) with (String c "").
    rewrite append_cons, append_nil_l.
    destruct (String.rev (String d r)) eqn:Hr; [| done].
    rewrite rev_cons in Hr. by destruct (String.rev r).
Qed.

(** Stripping the two ends can be done in either order. *)
Lemma lstrip_rstrip v : lstrip (rstrip v) = rstrip (lstrip v).
Proof.
  induction v as [|c v IH]; [done |].
  destruct (py_isspace c) eqn:Hc.
  - assert (lstrip (String c v) = lstrip v) as -> by (simpl; by rewrite Hc).
    rewrite rstrip_cons, Hc, <- IH. destruct (rstrip v) as [|d r]; [done |].
    simpl. by rewrite Hc.
  - rewrite (lstrip_nonspace c v Hc), rstrip_cons, Hc.
    destruct (rstrip v) as [|d r]; by apply lstrip_nonspace.
Qed.

Lemma strip_lstrip k : strip (lstrip k) = strip k.
Proof. unfold strip. by rewrite lstrip_idemp. Qed.

Lemma strip_rstrip v : strip (rstrip v) = strip v.
Proof. unfold strip. by rewrite lstrip_rstrip, rstrip_idemp. Qed.

Lemma contains_char_rev c s : contains_char c (String.rev s) = contains_char c s.
Proof.
  induction s as [|d s IH]; [done |]. rewrite rev_cons, contains_char_app, IH. simpl.
  destruct (decide (c = d)); [apply orb_true_r | apply orb_false_r].
Qed.

Lemma contains_char_lstrip c s : contains_char c s = false → contains_char c (lstrip s) = false.
Proof.
  induction s as [|d s IH]; [done |]. simpl.
  destruct (decide (c = d)); [done |]. intros Hs.
  destruct (py_isspace d); [by apply IH |]. simpl. by rewrite decide_False.
Qed.

Lemma contains_char_strip c s : contains_char c s = false → contains_char c (strip s) = false.
Proof.
  intros Hs. unfold strip, rstrip. rewrite contains_char_rev.
  apply contains_char_lstrip. rewrite contains_char_rev. by apply contains_char_lstrip.
Qed.

Lemma split1_app sep a b :
  contains_char sep a = false → split1 sep (a +:+ String sep b) = (a, b).
Proof.
  induction a as [|c a IH]; simpl.
  - by rewrite decide_True.
  - destruct (decide (sep = c)) as [|Hne]; [done |]. intros Ha.
    rewrite decide_False by congruence. by rewrite IH.
Qed.

(** ** Events and results *)

(** A computation without events. *)
Lemma no_events {A : Type} (m : M A) :
  keeps (λ _, True) (λ _, False) m → ∀ t, (m t).2 = [].
Proof.
  intros Hm t. destruct (Hm t I) as [_ Hl]. destruct ((m t).2) as [|ev l]; [done |].
  by apply Forall_cons in Hl as [[] _].
Qed.

Lemma no_events_run {A : Type} (m : M A) t r t' l :
  keeps (λ _, True) (λ _, False) m → m t = (r, t', l) → l = [].
Proof. intros Hm Hrun. pose proof (no_events m Hm t) as Hq. by rewrite Hrun in Hq. Qed.

Lemma spawned_none l : Forall not_spawn l → spawned l = [].
Proof.
  induction l as [|ev l IH]; [done |]. intros [Hev Hl]%Forall_cons.
  destruct ev as [msg|msg|c o]; simpl; auto. by destruct (Hev c o).
Qed.

(** A computation without child processes. *)
Lemma quiet {A : Type} (m : M A) t :
  keeps (λ _, True) not_spawn m → spawned (m t).2 = [].
Proof. intros Hm. apply spawned_none. by destruct (Hm t I). Qed.

Lemma quiet_run {A : Type} (m : M A) t r t' l :
  keeps (λ _, True) not_spawn m → m t = (r, t', l) → spawned l = [].
Proof. intros Hm Hrun. pose proof (quiet m t Hm) as Hq. by rewrite Hrun in Hq. Qed.

Lemma spawned_spawns (cs : list (call * outcome)) :
  spawned (uncurry EvSpawn <$> cs) = cs.
Proof. induction cs as [|[c o] cs IH]; [done |]. simpl. f_equal. exact IH. Qed.

Lemma try_finally_Ok {A : Type} (body : M A) (final : M unit) t a t' l :
  try_finally body final t = (Ok a, t', l) →
  ∃ t1 l1 l2, body t = (Ok a, t1, l1) ∧ final t1 = (Ok (), t', l2) ∧ l = l1 ++ l2.
Proof.
  unfold try_finally. destruct (body t) as [[r t1] l1].
  destruct (final t1) as [[[[]|e] t2] l2] eqn:Hf; [| done].
  intros [= -> <- <-]. by exists t1, l1, l2.
Qed.

(** What holds of the files and of the list before a loop that appends,
    and is kept by every round, holds after it. *)
Lemma for_append_invariant {A : Type} (I : fs → list string → Prop) (body : A → M string) l :
  (∀ x acc t y t' ev, I t acc → body x t = (Ok y, t', ev) → I t' (acc ++ [y])) →
  ∀ acc t names t' ev,
    I t acc → for_append l acc body t = (Ok names, t', ev) → I t' names.
Proof.
  intros Hbody. induction l as [|x l IH]; intros acc t names t' ev Hacc Hrun; simpl in Hrun.
  - by apply mret_inv in Hrun as (<- & -> & _).
  - bind_ok Hrun as y Hy. eapply IH; [| exact Hrun]. by eapply Hbody.
Qed.

(** [H : bind m f t = (Ok x, t', l)]: the first computation returned [a],
    left the files [t1] and produced the events [l1]. *)
Tactic Notation "bind_named" hyp(H) ident(a) ident(t1) ident(l1) ident(Hm) :=
  let l2 := fresh "l" in
  apply bind_inv in H as [(a & t1 & l1 & l2 & Hm & H & ->) | (? & _ & [=])].

Section Calls.
Context `{Host}.

Lemma subprocess_call_inv c t rc t' l :
  subprocess_call c t = (Ok rc, t', l) →
  ∃ out, spawn c t = (Exited rc out, t') ∧ l = [EvSpawn c (Exited rc out)].
Proof.
  unfold subprocess_call, subprocess_run, bind.
  destruct (spawn c t) as [[rc' out|e] ts]; simpl; [| done].
  intros [= <- <- <-]. by exists out.
Qed.

Lemma subprocess_call_events c t :
  (subprocess_call c t).2 = [EvSpawn c (spawn c t).1].
Proof.
  unfold subprocess_call, subprocess_run, bind.
  by destruct (spawn c t) as [[rc out|e] ts].
Qed.

Lemma subprocess_check_call_inv c t t' l :
  subprocess_check_call c t = (Ok (), t', l) →
  ∃ out, spawn c t = (Exited 0 out, t') ∧ l = [EvSpawn c (Exited 0 out)].
Proof.
  unfold subprocess_check_call, subprocess_call, subprocess_run, bind.
  destruct (spawn c t) as [[rc out|e] ts]; simpl; [| done].
  destruct (decide (rc ≠ 0%Z)) as [|Hrc]; [done |].
  apply dec_stable in Hrc as ->. intros [= <- <-]. by exists out.
Qed.

Lemma subprocess_check_call_eq c t :
  subprocess_check_call c t =
  (match (spawn c t).1 with
   | Exited rc _ => if decide (rc ≠ 0%Z) then Raise (CalledProcessError rc (argv c)) else Ok ()
   | NotLaunched e => Raise (OSError e (default "" (head (argv c))))
   end,
   (spawn c t).2, [EvSpawn c (spawn c t).1]).
Proof.
  unfold subprocess_check_call, subprocess_call, subprocess_run, bind.
  destruct (spawn c t) as [[rc out|e] ts]; simpl; [| done].
  by destruct (decide (rc ≠ 0%Z)).
Qed.

Lemma os_unlink_Ok p t t' l :
  os_unlink p t = (Ok (), t', l) →
  t' = delete (components p) t ∧ l = [] ∧ t' !! components p = None.
Proof.
  unfold os_unlink. destruct (lstat t p) as [[]|]; intros [= <- <-]; try done;
    by rewrite lookup_delete_eq.
Qed.

Lemma shutil_rmtree_Ok p t t' l :
  shutil_rmtree p t = (Ok (), t', l) →
  t' = prune (components p) t ∧ l = [] ∧ lstat t p = Some Dir ∧ components p ≠ [].
Proof.
  unfold shutil_rmtree. destruct (lstat t p) as [[]|]; try done.
  destruct (decide (components p = [])); [done |]. by intros [= <- <-].
Qed.

Lemma recreate_silent dirs t : (recreate dirs t).2 = [].
Proof. apply no_events. unfold recreate. keeps_go; done. Qed.

Lemma check_dist_finally_silent unpackdir builddir installdir t :
  (check_dist_finally unpackdir builddir installdir t).2 = [].
Proof. apply no_events. unfold check_dist_finally. keeps_go; done. Qed.

Lemma process_submodules_line_silent dirname line :
  keeps (λ _, True) (λ _, False) (process_submodules_line dirname line).
Proof.
  cbv beta zeta delta [process_submodules_line].
  destruct (contains_char "=" (strip line)); simpl; try apply keeps_ret.
  destruct (split1 "=" (strip line)) as [k v].
  apply keeps_decide; [apply keeps_ret | apply del_gitfiles_emits].
Qed.

End Calls.

(** ** The requested formats *)

Section Requested.
Context `{Host}.

Lemma determine_archives_loop_accepts l : ∀ result i t,
  Forall (λ x, x ∈ archive_choices) l →
  determine_archives_loop l result i t
  = (Ok (result ++ l, from_option Some i (last l)), t, []).
Proof.
  induction l as [|x l IH]; intros result i t Hall; simpl.
  - by rewrite app_nil_r.
  - apply Forall_cons in Hall as [Hx Hall].
    rewrite decide_False by (intros Hn; exact (Hn Hx)).
    rewrite IH by done. rewrite <- app_assoc. simpl.
    rewrite last_cons. by destruct (last l).
Qed.

Lemma determine_archives_loop_rejects good : ∀ bad rest result i t,
  Forall (λ x, x ∈ archive_choices) good →
  bad ∉ archive_choices →
  determine_archives_loop (good ++ bad :: rest) result i t
  = (Raise (SystemExit (ExitMessage (unpermitted_message bad))), t, []).
Proof.
  induction good as [|x good IH]; intros bad rest result i t Hall Hbad; simpl.
  - by rewrite decide_True.
  - apply Forall_cons in Hall as [Hx Hall].
    rewrite decide_False by (intros Hn; exact (Hn Hx)). by apply IH.
Qed.

Lemma determine_archives_loop_Ok l : ∀ result i t r t' ev,
  determine_archives_loop l result i t = (Ok r, t', ev) →
  r.1 = result ++ l ∧ Forall (λ x, x ∈ archive_choices) l.
Proof.
  induction l as [|x l IH]; intros result i t r t' ev; simpl.
  - intros [= <- _ _]. by rewrite app_nil_r.
  - destruct (decide (x ∉ archive_choices)) as [Hx|Hx]; [done |].
    intros (-> & Hall)%IH. rewrite <- app_assoc. split; [done |].
    constructor; [by apply dec_stable | done].
Qed.

Lemma determine_archives_accepts opts t :
  Forall (λ i, i ∈ archive_choices) (split_on "," (formats opts)) →
  determine_archives_to_generate opts t = (Ok (split_on "," (formats opts)), t, []).
Proof.
  intros Hall. unfold determine_archives_to_generate.
  rewrite (bind_Ok _ _ _ _ _ _ (determine_archives_loop_accepts _ [] None t Hall)).
  pose proof (split_on_nonempty "," (formats opts)) as Hne.
  destruct (last (split_on "," (formats opts))) as [i|] eqn:Hlast.
  - simpl. apply last_Some_elem_of in Hlast.
    rewrite Forall_forall in Hall. apply Hall, archive_choice_not_empty in Hlast.
    by rewrite decide_False.
  - by apply last_None in Hlast.
Qed.

Lemma determine_archives_Ok opts t archives t' l :
  determine_archives_to_generate opts t = (Ok archives, t', l) →
  archives = split_on "," (formats opts)
  ∧ archives ≠ [] ∧ Forall (λ x, x ∈ archive_choices) archives.
Proof.
  unfold determine_archives_to_generate. intros Hrun.
  bind_ok Hrun as r Hloop. apply determine_archives_loop_Ok in Hloop as [Hr Hall].
  destruct r as [result [i|]]; [| done]. simpl in Hr. subst result.
  destruct (decide (String.length i = 0)); [done |].
  apply mret_inv in Hrun as (<- & _ & _).
  split; [done |]. split; [apply split_on_nonempty | done].
Qed.

(** X1: when every item of the comma-separated option is a permitted
    format, [determine_archives_to_generate] returns the items as they
    are, in the order of the request and with their repetitions, changes
    no file and produces no event; the list joined with commas is the
    option. *)
Theorem determine_archives_accepts_permitted opts t
    (Hall : Forall (λ i, i ∈ archive_choices) (split_on "," (formats opts))) :
  determine_archives_to_generate opts t = (Ok (split_on "," (formats opts)), t, [])
  ∧ str_join "," (split_on "," (formats opts)) = formats opts.
Proof. split; [by apply determine_archives_accepts | apply str_join_split_on]. Qed.

(** X2: the first item of the option that is not a permitted format ends
    [determine_archives_to_generate] with [SystemExit], the message naming
    that item as it is written (white space included); [run] then ends the
    same way once the build is loaded, before any file is changed and any
    child process is started. *)
Theorem determine_archives_rejects_first_unpermitted opts good bad rest t
    (Hsplit : split_on "," (formats opts) = good ++ bad :: rest)
    (Hgood : Forall (λ i, i ∈ archive_choices) good)
    (Hbad : bad ∉ archive_choices) :
  determine_archives_to_generate opts t
  = (Raise (SystemExit (ExitMessage (unpermitted_message bad))), t, [])
  ∧ run opts t
    = (match build_load "." t with
       | Ok _ => Raise (SystemExit (ExitMessage (unpermitted_message bad)))
       | Raise e => Raise e
       end, t, []).
Proof.
  assert (determine_archives_to_generate opts t
          = (Raise (SystemExit (ExitMessage (unpermitted_message bad))), t, [])) as Hd.
  { unfold determine_archives_to_generate. rewrite Hsplit.
    by rewrite (bind_Raise _ _ _ _ _ _
                  (determine_archives_loop_rejects good bad rest [] None t Hgood Hbad)). }
  split; [done |].
  unfold run, build_load_from, bind at 1.
  destruct (build_load "." t) as [b|e]; [| done].
  by rewrite (bind_Raise _ _ _ _ _ _ Hd).
Qed.

(** X3: with permitted formats and a source directory in which [.git] is
    neither a directory nor a file and [.hg] is not a directory, [run]
    prints that only Git and Mercurial are supported and returns 1; it
    starts no child process and changes no file. *)
Theorem run_without_vcs opts b t
    (Hload : build_load "." t = Ok b)
    (Hformats : Forall (λ i, i ∈ archive_choices) (split_on "," (formats opts)))
    (Hgit : stat t (join (source_dir b) ".git") = None)
    (Hhg : stat t (join (source_dir b) ".hg") ≠ Some Dir) :
  run opts t
  = (Ok 1%Z, t, [EvPrint "Dist currently only works with Git or Mercurial repos"]).
Proof.
  unfold run.
  assert (build_load_from "." t = (Ok b, t, [])) as Hb.
  { unfold build_load_from. by rewrite Hload. }
  rewrite (bind_Ok _ _ _ _ _ _ Hb). simpl.
  rewrite (bind_Ok _ _ _ _ _ _ (determine_archives_accepts opts t Hformats)). simpl.
  unfold os_path_isdir, os_path_isfile. rewrite !bind_query. rewrite Hgit.
  rewrite bool_decide_eq_false_2 by done. simpl.
  rewrite bind_query, bool_decide_eq_false_2 by done.
  unfold print. by rewrite bind_emit.
Qed.

End Requested.

(** ** The names of the archives *)

Section Names.
Context `{Host}.

Lemma hg_output_name_of dist_name dist_sub archives n :
  n ∈ hg_output_names dist_name dist_sub archives
  ↔ ∃ a, a ∈ archives ∧ git_output_name dist_name dist_sub a = Some n.
Proof.
  assert (join dist_sub (dist_name +:+ ".tar") = join dist_sub dist_name +:+ ".tar") as Htar.
  { apply join_append. rewrite isabs_append. by destruct dist_name. }
  assert (join dist_sub (dist_name +:+ ".zip") = join dist_sub dist_name +:+ ".zip") as Hzip.
  { apply join_append. rewrite isabs_append. by destruct dist_name. }
  unfold hg_output_names, git_output_name. rewrite Htar, Hzip, !append_assoc.
  rewrite !elem_of_app. split.
  - intros [Hn|[Hn|Hn]].
    + destruct (bool_decide_reflect ("xztar" ∈ archives)) as [Ha|]; [| by apply elem_of_nil in Hn].
      apply list_elem_of_singleton in Hn as ->. by exists "xztar".
    + destruct (bool_decide_reflect ("gztar" ∈ archives)) as [Ha|]; [| by apply elem_of_nil in Hn].
      apply list_elem_of_singleton in Hn as ->. by exists "gztar".
    + destruct (bool_decide_reflect ("zip" ∈ archives)) as [Ha|]; [| by apply elem_of_nil in Hn].
      apply list_elem_of_singleton in Hn as ->. by exists "zip".
  - intros (a & Ha & Hn).
    destruct (archive_extension !! a) as [ext|] eqn:Hext; [| done].
    injection Hn as <-.
    unfold archive_extension in Hext.
    repeat (apply lookup_insert_Some in Hext as [[<- <-]|[_ Hext]];
            [rewrite (bool_decide_eq_true_2 _ Ha); set_solver |]).
    done.
Qed.

(** X4: for the formats [determine_archives_to_generate] returns, a run
    of either strategy that returns gives a list with a first name, so the
    [names[0]] of [run] is defined. *)
Theorem produced_names_never_empty opts t0 archives t0' l0
    dist_name dist_sub src_hg bld_hg scripts_hg src_git bld_git scripts_git
    (Harch : determine_archives_to_generate opts t0 = (Ok archives, t0', l0)) :
  (∀ t names t' l,
     create_dist_git dist_name archives src_git bld_git dist_sub scripts_git t
     = (Ok names, t', l) →
     ∃ first, list_first names = mret first)
  ∧ (∀ t names t' l,
       create_dist_hg dist_name archives src_hg bld_hg dist_sub scripts_hg t
       = (Ok names, t', l) →
       ∃ first, list_first names = mret first).
Proof.
  apply determine_archives_Ok in Harch as (_ & Hne & Hall).
  destruct archives as [|a archives]; [done |]. split.
  - intros t names t' l Hrun. apply create_dist_git_names in Hrun.
    apply Forall2_cons_inv_l in Hrun as (n & names' & _ & _ & ->). by exists n.
  - intros t names t' l Hrun. apply create_dist_hg_names in Hrun.
    apply Forall_cons in Hall as [Ha _].
    assert (∃ n, n ∈ names) as [n Hn].
    { destruct (archive_extension !! a) as [ext|] eqn:Hext.
      - exists (join dist_sub dist_name +:+ ext). rewrite Hrun.
        apply hg_output_name_of. exists a. split; [by left |].
        unfold git_output_name. by rewrite Hext.
      - unfold archive_choices in Ha. unfold archive_extension in Hext.
        rewrite !elem_of_cons, elem_of_nil in Ha.
        destruct Ha as [->|[->|[->|[]]]]; done. }
    destruct names as [|first names']; [by apply elem_of_nil in Hn |]. by exists first.
Qed.

(** X5: for the same project, directory and formats, the two strategies
    name the same archives: a name is returned by [create_dist_hg] exactly
    when it is returned by [create_dist_git]. *)
Theorem strategies_name_archives_alike dist_name dist_sub archives
    src_hg bld_hg scripts_hg t_hg names_hg t_hg' l_hg
    src_git bld_git scripts_git t_git names_git t_git' l_git
    (Hhg : create_dist_hg dist_name archives src_hg bld_hg dist_sub scripts_hg t_hg
           = (Ok names_hg, t_hg', l_hg))
    (Hgit : create_dist_git dist_name archives src_git bld_git dist_sub scripts_git t_git
            = (Ok names_git, t_git', l_git)) :
  ∀ n, n ∈ names_hg ↔ n ∈ names_git.
Proof.
  intros n. apply create_dist_hg_names in Hhg as ->.
  apply create_dist_git_names in Hgit.
  rewrite hg_output_name_of. split.
  - intros (a & Ha & Hn). apply list_elem_of_lookup in Ha as [i Hi].
    destruct (Forall2_lookup_l _ _ _ _ _ Hgit Hi) as (n' & Hi' & Hn').
    rewrite Hn in Hn'. injection Hn' as <-. by eapply list_elem_of_lookup_2.
  - intros [i Hi]%list_elem_of_lookup.
    destruct (Forall2_lookup_r _ _ _ _ _ Hgit Hi) as (a & Hi' & Hn').
    exists a. split; [by eapply list_elem_of_lookup_2 | done].
Qed.

End Names.

(** ** The Git strategy *)

Lemma archive_extension_cases a ext :
  archive_extension !! a = Some ext → ext ∈ [".tar.gz"; ".tar.xz"; ".zip"].
Proof.
  unfold archive_extension. intros Hext.
  repeat (apply lookup_insert_Some in Hext as [[_ <-]|[_ Hext]]; [set_solver |]).
  done.
Qed.

(** The archive of a snapshot directory with a plain name is an entry of
    the directory the snapshot is in, not of the snapshot. *)
Lemma archive_beside_snapshot dist_sub dist_name a ext :
  valid_name dist_name = true →
  archive_extension !! a = Some ext →
  components (join dist_sub dist_name +:+ ext) = components dist_sub ++ [dist_name +:+ ext]
  ∧ ¬ components (join dist_sub dist_name) `prefix_of` components (join dist_sub dist_name +:+ ext).
Proof.
  intros Hname Hext%archive_extension_cases.
  pose proof Hname as (Hne & _ & _ & Hslash)%valid_name_spec.
  assert (contains_char "/" ext = false ∧ 3 < String.length ext ∧ ext ≠ "") as (Hs & Hl & He).
  { rewrite !elem_of_cons, elem_of_nil in Hext.
    destruct Hext as [->|[->|[->|[]]]]; repeat split; simpl; try done; lia. }
  assert (valid_name (dist_name +:+ ext) = true) as Hvalid.
  { apply valid_name_spec.
    assert (3 < String.length (dist_name +:+ ext)) as Hlen by (rewrite length_append; lia).
    repeat split; try (intros Heq; rewrite Heq in Hlen; simpl in Hlen; lia).
    by rewrite contains_char_app, Hslash, Hs. }
  assert (join dist_sub dist_name +:+ ext = join dist_sub (dist_name +:+ ext)) as ->.
  { symmetry. apply join_append. destruct dist_name; [done |]. done. }
  rewrite !components_join_name by done. split; [done |].
  intros Hpre%prefix_snoc_snoc. apply (f_equal String.length) in Hpre.
  rewrite length_append in Hpre. lia.
Qed.

Section Snapshot.
Context `{Host}.

(** X6: a run of [create_dist_git] that returns has started, in this
    order, [git diff-index], [git clone], at most one [git submodule
    update], and the hooks in the order given, and nothing else; every
    child process after the first has exited with status 0. *)
Theorem create_dist_git_children
    dist_name archives src_root bld_root dist_sub scripts t names t' l
    (Hrun : create_dist_git dist_name archives src_root bld_root dist_sub scripts t
            = (Ok names, t', l)) :
  let distdir := join dist_sub dist_name in
  ∃ updated : bool,
    (spawned l).*1
    = [diff_index_call src_root; clone_call src_root distdir]
      ++ (if updated then [submodule_update_call distdir] else [])
      ++ (hook_call distdir <$> scripts)
    ∧ Forall exited_0 (tail (spawned l).*2).
Proof.
  intros distdir. unfold create_dist_git in Hrun. fold distdir in Hrun.
  bind_named Hrun dirty s1 e1 Hdirty.
  bind_named Hrun u1 s2 e2 Hwarn.
  bind_named Hrun there s3 e3 Hexists.
  bind_named Hrun u2 s4 e4 Hstale.
  bind_named Hrun u3 s5 e5 Hmk.
  bind_named Hrun u4 s6 e6 Hclone.
  bind_named Hrun u5 s7 e7 Hsub.
  bind_named Hrun u6 s8 e8 Hdel.
  bind_named Hrun u7 s9 e9 Hhooks.
  bind_named Hrun out s10 e10 Hloop.
  bind_named Hrun u8 s11 e11 Hrm.
  apply mret_inv in Hrun as (_ & _ & ->).
  assert (∃ o, e1 = [EvSpawn (diff_index_call src_root) o]) as [o1 ->].
  { rewrite git_have_dirty_index_eq in Hdirty. injection Hdirty as _ _ <-. eauto. }
  assert (spawned e2 = []) as H2 by (eapply quiet_run; [| exact Hwarn]; keeps_go; done).
  assert (e3 = []) as -> by (eapply no_events_run; [| exact Hexists]; keeps_go; done).
  assert (e4 = []) as -> by (eapply no_events_run; [| exact Hstale]; keeps_go; done).
  assert (e5 = []) as -> by (eapply no_events_run; [| exact Hmk]; keeps_go; done).
  destruct u4. fold (clone_call src_root distdir) in Hclone.
  apply subprocess_check_call_inv in Hclone as (o2 & _ & ->).
  assert (∃ updated : bool,
            (spawned e7).*1 = (if updated then [submodule_update_call distdir] else [])
            ∧ Forall exited_0 (spawned e7).*2) as (updated & H7 & H7').
  { unfold process_submodules, os_path_exists in Hsub. rewrite bind_query in Hsub.
    destruct (bool_decide (is_Some (stat s6 (join distdir ".gitmodules")))); simpl in Hsub.
    - exists true. bind_named Hsub v sa ea Hupdate. destruct v.
      fold (submodule_update_call distdir) in Hupdate.
      apply subprocess_check_call_inv in Hupdate as (o3 & _ & ->).
      assert (l = []) as ->.
      { eapply no_events_run; [| exact Hsub]. keeps_go.
        apply process_submodules_line_silent. }
      simpl. split; [done |]. repeat constructor. by exists o3.
    - exists false. by apply mret_inv in Hsub as (_ & _ & ->). }
  assert (e8 = []) as ->.
  { eapply no_events_run; [| exact Hdel]. apply del_gitfiles_emits. }
  destruct u7. apply run_dist_scripts_Ok in Hhooks as (outs & H9 & Hlen & Hall).
  assert (e10 = []) as ->.
  { eapply no_events_run; [| exact Hloop]. keeps_go; done. }
  assert (e11 = []) as -> by (eapply no_events_run; [| exact Hrm]; keeps_go; done).
  exists updated. rewrite !spawned_app, H2, H9. simpl. rewrite !app_nil_r.
  rewrite !fmap_app, H7. split.
  - do 2 f_equal. f_equal. rewrite fst_zip; [done |]. rewrite length_fmap. lia.
  - constructor; [by exists o2 |]. apply Forall_app. split; [done |].
    rewrite snd_zip by (rewrite length_fmap; lia).
    eapply Forall_impl; [exact Hall |]. intros o. apply hook_not_failed.
Qed.

(** X7: in a run of [create_dist_git] that returns, for a snapshot
    directory without [*], [?] or an opening bracket in its name, the
    hooks are run on a snapshot whose root has no entry named [.git*] any
    more, and no child process is started after them. *)
Theorem hooks_run_on_the_stripped_snapshot
    dist_name archives src_root bld_root dist_sub scripts t names t' l
    (Hliteral : has_magic (join dist_sub dist_name) = false)
    (Hrun : create_dist_git dist_name archives src_root bld_root dist_sub scripts t
            = (Ok names, t', l)) :
  let distdir := join dist_sub dist_name in
  ∃ t1 t2 l0 l1 l2,
    l = l0 ++ l1 ++ l2
    ∧ no_gitfiles_in t1 distdir
    ∧ run_dist_scripts distdir scripts t1 = (Ok (), t2, l1)
    ∧ spawned l2 = [].
Proof.
  intros distdir. unfold create_dist_git in Hrun. fold distdir in Hrun.
  bind_named Hrun dirty s1 e1 Hdirty.
  bind_named Hrun u1 s2 e2 Hwarn.
  bind_named Hrun there s3 e3 Hexists.
  bind_named Hrun u2 s4 e4 Hstale.
  bind_named Hrun u3 s5 e5 Hmk.
  bind_named Hrun u4 s6 e6 Hclone.
  bind_named Hrun u5 s7 e7 Hsub.
  bind_named Hrun u6 t1 e8 Hstrip.
  apply bind_inv in Hrun as [(u7 & t2 & l1 & l2 & Hhooks & Hrun & ->) | (? & _ & [=])].
  destruct u6, u7. apply del_gitfiles_strips in Hstrip as [_ Hstripped].
  exists t1, t2, (e1 ++ e2 ++ e3 ++ e4 ++ e5 ++ e6 ++ e7 ++ e8), l1, l2.
  split; [by rewrite <- !app_assoc |]. split; [done |]. split; [done |].
  eapply quiet_run; [| exact Hrun]. keeps_go; done.
Qed.

(** X8: with a [make_archive] that writes the archive file and nothing
    else, and a snapshot directory with a plain name, a run of
    [create_dist_git] that returns leaves nothing at or below the snapshot
    directory, and every name it returns is a regular file. *)
Theorem create_dist_git_leaves_the_archives
    dist_name archives src_root bld_root dist_sub scripts t names t' l
    (Harchiver : archiver_writes_archive)
    (Hname : valid_name dist_name = true)
    (Hrun : create_dist_git dist_name archives src_root bld_root dist_sub scripts t
            = (Ok names, t', l)) :
  absent t' (components (join dist_sub dist_name))
  ∧ ∀ n, n ∈ names → ∃ data, t' !! components n = Some (File data).
Proof.
  unfold create_dist_git in Hrun.
  do 9 bind_ok Hrun.
  apply bind_inv in Hrun as [(out & tm & lm & ? & Hloop & Hrun & ->) | (? & _ & [=])].
  bind_ok Hrun as u Hrm.
  apply mret_inv in Hrun as (<- & -> & _).
  destruct u. apply shutil_rmtree_Ok in Hrm as (-> & _ & _ & Hne).
  split; [apply prune_absent |].
  set (distdir := join dist_sub dist_name) in *.
  set (I := λ (t0 : fs) (acc : list string),
         ∀ n, n ∈ acc →
           (∃ data, t0 !! components n = Some (File data))
           ∧ ¬ components distdir `prefix_of` components n).
  assert (I tm out) as Hout.
  { eapply (for_append_invariant I); [| | exact Hloop].
    - intros fmt acc ta y tb ev Hacc Hbody. simpl in Hbody.
      apply bind_inv in Hbody as [(ext & tx & lx & ? & Hext & Hbody & ->) | (? & _ & [=])].
      bind_ok Hbody as u Hmake.
      apply mret_inv in Hbody as (<- & -> & _).
      unfold dict_get in Hext. destruct (archive_extension !! fmt) as [ext'|] eqn:Ha; [| done].
      apply mret_inv in Hext as (<- & -> & _).
      unfold shutil_make_archive, library_call in Hmake.
      destruct (make_archive distdir fmt dist_sub dist_name ta) as [[e|] tz] eqn:Hmade; [done |].
      destruct (Harchiver _ _ _ _ _ _ _ Ha Hmade) as [data ->]. simplify_eq.
      destruct (archive_beside_snapshot dist_sub dist_name fmt ext' Hname Ha) as [_ Hbeside].
      intros n [Hn|Hn%list_elem_of_singleton]%elem_of_app.
      + destruct (Hacc n Hn) as [[d Hd] Hout]. split; [| done].
        destruct (decide (components (distdir +:+ ext') = components n)) as [->|Hother].
        * rewrite lookup_insert_eq. eauto.
        * rewrite lookup_insert_ne by done. eauto.
      + subst n. split; [| done]. rewrite lookup_insert_eq. eauto.
    - intros n Hn. by apply elem_of_nil in Hn. }
  intros n Hn. destruct (Hout n Hn) as [[d Hd] Hbeside]. exists d.
  by rewrite lookup_prune, decide_False.
Qed.

(** X22: [create_dist_git] returns only for a snapshot root that is an
    absolute path.  For a relative one the assertion of [run_dist_scripts]
    fails before any hook is announced or started, whatever the hooks, so
    a run that gets as far as the hooks ends with [AssertionError]. *)
Theorem create_dist_git_needs_absolute_root
    dist_name archives src_root bld_root dist_sub scripts t
    (Hrelative : isabs (join dist_sub dist_name) = false) :
  (∀ names, (create_dist_git dist_name archives src_root bld_root dist_sub scripts t).1.1
            ≠ Ok names)
  ∧ ∀ t0, run_dist_scripts (join dist_sub dist_name) scripts t0 = (Raise AssertionError, t0, []).
Proof.
  assert (∀ t0, run_dist_scripts (join dist_sub dist_name) scripts t0
                = (Raise AssertionError, t0, [])) as Hassert.
  { intros t0. unfold run_dist_scripts. by rewrite Hrelative. }
  split; [| done]. intros names Hok.
  destruct (create_dist_git dist_name archives src_root bld_root dist_sub scripts t)
    as [[r t'] l] eqn:Hrun. simpl in Hok. subst r.
  unfold create_dist_git in Hrun. do 8 bind_ok Hrun. bind_ok Hrun as u Hhooks.
  by rewrite Hassert in Hhooks.
Qed.

End Snapshot.

(** ** The Mercurial strategy *)

Section Mercurial.
Context `{Host}.

Lemma hg_have_dirty_index_eq src_root t :
  hg_have_dirty_index src_root t =
  (match (spawn (hg_summary_call src_root) t).1 with
   | Exited rc out =>
       if decide (rc ≠ 0%Z) then Raise (CalledProcessError rc (argv (hg_summary_call src_root)))
       else Ok (negb (is_infix "commit: (clean)" out))
   | NotLaunched e => Raise (OSError e "hg")
   end,
   (spawn (hg_summary_call src_root) t).2,
   [EvSpawn (hg_summary_call src_root) (spawn (hg_summary_call src_root) t).1]).
Proof.
  unfold hg_have_dirty_index, subprocess_check_output, subprocess_run, bind.
  fold (hg_summary_call src_root).
  destruct (spawn (hg_summary_call src_root) t) as [[rc out|e] t']; [| done].
  simpl. by destruct (decide (rc ≠ 0%Z)).
Qed.

(** X9: the Mercurial tree counts as dirty exactly when [hg summary] exits
    with status 0 and its output does not contain [commit: (clean)].  A
    [hg summary] that exits with another status is not a clean tree, as a
    failing [git diff-index] is, but an error: [create_dist_hg] ends with
    [CalledProcessError] and has run nothing else.  The warning about
    uncommitted changes is among the events of [create_dist_hg] exactly for
    a dirty tree. *)
Theorem hg_dirty_unless_summary_says_clean
    dist_name archives src_root bld_root dist_sub scripts t :
  let c := hg_summary_call src_root in
  (hg_have_dirty_index src_root t).1.1
  = match (spawn c t).1 with
    | Exited rc out =>
        if decide (rc ≠ 0%Z) then Raise (CalledProcessError rc (argv c))
        else Ok (negb (is_infix "commit: (clean)" out))
    | NotLaunched e => Raise (OSError e "hg")
    end
  ∧ (∀ rc out, (spawn c t).1 = Exited rc out → rc ≠ 0%Z →
       create_dist_hg dist_name archives src_root bld_root dist_sub scripts t
       = (Raise (CalledProcessError rc (argv c)), (spawn c t).2, [EvSpawn c (Exited rc out)]))
  ∧ (EvWarning uncommitted_warning
       ∈ (create_dist_hg dist_name archives src_root bld_root dist_sub scripts t).2
     ↔ ∃ out, (spawn c t).1 = Exited 0 out ∧ is_infix "commit: (clean)" out = false).
Proof.
  intros c. split; [by rewrite hg_have_dirty_index_eq |].
  pose proof (hg_have_dirty_index_eq src_root t) as Hg. fold c in Hg.
  split.
  { intros rc out Hout Hrc. unfold create_dist_hg. rewrite Hout in Hg. simpl in Hg.
    rewrite decide_True in Hg by done. by rewrite (bind_Raise _ _ _ _ _ _ Hg). }
  set (Q := λ ev, ev ≠ EvWarning uncommitted_warning).
  unfold create_dist_hg.
  match goal with
  | |- context [bind (hg_have_dirty_index _) (λ dirty, bind _ ?k)] => set (rest := k)
  end.
  assert (emits Q (rest ())) as Hrest.
  { unfold rest, compress_to. keeps_go; done. }
  assert (∀ t1, EvWarning uncommitted_warning ∉ (rest () t1).2) as Hno.
  { intros t1 Hin. destruct (Hrest t1 I) as [_ Hq].
    rewrite Forall_forall in Hq. by apply (Hq _ Hin). }
  destruct (spawn c t) as [[rc out|e] t1]; simpl in Hg.
  - destruct (decide (rc ≠ 0%Z)) as [Hrc|Hrc].
    + rewrite (bind_Raise _ _ _ _ _ _ Hg). simpl. split.
      * rewrite list_elem_of_singleton. done.
      * intros (out' & [= -> _] & _). done.
    + apply dec_stable in Hrc as ->.
      rewrite (bind_Ok _ _ _ _ _ _ Hg). simpl.
      destruct (is_infix "commit: (clean)" out) eqn:Hclean; simpl.
      * rewrite bind_mret. specialize (Hno t1). split.
        -- rewrite elem_of_cons. intros [?|?]; done.
        -- intros (out' & [= <-] & Hd). congruence.
      * split; [eauto |]. intros _. unfold mlog_warning. rewrite bind_emit. simpl.
        set_solver.
  - rewrite (bind_Raise _ _ _ _ _ _ Hg). simpl. split.
    + rewrite list_elem_of_singleton. done.
    + intros (? & ? & _). done.
Qed.

(** X10: a run of [create_dist_hg] that returns has started [hg summary],
    then [hg archive] for the tar archive, whatever the formats, and then
    [hg archive] for the zip archive if zip is requested, and nothing
    else; each has exited with status 0. *)
Theorem create_dist_hg_children
    dist_name archives src_root bld_root dist_sub scripts t names t' l
    (Hrun : create_dist_hg dist_name archives src_root bld_root dist_sub scripts t
            = (Ok names, t', l)) :
  let tarname := join dist_sub (dist_name +:+ ".tar") in
  let zipname := join dist_sub (dist_name +:+ ".zip") in
  (spawned l).*1
  = [hg_summary_call src_root; hg_archive_call src_root "tar" tarname]
    ++ (if bool_decide ("zip" ∈ archives)
        then [hg_archive_call src_root "zip" zipname] else [])
  ∧ Forall exited_0 (spawned l).*2.
Proof.
  intros tarname zipname. unfold create_dist_hg in Hrun. fold tarname zipname in Hrun.
  bind_named Hrun dirty s1 e1 Hdirty.
  bind_named Hrun u1 s2 e2 Hwarn.
  bind_named Hrun u2 s3 e3 Hmk.
  bind_named Hrun u3 s4 e4 Htar.
  bind_named Hrun u4 s5 e5 Hhooks.
  bind_named Hrun n1 s6 e6 Hxz.
  bind_named Hrun n2 s7 e7 Hgz.
  bind_named Hrun u5 s8 e8 Hunlink.
  bind_named Hrun n3 s9 e9 Hzip.
  apply mret_inv in Hrun as (_ & _ & ->).
  assert (∃ out, e1 = [EvSpawn (hg_summary_call src_root) (Exited 0 out)]) as [o1 ->].
  { rewrite hg_have_dirty_index_eq in Hdirty.
    destruct (spawn (hg_summary_call src_root) t) as [[rc out|e] ts]; simpl in *; [| done].
    destruct (decide (rc ≠ 0%Z)) as [|Hrc]; [done |]. apply dec_stable in Hrc as ->.
    injection Hdirty as _ _ <-. by exists out. }
  assert (spawned e2 = []) as H2 by (eapply quiet_run; [| exact Hwarn]; keeps_go; done).
  assert (spawned e3 = []) as H3 by (eapply quiet_run; [| exact Hmk]; keeps_go; done).
  destruct u3. fold (hg_archive_call src_root "tar" tarname) in Htar.
  apply subprocess_check_call_inv in Htar as (o2 & _ & ->).
  assert (spawned e5 = []) as H5 by (eapply quiet_run; [| exact Hhooks]; keeps_go; done).
  assert (spawned e6 = []) as H6.
  { eapply quiet_run; [| exact Hxz]. unfold compress_to. keeps_go; done. }
  assert (spawned e7 = []) as H7.
  { eapply quiet_run; [| exact Hgz]. unfold compress_to. keeps_go; done. }
  assert (spawned e8 = []) as H8 by (eapply quiet_run; [| exact Hunlink]; keeps_go; done).
  rewrite !spawned_app, H2, H3, H5, H6, H7, H8. simpl.
  destruct (bool_decide ("zip" ∈ archives)).
  - bind_named Hzip u6 sz ez Hcall. apply mret_inv in Hzip as (_ & _ & ->).
    destruct u6. fold (hg_archive_call src_root "zip" zipname) in Hcall.
    apply subprocess_check_call_inv in Hcall as (o3 & _ & ->). simpl.
    split; [done |]. repeat constructor; eexists; done.
  - apply mret_inv in Hzip as (_ & _ & ->). simpl.
    split; [done |]. repeat constructor; eexists; done.
Qed.

(** *** What a run that can do its work produces *)

Lemma bind_Ok_eq {A B : Type} (m : M A) (f : A → M B) t a t1 l1 r t2 l2 :
  m t = (Ok a, t1, l1) → f a t1 = (r, t2, l2) → bind m f t = (r, t2, l1 ++ l2).
Proof. intros Hm Hf. unfold bind. by rewrite Hm, Hf. Qed.

Lemma write_file_plain p data t :
  writable t (components p) →
  write_file p data t = (Ok (), <[components p := File data]> t, []).
Proof.
  intros [Hparent Hnode]. unfold write_file.
  rewrite follow_plain by (intros target Hl; by rewrite Hl in Hnode).
  rewrite Hparent. by destruct (node_at t (components p)) as [[]|].
Qed.

Lemma read_file_plain p data t :
  lstat t p = Some (File data) → read_file p t = (Ok data, t, []).
Proof.
  unfold lstat, read_file. intros Hnode.
  rewrite follow_plain by (intros target Hl; by rewrite Hl in Hnode).
  by rewrite Hnode.
Qed.

Lemma writable_insert_file t k k' data :
  k' ≠ [] → k' ≠ removelast k → writable t k → writable (<[k' := File data]> t) k.
Proof.
  intros Hk' Hne [Hparent Hnode]. split.
  - rewrite node_at_insert by done. by rewrite decide_False.
  - rewrite node_at_insert by done. by destruct (decide (k' = k)).
Qed.

Lemma compress_to_plain compress src dst data t :
  lstat t src = Some (File data) →
  writable t (components dst) →
  components dst ≠ components src →
  components dst ≠ [] →
  removelast (components dst) ≠ components dst →
  compress_to compress src dst t = (Ok (), <[components dst := File (compress data)]> t, []).
Proof.
  intros Hsrc Hdst Hne Hnil Hparent. unfold compress_to.
  rewrite (bind_Ok _ _ _ _ _ _ (write_file_plain dst (compress "") t Hdst)).
  assert (read_file src (<[components dst := File (compress "")]> t)
          = (Ok data, <[components dst := File (compress "")]> t, [])) as Hread.
  { apply read_file_plain. unfold lstat. rewrite node_at_insert by done.
    by rewrite decide_False. }
  rewrite (bind_Ok _ _ _ _ _ _ Hread).
  rewrite write_file_plain.
  - simpl. by rewrite insert_insert_eq.
  - apply writable_insert_file; [done | by apply not_eq_sym | done].
Qed.

Lemma create_dist_hg_produces
    dist_name archives src_root bld_root dist_sub scripts t out1 t1 t2 out2 t3 data :
  let tarname := join dist_sub (dist_name +:+ ".tar") in
  let zipname := join dist_sub (dist_name +:+ ".zip") in
  spawn (hg_summary_call src_root) t = (Exited 0 out1, t1) →
  (os_makedirs dist_sub true t1).1 = (Ok (), t2) →
  spawn (hg_archive_call src_root "tar" tarname) t2 = (Exited 0 out2, t3) →
  lstat t3 tarname = Some (File data) →
  ("xztar" ∈ archives → writable t3 (components (tarname +:+ ".xz"))) →
  ("gztar" ∈ archives → writable t3 (components (tarname +:+ ".gz"))) →
  ("zip" ∈ archives →
   exited_0 (spawn (hg_archive_call src_root "zip" zipname)
               (hg_compressed dist_name dist_sub archives data t3)).1) →
  let x := create_dist_hg dist_name archives src_root bld_root dist_sub scripts t in
  x.1.1 = Ok (hg_output_names dist_name dist_sub archives)
  ∧ x.1.2 = (if bool_decide ("zip" ∈ archives)
             then (spawn (hg_archive_call src_root "zip" zipname)
                     (hg_compressed dist_name dist_sub archives data t3)).2
             else hg_compressed dist_name dist_sub archives data t3)
  ∧ (scripts ≠ [] → EvWarning hg_hooks_warning ∈ x.2).
Proof.
  intros tarname zipname Hsummary Hmk Htar Hfile Hxz Hgz Hzip x.
  destruct (suffixed_not_same tarname ".xz") as (Hxt & Hxn & Hxp); [done | simpl; lia |].
  destruct (suffixed_not_same tarname ".gz") as (Hgt & Hgn & Hgp); [done | simpl; lia |].
  destruct (suffixed_apart tarname ".xz" ".gz") as (Hxg & _ & Hxgp);
    [done | simpl; lia | done | simpl; lia | done |].
  set (xzk := components (tarname +:+ ".xz")) in *.
  set (gzk := components (tarname +:+ ".gz")) in *.
  set (t4 := if bool_decide ("xztar" ∈ archives)
             then <[xzk := File (lzma_compress data)]> t3 else t3).
  set (t5 := if bool_decide ("gztar" ∈ archives)
             then <[gzk := File (gzip_compress data)]> t4 else t4).
  assert (hg_compressed dist_name dist_sub archives data t3 = delete (components tarname) t5)
    as Hpacked by done.
  rewrite Hpacked in Hzip.
  assert (hg_have_dirty_index src_root t
          = (Ok (negb (is_infix "commit: (clean)" out1)), t1,
             [EvSpawn (hg_summary_call src_root) (Exited 0 out1)])) as E1.
  { rewrite hg_have_dirty_index_eq, Hsummary. done. }
  assert (∀ (b : bool) w, (if b then mlog_warning w else mret ()) t1
                 = (Ok (), t1, if b then [EvWarning w] else [])) as E2 by (by intros []).
  assert (∃ l3, os_makedirs dist_sub true t1 = (Ok (), t2, l3)) as [l3 E3].
  { destruct (os_makedirs dist_sub true t1) as [[r ta] l3]. injection Hmk as -> ->. eauto. }
  assert (subprocess_check_call (hg_archive_call src_root "tar" tarname) t2
          = (Ok (), t3, [EvSpawn (hg_archive_call src_root "tar" tarname) (Exited 0 out2)]))
    as E4.
  { rewrite subprocess_check_call_eq, Htar. done. }
  assert ((if bool_decide (scripts ≠ []) then mlog_warning hg_hooks_warning else mret ()) t3
          = (Ok (), t3, if bool_decide (scripts ≠ []) then [EvWarning hg_hooks_warning] else []))
    as E5 by (by destruct (bool_decide (scripts ≠ []))).
  assert ((if bool_decide ("xztar" ∈ archives)
           then compress_to lzma_compress tarname (tarname +:+ ".xz");;
                mret ([] ++ [tarname +:+ ".xz"])
           else mret []) t3
          = (Ok (if bool_decide ("xztar" ∈ archives) then [tarname +:+ ".xz"] else []), t4, []))
    as E6.
  { unfold t4. destruct (bool_decide ("xztar" ∈ archives)) eqn:Hd; [| done].
    apply bool_decide_eq_true in Hd.
    rewrite (bind_Ok _ _ _ _ _ _ (compress_to_plain lzma_compress tarname (tarname +:+ ".xz")
                                    data t3 Hfile (Hxz Hd) Hxt Hxn Hxp)).
    done. }
  assert (lstat t4 tarname = Some (File data)) as Hfile4.
  { unfold t4. destruct (bool_decide ("xztar" ∈ archives)); [| done].
    unfold lstat. rewrite node_at_insert by done. by rewrite decide_False. }
  assert ("gztar" ∈ archives → writable t4 gzk) as Hgz4.
  { intros Hd. unfold t4. destruct (bool_decide ("xztar" ∈ archives)); [| by apply Hgz].
    apply writable_insert_file; [done | done | by apply Hgz]. }
  assert (∀ names,
           (if bool_decide ("gztar" ∈ archives)
            then compress_to gzip_compress tarname (tarname +:+ ".gz");;
                 mret (names ++ [tarname +:+ ".gz"])
            else mret names) t4
           = (Ok (names ++ if bool_decide ("gztar" ∈ archives) then [tarname +:+ ".gz"] else []),
              t5, [])) as E7.
  { intros names. unfold t5. destruct (bool_decide ("gztar" ∈ archives)) eqn:Hd.
    - apply bool_decide_eq_true in Hd.
      rewrite (bind_Ok _ _ _ _ _ _ (compress_to_plain gzip_compress tarname (tarname +:+ ".gz")
                                      data t4 Hfile4 (Hgz4 Hd) Hgt Hgn Hgp)).
      done.
    - by rewrite app_nil_r. }
  assert (os_unlink tarname t5 = (Ok (), delete (components tarname) t5, [])) as E8.
  { unfold os_unlink.
    assert (lstat t5 tarname = Some (File data)) as ->; [| done].
    unfold t5. destruct (bool_decide ("gztar" ∈ archives)); [| done].
    unfold lstat. rewrite node_at_insert by done. by rewrite decide_False. }
  assert (∀ names, ∃ l9,
           (if bool_decide ("zip" ∈ archives)
            then subprocess_check_call (hg_archive_call src_root "zip" zipname);;
                 mret (names ++ [zipname])
            else mret names) (delete (components tarname) t5)
           = (Ok (names ++ if bool_decide ("zip" ∈ archives) then [zipname] else []),
              if bool_decide ("zip" ∈ archives)
              then (spawn (hg_archive_call src_root "zip" zipname)
                      (hg_compressed dist_name dist_sub archives data t3)).2
              else hg_compressed dist_name dist_sub archives data t3, l9)) as E9.
  { intros names. rewrite Hpacked.
    destruct (bool_decide ("zip" ∈ archives)) eqn:Hd.
    - apply bool_decide_eq_true in Hd. destruct (Hzip Hd) as [out3 Hout].
      eexists. unfold bind. rewrite subprocess_check_call_eq, Hout. simpl. done.
    - exists []. by rewrite app_nil_r. }
  destruct (E9 ((if bool_decide ("xztar" ∈ archives) then [tarname +:+ ".xz"] else [])
                ++ if bool_decide ("gztar" ∈ archives) then [tarname +:+ ".gz"] else []))
    as [l9 E9'].
  assert (∃ l, x = (Ok (hg_output_names dist_name dist_sub archives),
                    (if bool_decide ("zip" ∈ archives)
                     then (spawn (hg_archive_call src_root "zip" zipname)
                             (hg_compressed dist_name dist_sub archives data t3)).2
                     else hg_compressed dist_name dist_sub archives data t3), l)
               ∧ (scripts ≠ [] → EvWarning hg_hooks_warning ∈ l)) as (l & -> & Hwarn).
  { unfold x, create_dist_hg.
    fold tarname zipname (hg_archive_call src_root "tar" tarname)
      (hg_archive_call src_root "zip" zipname) hg_hooks_warning.
    eexists. split.
    - eapply bind_Ok_eq; [exact E1 |].
      eapply bind_Ok_eq; [apply E2 |].
      eapply bind_Ok_eq; [exact E3 |].
      eapply bind_Ok_eq; [exact E4 |].
      eapply bind_Ok_eq; [exact E5 |].
      eapply bind_Ok_eq; [exact E6 |].
      eapply bind_Ok_eq; [apply E7 |].
      eapply bind_Ok_eq; [exact E8 |].
      eapply bind_Ok_eq; [exact E9' |].
      unfold hg_output_names. fold tarname zipname. rewrite <-app_assoc. reflexivity.
    - intros Hs. rewrite (bool_decide_eq_true_2 _ Hs).
      rewrite !elem_of_app, !elem_of_cons. tauto. }
  done.
Qed.

Lemma elem_of_spawned c o l : (c, o) ∈ spawned l ↔ EvSpawn c o ∈ l.
Proof.
  unfold spawned. rewrite list_elem_of_omap. split.
  - intros ([] & Hin & Heq); simplify_eq. done.
  - intros Hin. by exists (EvSpawn c o).
Qed.

Lemma create_dist_hg_launches_no_hook
    dist_name archives src_root bld_root dist_sub scripts t dist_root d :
  hook_call dist_root d
  ∉ (spawned (create_dist_hg dist_name archives src_root bld_root dist_sub scripts t).2).*1.
Proof.
  set (Q := λ ev, ∀ c o, ev = EvSpawn c o → env c = None).
  assert (emits Q (create_dist_hg dist_name archives src_root bld_root dist_sub scripts))
    as Hq.
  { unfold create_dist_hg, hg_have_dirty_index, compress_to.
    keeps_go; try done; by intros o c o' [= <- _]. }
  destruct (Hq t I) as [_ Hall]. rewrite Forall_forall in Hall.
  intros Hin. apply list_elem_of_fmap in Hin as ([c o] & Hc & Hin). simpl in Hc. subst c.
  apply elem_of_spawned in Hin. by specialize (Hall _ Hin _ _ eq_refl).
Qed.

Lemma hg_compressed_files dist_name dist_sub archives data t :
  let tarname := join dist_sub (dist_name +:+ ".tar") in
  let packed := hg_compressed dist_name dist_sub archives data t in
  packed !! components tarname = None
  ∧ ("xztar" ∈ archives →
     packed !! components (tarname +:+ ".xz") = Some (File (lzma_compress data)))
  ∧ ("gztar" ∈ archives →
     packed !! components (tarname +:+ ".gz") = Some (File (gzip_compress data))).
Proof.
  intros tarname packed. unfold packed, hg_compressed. fold tarname.
  destruct (suffixed_not_same tarname ".xz") as (Hxt & _ & _); [done | simpl; lia |].
  destruct (suffixed_not_same tarname ".gz") as (Hgt & _ & _); [done | simpl; lia |].
  destruct (suffixed_apart tarname ".xz" ".gz") as (Hxg & _ & _);
    [done | simpl; lia | done | simpl; lia | done |].
  split; [apply lookup_delete_eq |]. split.
  - intros Hxz. rewrite (bool_decide_eq_true_2 _ Hxz).
    rewrite lookup_delete_ne by (by apply not_eq_sym).
    destruct (bool_decide ("gztar" ∈ archives)).
    + rewrite lookup_insert_ne by (by apply not_eq_sym). apply lookup_insert_eq.
    + apply lookup_insert_eq.
  - intros Hgz. rewrite (bool_decide_eq_true_2 _ Hgz).
    rewrite lookup_delete_ne by (by apply not_eq_sym). apply lookup_insert_eq.
Qed.

(** X11: where the Mercurial strategy can do its work ([hg summary] and
    [hg archive] exit with status 0, the directory of the archives can be
    made, [hg archive] has left the tar archive as a regular file with the
    bytes [data], and the requested xz and gz archives can be written),
    the requested xz and gz archives are written from the tar archive,
    as files that hold [lzma_compress data] and [gzip_compress data], and
    the tar archive is removed after them: it is not there when
    [hg archive] is started for the zip archive, the only step after its
    removal, so without a request for zip there is no tar archive, and
    there are the compressed archives, when [create_dist_hg] returns. *)
Theorem create_dist_hg_removes_tar
    dist_name archives src_root bld_root dist_sub scripts t out1 t1 t2 out2 t3 data
    (Hsummary : spawn (hg_summary_call src_root) t = (Exited 0 out1, t1))
    (Hmk : (os_makedirs dist_sub true t1).1 = (Ok (), t2))
    (Htar : spawn (hg_archive_call src_root "tar" (join dist_sub (dist_name +:+ ".tar"))) t2
            = (Exited 0 out2, t3))
    (Hfile : lstat t3 (join dist_sub (dist_name +:+ ".tar")) = Some (File data))
    (Hxz : "xztar" ∈ archives →
           writable t3 (components (join dist_sub (dist_name +:+ ".tar") +:+ ".xz")))
    (Hgz : "gztar" ∈ archives →
           writable t3 (components (join dist_sub (dist_name +:+ ".tar") +:+ ".gz")))
    (Hzip : "zip" ∈ archives →
            exited_0 (spawn (hg_archive_call src_root "zip" (join dist_sub (dist_name +:+ ".zip")))
                        (hg_compressed dist_name dist_sub archives data t3)).1) :
  let tarname := join dist_sub (dist_name +:+ ".tar") in
  let zipname := join dist_sub (dist_name +:+ ".zip") in
  let packed := hg_compressed dist_name dist_sub archives data t3 in
  let t' := (create_dist_hg dist_name archives src_root bld_root dist_sub scripts t).1.2 in
  t' = (if bool_decide ("zip" ∈ archives)
        then (spawn (hg_archive_call src_root "zip" zipname) packed).2
        else packed)
  ∧ packed !! components tarname = None
  ∧ ("xztar" ∈ archives →
     packed !! components (tarname +:+ ".xz") = Some (File (lzma_compress data)))
  ∧ ("gztar" ∈ archives →
     packed !! components (tarname +:+ ".gz") = Some (File (gzip_compress data)))
  ∧ ("zip" ∉ archives →
     t' !! components tarname = None
     ∧ ("xztar" ∈ archives →
        t' !! components (tarname +:+ ".xz") = Some (File (lzma_compress data)))
     ∧ ("gztar" ∈ archives →
        t' !! components (tarname +:+ ".gz") = Some (File (gzip_compress data)))).
Proof.
  intros tarname zipname packed t'.
  destruct (create_dist_hg_produces dist_name archives src_root bld_root dist_sub scripts
              t out1 t1 t2 out2 t3 data Hsummary Hmk Htar Hfile Hxz Hgz Hzip)
    as (_ & Hfs & _).
  destruct (hg_compressed_files dist_name dist_sub archives data t3) as (Ht & Hx & Hg).
  fold tarname packed in Ht, Hx, Hg.
  assert (t' = (if bool_decide ("zip" ∈ archives)
                then (spawn (hg_archive_call src_root "zip" zipname) packed).2
                else packed)) as Heq by exact Hfs.
  split; [exact Heq |]. split; [exact Ht |]. split; [exact Hx |]. split; [exact Hg |].
  intros Hno. rewrite Heq, (bool_decide_eq_false_2 _ Hno). done.
Qed.

(** *** Claim C8: hooks under Mercurial and under Git *)

(** C8: with hooks configured, the Mercurial strategy launches none of
    them, whatever the outcome of the run, and does what it does without
    them (the same result, the same files, the same child processes), with
    a warning among the events of a run that returns.  The archives are
    still produced: where [hg summary] and [hg archive] exit with status
    0, the directory of the archives can be made, [hg archive] has left
    the tar archive as a regular file and the requested xz and gz
    archives can be written, the run returns the names of the requested
    archives and has warned, the xz and gz archives hold the compressed
    bytes of the tar archive and the zip archive is left to [hg archive].
    A run of the Git strategy that returns has launched every configured
    hook, with the snapshot directory as its root, and each has exited
    with status 0.  Neither half supposes a run of the other strategy. *)
Theorem C8_hooks_skipped_by_hg_run_by_git dist_name archives dist_sub scripts
    (Hscripts : scripts ≠ []) :
  let tarname := join dist_sub (dist_name +:+ ".tar") in
  let zipname := join dist_sub (dist_name +:+ ".zip") in
  (∀ src_root bld_root t,
     let hg := create_dist_hg dist_name archives src_root bld_root dist_sub scripts t in
     (∀ dist_root d, hook_call dist_root d ∉ (spawned hg.2).*1)
     ∧ differ_by_warning (EvWarning hg_hooks_warning) hg
         (create_dist_hg dist_name archives src_root bld_root dist_sub [] t)
     ∧ ∀ out1 t1 t2 out2 t3 data,
         let packed := hg_compressed dist_name dist_sub archives data t3 in
         spawn (hg_summary_call src_root) t = (Exited 0 out1, t1) →
         (os_makedirs dist_sub true t1).1 = (Ok (), t2) →
         spawn (hg_archive_call src_root "tar" tarname) t2 = (Exited 0 out2, t3) →
         lstat t3 tarname = Some (File data) →
         ("xztar" ∈ archives → writable t3 (components (tarname +:+ ".xz"))) →
         ("gztar" ∈ archives → writable t3 (components (tarname +:+ ".gz"))) →
         ("zip" ∈ archives →
          exited_0 (spawn (hg_archive_call src_root "zip" zipname) packed).1) →
         hg.1.1 = Ok (hg_output_names dist_name dist_sub archives)
         ∧ EvWarning hg_hooks_warning ∈ hg.2
         ∧ hg.1.2 = (if bool_decide ("zip" ∈ archives)
                     then (spawn (hg_archive_call src_root "zip" zipname) packed).2
                     else packed)
         ∧ ("xztar" ∈ archives →
            packed !! components (tarname +:+ ".xz") = Some (File (lzma_compress data)))
         ∧ ("gztar" ∈ archives →
            packed !! components (tarname +:+ ".gz") = Some (File (gzip_compress data))))
  ∧ (∀ src_root bld_root t names t' l,
       create_dist_git dist_name archives src_root bld_root dist_sub scripts t
       = (Ok names, t', l) →
       Forall (λ d, ∃ out, (hook_call (join dist_sub dist_name) d, Exited 0 out) ∈ spawned l)
         scripts).
Proof.
  intros tarname zipname. split.
  - intros src_root bld_root t hg. split; [apply create_dist_hg_launches_no_hook |].
    split; [by apply create_dist_hg_skips_hooks |].
    intros out1 t1 t2 out2 t3 data packed Hsummary Hmk Htar Hfile Hxz Hgz Hzip.
    destruct (create_dist_hg_produces dist_name archives src_root bld_root dist_sub scripts
                t out1 t1 t2 out2 t3 data Hsummary Hmk Htar Hfile Hxz Hgz Hzip)
      as (Hnames & Hfs & Hwarn).
    destruct (hg_compressed_files dist_name dist_sub archives data t3) as (_ & Hx & Hg).
    split; [exact Hnames |]. split; [by apply Hwarn |]. split; [exact Hfs |]. done.
  - intros src_root bld_root t names t' l Hrun. by eapply create_dist_git_ran_hooks.
Qed.

End Mercurial.

(** ** Submodules and control files *)

Section Strip.
Context `{Host}.

(** X12: [process_submodules] does nothing when the directory has no
    [.gitmodules]: no child process, no change.  When it has one, the only
    child process is [git submodule update --init --recursive], run in the
    directory; if that exits with a status other than 0 or cannot be
    launched, [process_submodules] raises and no file is removed. *)
Theorem process_submodules_updates_first dirname t :
  let c := submodule_update_call dirname in
  let x := process_submodules dirname t in
  (stat t (join dirname ".gitmodules") = None → x = (Ok (), t, []))
  ∧ (stat t (join dirname ".gitmodules") ≠ None →
       x.2 = [EvSpawn c (spawn c t).1]
       ∧ (∀ rc out, (spawn c t).1 = Exited rc out → rc ≠ 0%Z →
            x.1 = (Raise (CalledProcessError rc (argv c)), (spawn c t).2))
       ∧ (∀ e, (spawn c t).1 = NotLaunched e →
            x.1 = (Raise (OSError e "git"), (spawn c t).2))).
Proof.
  intros c x. unfold x, process_submodules, os_path_exists. rewrite bind_query.
  fold c. split.
  - intros ->. by rewrite bool_decide_eq_false_2 by (by intros [??]).
  - intros Hthere. rewrite bool_decide_eq_true_2 by (by apply not_eq_None_Some).
    simpl. pose proof (subprocess_check_call_eq c t) as Hcall.
    set (rest := λ _ : (), bind (read_file (join dirname ".gitmodules"))
                   (λ text, for_ (py_lines text) (process_submodules_line dirname))).
    assert (∀ t1, (rest () t1).2 = []) as Hsilent.
    { apply no_events. unfold rest. keeps_go. apply process_submodules_line_silent. }
    destruct (spawn c t) as [[rc out|e] t1]; simpl in *.
    + destruct (decide (rc ≠ 0%Z)) as [Hrc|Hrc].
      * rewrite (bind_Raise _ _ _ _ _ _ Hcall). simpl. split; [done |].
        split; [| done]. by intros ? ? [= <- <-] _.
      * rewrite (bind_Ok _ _ _ _ _ _ Hcall). simpl. fold (rest ()). rewrite Hsilent.
        split; [done |]. split; [| done]. intros ? ? [= <- <-] ?. done.
    + rewrite (bind_Raise _ _ _ _ _ _ Hcall). simpl. split; [done |].
      split; [done |]. by intros ? [= <-].
Qed.

(** X13: how a line of [.gitmodules] is read.  A line without [=] is
    skipped.  A line is split at its first [=]: when the text before it,
    stripped of white space, is [path], the [.git*] entries of the
    directory named by the text after it, stripped of white space, are
    removed (a later [=] is part of the name); any other key is
    skipped. *)
Theorem process_submodules_line_reads_path_entries dirname line k v :
  (contains_char "=" line = false → process_submodules_line dirname line = mret ())
  ∧ (contains_char "=" k = false →
       process_submodules_line dirname (k +:+ "=" +:+ v)
       = if decide (strip k = "path") then del_gitfiles (join dirname (strip v))
         else mret ()).
Proof.
  split.
  - intros Hline. unfold process_submodules_line.
    by rewrite (contains_char_strip _ _ Hline).
  - intros Hk. unfold process_submodules_line.
    assert (strip (k +:+ "=" +:+ v) = lstrip k +:+ String "=" (rstrip v)) as ->.
    { unfold strip. rewrite append_cons, append_nil_l.
      rewrite lstrip_app_nonspace by done. by rewrite rstrip_app_nonspace. }
    rewrite contains_char_app. simpl. rewrite orb_true_r. simpl.
    rewrite split1_app by (by apply contains_char_lstrip).
    rewrite strip_lstrip, strip_rstrip.
    destruct (decide (strip k = "path")).
    + by rewrite decide_False by (intros Hn; by apply Hn).
    + by rewrite decide_True.
Qed.



End Strip.

(** ** The verifier *)

Section Stages.
Context `{Host}.

Lemma stage_failed msg t r t' l :
  bind (print msg) (λ _, mret (Some 1%Z)) t = (Ok r, t', l) →
  r = Some 1%Z ∧ l = [EvPrint msg].
Proof. unfold print. rewrite bind_emit. by intros [= <- _ <-]. Qed.

(** The [try] block when it returns: the stages in order, up to the first
    that exits with a status other than 0. *)
Lemma check_dist_try_stages packagename cmd privdir ninja t r t' l :
  check_dist_try packagename cmd (join privdir "dist-unpack") (join privdir "dist-build")
    (join privdir "dist-install") (Some ninja) t = (Ok r, t', l) →
  ∃ src outs,
    glob (unpack_archive packagename (join privdir "dist-unpack") t).2
      (join (join privdir "dist-unpack") "*") = [src]
    ∧ length outs ≤ 4
    ∧ match r with
      | None =>
          length outs = 4 ∧ Forall exited_0 outs
          ∧ l = uncurry EvSpawn <$> zip (stage_calls cmd ninja src privdir) outs
      | Some rc =>
          rc = 1%Z
          ∧ ∃ pre n out report,
              outs = pre ++ [Exited n out] ∧ n ≠ 0%Z ∧ Forall exited_0 pre
              ∧ stage_reports !! length pre = Some report
              ∧ l = (uncurry EvSpawn <$> zip (stage_calls cmd ninja src privdir) outs)
                    ++ [EvPrint report]
      end.
Proof.
  unfold check_dist_try. intros Hrun.
  apply bind_inv in Hrun as [(u & tu & lu & ? & Hunpack & Hrun & ->) | (? & _ & [=])].
  assert (lu = [] ∧ tu = (unpack_archive packagename (join privdir "dist-unpack") t).2)
    as [-> ->].
  { unfold shutil_unpack_archive, library_call in Hunpack.
    destruct (unpack_archive _ _ _) as [[e|] ?]; [done |]. by injection Hunpack as _ <- <-. }
  apply bind_inv in Hrun as [(files & tg & lg & ? & Hglob & Hrun & ->) | (? & _ & [=])].
  unfold glob_glob, query in Hglob. injection Hglob as <- <- <-.
  apply bind_inv in Hrun as [(u' & ta & la & ? & Hassert & Hrun & ->) | (? & _ & [=])].
  assert (la = []
          ∧ length (glob (unpack_archive packagename (join privdir "dist-unpack") t).2
                      (join (join privdir "dist-unpack") "*")) = 1) as [-> Hone].
  { unfold py_assert in Hassert. destruct (bool_decide _) eqn:Hlen; [| done].
    apply bool_decide_eq_true in Hlen. by injection Hassert as _ _ <-. }
  apply bind_inv in Hrun as [(src & tf & lf & ? & Hfirst & Hrun & ->) | (? & _ & [=])].
  assert (lf = []
          ∧ glob (unpack_archive packagename (join privdir "dist-unpack") t).2
              (join (join privdir "dist-unpack") "*") = [src]) as [-> Hsrc].
  { unfold list_first in Hfirst. destruct (glob _ _) as [|f [|g fs]]; try done.
    by injection Hfirst as <- _ <-. }
  exists src. simpl.
  bind_ok Hrun as rc1 H1. apply subprocess_call_inv in H1 as (o1 & _ & ->).
  destruct (decide (rc1 ≠ 0%Z)) as [Hrc1|Hrc1].
  { apply stage_failed in Hrun as [-> ->]. exists [Exited rc1 o1].
    split; [exact Hsrc |]. split; [simpl; lia |]. split; [done |].
    by exists [], rc1, o1, "Running Meson on distribution package failed". }
  apply dec_stable in Hrc1 as ->.
  bind_ok Hrun as cmd2 Hc2. apply mret_inv in Hc2 as (<- & -> & ->).
  bind_ok Hrun as rc2 H2. apply subprocess_call_inv in H2 as (o2 & _ & ->).
  destruct (decide (rc2 ≠ 0%Z)) as [Hrc2|Hrc2].
  { apply stage_failed in Hrun as [-> ->]. exists [Exited 0 o1; Exited rc2 o2].
    split; [exact Hsrc |]. split; [simpl; lia |]. split; [done |].
    exists [Exited 0 o1], rc2, o2, "Compiling the distribution package failed".
    repeat split; try done. repeat constructor. by exists o1. }
  apply dec_stable in Hrc2 as ->.
  bind_ok Hrun as cmd3 Hc3. apply mret_inv in Hc3 as (<- & -> & ->).
  bind_ok Hrun as rc3 H3. apply subprocess_call_inv in H3 as (o3 & _ & ->).
  destruct (decide (rc3 ≠ 0%Z)) as [Hrc3|Hrc3].
  { apply stage_failed in Hrun as [-> ->]. exists [Exited 0 o1; Exited 0 o2; Exited rc3 o3].
    split; [exact Hsrc |]. split; [simpl; lia |]. split; [done |].
    exists [Exited 0 o1; Exited 0 o2], rc3, o3,
      "Running unit tests on the distribution package failed".
    repeat split; try done. repeat constructor; eexists; done. }
  apply dec_stable in Hrc3 as ->.
  bind_ok Hrun as cmd4 Hc4. apply mret_inv in Hc4 as (<- & -> & ->).
  bind_ok Hrun as rc4 H4. apply subprocess_call_inv in H4 as (o4 & _ & ->).
  destruct (decide (rc4 ≠ 0%Z)) as [Hrc4|Hrc4].
  { apply stage_failed in Hrun as [-> ->].
    exists [Exited 0 o1; Exited 0 o2; Exited 0 o3; Exited rc4 o4].
    split; [exact Hsrc |]. split; [simpl; lia |]. split; [done |].
    exists [Exited 0 o1; Exited 0 o2; Exited 0 o3], rc4, o4,
      "Installing the distribution package failed".
    repeat split; try done. repeat constructor; eexists; done. }
  apply dec_stable in Hrc4 as ->.
  apply mret_inv in Hrun as (<- & _ & ->).
  exists [Exited 0 o1; Exited 0 o2; Exited 0 o3; Exited 0 o4].
  split; [exact Hsrc |]. split; [simpl; lia |]. repeat split; try done.
  repeat constructor; eexists; done.
Qed.

(** X15: when [check_dist] returns, for a private directory without
    [*], [?] or an opening bracket in its name, its child processes are
    the stages configure, compile, test and install, in this order, on
    the unpacked source directory: the one visible entry that [glob]
    lists in the unpack directory, once the scratch directories are made
    anew and the package is unpacked.  The first stage is started from the
    command of meson with the ninja backend, the others are ninja in the
    build directory, the install with [DESTDIR] set to the install
    directory in the environment of the parent.  [check_dist] returns 0
    when all four have exited with status 0, and its last message is that
    the package is tested; it returns 1 when a stage has exited with
    another status, no later stage is run, and its last message is the
    report of that stage. *)
Theorem check_dist_runs_stages_in_order packagename cmd privdir ninja t rc t' l
    (Hliteral : has_magic privdir = false)
    (Hninja : detect_ninja = Some ninja)
    (Hrun : check_dist packagename cmd privdir t = (Ok rc, t', l)) :
  let unpackdir := join privdir "dist-unpack" in
  let made := (recreate (scratch_dirs privdir) t).1.2 in
  let unpacked := (unpack_archive packagename unpackdir made).2 in
  ∃ src outs,
    glob unpacked (join unpackdir "*") = [src]
    ∧ spawned l = zip (stage_calls cmd ninja src privdir) outs
    ∧ length outs ≤ 4
    ∧ ((rc = 0%Z ∧ length outs = 4 ∧ Forall exited_0 outs
        ∧ last l = Some (EvPrint ("Distribution package " +:+ packagename +:+ " tested")))
       ∨ (rc = 1%Z
          ∧ ∃ pre n out report,
              outs = pre ++ [Exited n out] ∧ n ≠ 0%Z ∧ Forall exited_0 pre
              ∧ stage_reports !! length pre = Some report
              ∧ last l = Some (EvPrint report))).
Proof.
  intros unpackdir made unpacked.
  unfold check_dist, print in Hrun. rewrite bind_emit, Hninja in Hrun.
  match type of Hrun with (?r, ?t0, _ :: ?l0) = _ =>
    assert (∃ l1, (r, t0, l0) = (Ok rc, t', l1)
                  ∧ l = EvPrint ("Testing distribution package " +:+ packagename) :: l1)
      as (l1 & Hrest & ->)
  end.
  { injection Hrun as Hr Ht <-. eexists. split; [| done]. by rewrite <- Hr, <- Ht. }
  rewrite <- !surjective_pairing in Hrest.
  apply bind_inv in Hrest as [(u & tr & lr & ? & Hrec & Hrest & ->) | (? & _ & [=])].
  assert (lr = [] ∧ tr = made) as [-> ->].
  { pose proof (recreate_silent [join privdir "dist-unpack"; join privdir "dist-build";
                                  join privdir "dist-install"] t) as Hs.
    unfold made, scratch_dirs. by rewrite Hrec in Hs |- *. }
  apply bind_inv in Hrest as [(r & tt & lt & le & Htry & Hend & ->) | (? & _ & [=])].
  apply try_finally_Ok in Htry as (t1 & l1 & l2 & Htry & Hfin & ->).
  assert (l2 = []) as ->.
  { pose proof (check_dist_finally_silent (join privdir "dist-unpack")
                  (join privdir "dist-build") (join privdir "dist-install") t1) as Hs.
    by rewrite Hfin in Hs. }
  apply check_dist_try_stages in Htry as (src & outs & Hsrc & Hlen & Hr).
  exists src, outs. rewrite app_nil_r. simpl.
  split; [exact Hsrc |].
  destruct r as [rc'|].
  - apply mret_inv in Hend as (<- & _ & ->).
    destruct Hr as (-> & pre & n & out & report & -> & Hn & Hpre & Hreport & ->).
    rewrite app_nil_r, spawned_app, spawned_spawns. simpl. rewrite app_nil_r.
    split; [done |]. split; [done |]. right. split; [done |].
    exists pre, n, out, report. repeat split; try done.
    by rewrite app_comm_cons, last_snoc.
  - rewrite bind_emit in Hend. injection Hend as <- _ <-.
    destruct Hr as (Hfour & Hall & ->).
    rewrite spawned_app, spawned_spawns. simpl. rewrite app_nil_r.
    split; [done |]. split; [done |]. left. repeat split; try done.
    by rewrite app_comm_cons, last_snoc.
Qed.

(** The [try] block without ninja: at most the configure step is run. *)
Lemma check_dist_try_without_ninja packagename cmd unpackdir builddir installdir t r t' l :
  check_dist_try packagename cmd unpackdir builddir installdir None t = (r, t', l) →
  length (spawned l) ≤ 1
  ∧ match r with
    | Ok None => False
    | Ok (Some rc) =>
        rc = 1%Z ∧ ∃ c n out, n ≠ 0%Z ∧ spawned l = [(c, Exited n out)]
    | Raise _ => True
    end.
Proof.
  unfold check_dist_try. intros Hrun.
  apply bind_inv in Hrun as [(u1 & s1 & e1 & ? & Hunpack & Hrun & ->) | (? & Hunpack & ->)].
  2: { assert (l = []) as -> by (eapply no_events_run; [| exact Hunpack]; keeps_go; done).
       simpl. split; [lia | done]. }
  assert (e1 = []) as -> by (eapply no_events_run; [| exact Hunpack]; keeps_go; done).
  apply bind_inv in Hrun as [(files & s2 & e2 & ? & Hglob & Hrun & ->) | (? & Hglob & ->)];
    [| done].
  injection Hglob as <- <- <-.
  apply bind_inv in Hrun as [(u3 & s3 & e3 & ? & Hassert & Hrun & ->) | (? & Hassert & ->)].
  2: { unfold py_assert in Hassert. destruct (bool_decide _); [done |].
       injection Hassert as _ _ <-. simpl. split; [lia | done]. }
  assert (e3 = []) as ->.
  { unfold py_assert in Hassert. destruct (bool_decide _); [| done].
    by injection Hassert as _ _ <-. }
  apply bind_inv in Hrun as [(src & s4 & e4 & ? & Hfirst & Hrun & ->) | (? & Hfirst & ->)].
  2: { unfold list_first in Hfirst. destruct (glob _ _); [| done].
       injection Hfirst as _ _ <-. simpl. split; [lia | done]. }
  assert (e4 = []) as ->.
  { unfold list_first in Hfirst. destruct (glob _ _); [done |].
    by injection Hfirst as _ _ <-. }
  simpl.
  apply bind_inv in Hrun as [(rc & s5 & e5 & ? & Hcall & Hrun & ->) | (? & Hcall & ->)].
  2: { pose proof (subprocess_call_events
                     (Call (cmd ++ ["--backend=ninja"; src; builddir]) None None) s4) as Hev.
       rewrite Hcall in Hev. simpl in Hev. rewrite Hev. simpl. split; [lia | done]. }
  apply subprocess_call_inv in Hcall as (o & _ & ->).
  destruct (decide (rc ≠ 0%Z)) as [Hrc|Hrc].
  - unfold print in Hrun. rewrite bind_emit in Hrun. injection Hrun as <- _ <-.
    simpl. split; [lia |]. split; [done |]. eauto.
  - simpl in Hrun. unfold bind, raise in Hrun. injection Hrun as <- _ <-.
    simpl. split; [lia | done].
Qed.

(** X16: when [detect_ninja] finds no ninja, [check_dist] starts at most
    one child process, the configure step, and never returns 0: it
    returns 1 when the configure step exits with a status other than 0, and
    raises otherwise. *)
Theorem check_dist_without_ninja packagename cmd privdir t
    (Hninja : detect_ninja = None) :
  let x := check_dist packagename cmd privdir t in
  length (spawned x.2) ≤ 1
  ∧ x.1.1 ≠ Ok 0%Z
  ∧ ∀ rc, x.1.1 = Ok rc →
      rc = 1%Z ∧ ∃ c n out, n ≠ 0%Z ∧ spawned x.2 = [(c, Exited n out)].
Proof.
  intros x. unfold x, check_dist, print. rewrite bind_emit, Hninja. simpl.
  set (dirs := [join privdir "dist-unpack"; join privdir "dist-build";
                join privdir "dist-install"]).
  match goal with
  | |- context [bind (recreate dirs) ?k t] => set (rest := bind (recreate dirs) k)
  end.
  assert (∀ r t' l, rest t = (r, t', l) →
            length (spawned l) ≤ 1 ∧ r ≠ Ok 0%Z
            ∧ ∀ rc, r = Ok rc →
                rc = 1%Z ∧ ∃ c n out, n ≠ 0%Z ∧ spawned l = [(c, Exited n out)]) as Hmain.
  { intros r t' l Hrun. unfold rest in Hrun.
    apply bind_inv in Hrun as [(u1 & s1 & e1 & ? & Hrec & Hrun & ->) | (? & Hrec & ->)].
    2: { pose proof (recreate_silent dirs t) as Hs. rewrite Hrec in Hs. simpl in Hs.
         subst l. simpl. split; [lia |]. split; done. }
    pose proof (recreate_silent dirs t) as Hs. rewrite Hrec in Hs. simpl in Hs. subst e1.
    apply bind_inv in Hrun as [(ret & s2 & e2 & ? & Htf & Hrun & ->) | (? & Htf & ->)].
    - unfold try_finally in Htf.
      destruct (check_dist_try _ _ _ _ _ None s1) as [[rt t2] l2] eqn:Htry.
      apply check_dist_try_without_ninja in Htry as [Hlen Hr].
      pose proof (check_dist_finally_silent (join privdir "dist-unpack")
                    (join privdir "dist-build") (join privdir "dist-install") t2) as Hfin.
      destruct (check_dist_finally _ _ _ t2) as [[[[]|e] t3] l3]; simpl in *; subst l3;
        [| done].
      injection Htf as -> _ <-. rewrite app_nil_r in *.
      destruct ret as [rc|]; [| done].
      injection Hrun as <- _ <-. rewrite app_nil_r.
      destruct Hr as (-> & Hone). split; [done |]. split; [done |]. by intros rc [= <-].
    - unfold try_finally in Htf.
      destruct (check_dist_try _ _ _ _ _ None s1) as [[rt t2] l2] eqn:Htry.
      apply check_dist_try_without_ninja in Htry as [Hlen Hr].
      pose proof (check_dist_finally_silent (join privdir "dist-unpack")
                    (join privdir "dist-build") (join privdir "dist-install") t2) as Hfin.
      destruct (check_dist_finally _ _ _ t2) as [[[[]|e] t3] l3]; simpl in *; subst l3;
        injection Htf as _ _ <-; rewrite app_nil_r; split; [done | | done |]; split; done. }
  destruct (rest t) as [[r t'] l] eqn:Hrest. simpl. by apply (Hmain r t' l).
Qed.

(** [check_dist] when the first scratch directory cannot be set up. *)
Lemma check_dist_setup_fails packagename cmd privdir t e :
  bind (os_path_exists (join privdir "dist-unpack"))
    (λ e, bind (if e then shutil_rmtree (join privdir "dist-unpack") else mret ())
            (λ _, os_mkdir (join privdir "dist-unpack"))) t
  = (Raise e, t, []) →
  check_dist packagename cmd privdir t
  = (Raise e, t, [EvPrint ("Testing distribution package " +:+ packagename)]).
Proof.
  intros Hround. unfold check_dist, print. rewrite bind_emit.
  assert (recreate [join privdir "dist-unpack"; join privdir "dist-build";
                    join privdir "dist-install"] t = (Raise e, t, [])) as Hrec.
  { unfold recreate. cbn [for_]. by rewrite (bind_Raise _ _ _ _ _ _ Hround). }
  by rewrite (bind_Raise _ _ _ _ _ _ Hrec).
Qed.

(** X17: when there is nothing at the private directory, [check_dist]
    raises [FileNotFoundError] for its first scratch directory once it has
    announced the test: nothing is unpacked, no child process is started,
    no file is changed. *)
Theorem check_dist_without_private_directory packagename cmd privdir t
    (Hpath : components privdir ≠ [])
    (Hmissing : absent t (components privdir)) :
  check_dist packagename cmd privdir t
  = (Raise (OSError FileNotFoundError (join privdir "dist-unpack")), t,
     [EvPrint ("Testing distribution package " +:+ packagename)]).
Proof.
  apply check_dist_setup_fails.
  set (kp := components privdir) in *.
  assert (components (join privdir "dist-unpack") = kp ++ ["dist-unpack"]) as Hk
    by (by apply components_join_name).
  assert (t !! (kp ++ ["dist-unpack"]) = None) as Hnone
    by (apply Hmissing; by apply prefix_app_r).
  assert (node_at t (kp ++ ["dist-unpack"]) = None) as Hnode by (by destruct kp).
  unfold os_path_exists. rewrite bind_query.
  rewrite stat_of_missing by (unfold lstat; by rewrite Hk).
  rewrite bool_decide_eq_false_2 by (by intros [??]).
  rewrite bind_mret. unfold os_mkdir, mkdir_at. rewrite Hk, Hnode, removelast_last.
  assert (node_at t kp = None) as ->; [| done].
  destruct kp; [done |]. apply Hmissing. done.
Qed.

(** X18: only a directory at a scratch path is replaced.  When the first
    scratch path is a regular file or a link, [check_dist] raises an
    [OSError] for it once it has announced the test, and leaves it where it
    is: [NotADirectoryError] from [shutil.rmtree] for a file, the error of
    [shutil.rmtree] on a link for a link that leads somewhere, and
    [FileExistsError] from [os.mkdir] for a link that leads nowhere. *)
Theorem check_dist_with_occupied_scratch_path packagename cmd privdir t n
    (Hthere : lstat t (join privdir "dist-unpack") = Some n)
    (Hnot_dir : n ≠ Dir) :
  check_dist packagename cmd privdir t
  = (Raise (OSError
              match n with
              | File _ => NotADirectoryError
              | _ => if bool_decide (is_Some (stat t (join privdir "dist-unpack")))
                     then OtherOSError else FileExistsError
              end
              (join privdir "dist-unpack")), t,
     [EvPrint ("Testing distribution package " +:+ packagename)]).
Proof.
  apply check_dist_setup_fails.
  unfold os_path_exists. rewrite bind_query.
  destruct n as [data|target|]; [| | done].
  - rewrite (stat_of_plain _ _ _ Hthere) by done.
    rewrite bool_decide_eq_true_2 by eauto.
    unfold bind, shutil_rmtree. by rewrite Hthere.
  - destruct (bool_decide (is_Some (stat t (join privdir "dist-unpack")))).
    + unfold bind, shutil_rmtree. by rewrite Hthere.
    + rewrite bind_mret. unfold os_mkdir, mkdir_at. unfold lstat in Hthere. by rewrite Hthere.
Qed.

End Stages.

(** ** The sidecar *)

Lemma round_length s kw : length (Sha256.round s kw) = length s.
Proof.
  unfold Sha256.round.
  destruct s as [|a [|b [|c [|d [|e [|f [|g [|h [|]]]]]]]]]; done.
Qed.

Lemma compress_length h block : length (Sha256.compress h block) = length h.
Proof.
  unfold Sha256.compress. rewrite length_zip_with.
  assert (∀ l s, length (fold_left Sha256.round l s) = length s) as Hfold.
  { induction l as [|kw l IH]; intros s; [done |]. simpl. by rewrite IH, round_length. }
  rewrite Hfold. lia.
Qed.

(** The digest has eight words. *)
Lemma digest_length msg : length (Sha256.digest msg) = 8.
Proof.
  unfold Sha256.digest.
  assert (∀ bs h, length (fold_left Sha256.compress bs h) = length h) as Hfold.
  { induction bs as [|b bs IH]; intros h; [done |]. simpl. by rewrite IH, compress_length. }
  rewrite Hfold. vm_compute. reflexivity.
Qed.

Lemma hex_digit_lower x : (0 ≤ x < 16)%Z → is_lower_hex (Sha256.hex_digit x) = true.
Proof.
  intros Hx. assert (∃ n : nat, n < 16 ∧ x = Z.of_nat n) as (n & Hn & ->).
  { exists (Z.to_nat x). lia. }
  do 16 (destruct n as [|n]; [vm_compute; reflexivity |]). lia.
Qed.

Lemma hex_word_shape x :
  String.length (Sha256.hex_word x) = 8
  ∧ Forall (λ c, is_lower_hex c = true) (list_ascii_of_string (Sha256.hex_word x)).
Proof.
  unfold Sha256.hex_word. split.
  - by rewrite string_length_of_list, length_fmap.
  - rewrite list_ascii_of_string_of_list_ascii. apply Forall_fmap, Forall_forall.
    intros i _. simpl. apply hex_digit_lower. apply Z.mod_pos_bound. lia.
Qed.

Lemma hexdigest_shape data :
  String.length (Sha256.hexdigest data) = 64
  ∧ Forall (λ c, is_lower_hex c = true) (list_ascii_of_string (Sha256.hexdigest data)).
Proof.
  unfold Sha256.hexdigest. pose proof (digest_length (Sha256.bytes_of data)) as Hlen.
  assert (∀ ws, String.length (String.concat "" (Sha256.hex_word <$> ws)) = 8 * length ws
                ∧ Forall (λ c, is_lower_hex c = true)
                    (list_ascii_of_string (String.concat "" (Sha256.hex_word <$> ws))))
    as Hall.
  { induction ws as [|w ws [IH1 IH2]]; [done |].
    rewrite fmap_cons, concat_empty_cons. destruct (hex_word_shape w) as [Hw1 Hw2]. split.
    - rewrite length_append, IH1, Hw1. simpl. lia.
    - rewrite list_of_string_app. by apply Forall_app. }
  destruct (Hall (Sha256.digest (Sha256.bytes_of data))) as [H1 H2]. by rewrite Hlen in H1.
Qed.

Section Stamp.
Context `{Host}.

(** X19: when the archive is not a file that can be read (nothing there,
    a directory, a link that leads nowhere), [create_hash] raises an
    [OSError] for the archive and writes no sidecar: the files are as they
    were. *)
Theorem create_hash_of_unreadable_archive fname t
    (Hbad : ∀ data, stat t fname ≠ Some (File data)) :
  ∃ e, create_hash fname t = (Raise (OSError e fname), t, []).
Proof.
  unfold create_hash, bind, read_file. unfold stat in Hbad.
  destruct (follow MAXSYMLINKS t (components fname)) as [k|]; simpl in *; [| by eexists].
  destruct (node_at t k) as [[data|target|]|]; try by eexists.
  by destruct (Hbad data).
Qed.

(** X20: for an archive that is a regular file and a sidecar that can be
    written, [create_hash] returns, the sidecar is the only file it
    changes, the archive reads as before, and stamping again changes
    nothing: the sidecar is never the archive itself. *)
Theorem create_hash_keeps_the_archive fname data t
    (Hfile : lstat t fname = Some (File data))
    (Hfree : writable t (components (sidecar fname))) :
  let t' := <[components (sidecar fname) := File (sidecar_line data fname)]> t in
  create_hash fname t = (Ok (), t', [])
  ∧ components (sidecar fname) ≠ components fname
  ∧ read_file fname t' = (Ok data, t', [])
  ∧ create_hash fname t' = (Ok (), t', []).
Proof.
  intros t'. unfold lstat in Hfile.
  destruct (suffixed_not_same fname ".sha256sum") as (Hother & Hne & Hparent);
    [done | simpl; lia |]. fold (sidecar fname) in *.
  assert (node_at t' (components fname) = Some (File data)) as Hfile'.
  { unfold t'. rewrite node_at_insert by done. by rewrite decide_False. }
  split; [by apply create_hash_runs |]. split; [done |]. split.
  - unfold read_file. rewrite follow_plain by (intros target; by rewrite Hfile').
    by rewrite Hfile'.
  - rewrite (create_hash_runs fname data t' Hfile').
    + unfold t'. by rewrite insert_insert_eq.
    + destruct Hfree as [Hdir _]. unfold writable, t'.
      rewrite !node_at_insert by done.
      rewrite decide_False by done. rewrite decide_True by done. done.
Qed.

(** X21: the line of a sidecar is 64 characters, each a digit or a letter
    from [a] to [f], which are the digest; then a space, the name and a line
    feed.  The name has no slash: it is the text of the path after its last
    slash. *)
Theorem sidecar_line_shape data fname :
  String.length (Sha256.hexdigest data) = 64
  ∧ Forall (λ c, is_lower_hex c = true) (list_ascii_of_string (Sha256.hexdigest data))
  ∧ String.substring 0 64 (sidecar_line data fname) = Sha256.hexdigest data
  ∧ String.length (sidecar_line data fname) = 66 + String.length (basename fname)
  ∧ contains_char "/" (basename fname) = false
  ∧ ∃ dir, fname = dir +:+ basename fname ∧ (dir = "" ∨ endswith_slash dir = true).
Proof.
  destruct (hexdigest_shape data) as [Hlen Hhex].
  split; [done |]. split; [done |]. split; [| split; [| split]].
  - unfold sidecar_line. rewrite <- Hlen. apply substring_prefix.
  - unfold sidecar_line. rewrite !length_append, Hlen. simpl. lia.
  - apply rsplit_slash_spec.
  - unfold basename. destruct (rsplit_slash_spec fname) as (_ & Heq & Hdir).
    exists (default "" (rsplit_slash fname).1). split; [done |].
    destruct (rsplit_slash fname).1; [by right | by left].
Qed.

End Stamp.

(** * The further properties on the concrete world *)

Ltac by_computation :=
  apply (bool_decide_unpack _); vm_compute; exact I.

(** X1 on a request with a repetition. *)
Lemma determine_archives_accepts_witness :
  determine_archives_to_generate (Options "zip,xztar,zip") Demo.files
  = (Ok ["zip"; "xztar"; "zip"], Demo.files, [])
  ∧ str_join "," ["zip"; "xztar"; "zip"] = "zip,xztar,zip".
Proof.
  apply (determine_archives_accepts_permitted (Options "zip,xztar,zip") Demo.files).
  by_computation.
Defined.

(** X2 on a request with a space after the comma: the second item is
    [ zip], which is not a format. *)
Lemma determine_archives_rejects_witness :
  let H := Demo.host Demo.git_ok in
  determine_archives_to_generate (Options "xztar, zip") Demo.files
  = (Raise (SystemExit (ExitMessage (unpermitted_message " zip"))), Demo.files, [])
  ∧ run (Options "xztar, zip") Demo.files
    = (Raise (SystemExit (ExitMessage (unpermitted_message " zip"))), Demo.files, []).
Proof.
  intros H.
  apply (determine_archives_rejects_first_unpermitted (H := H) (Options "xztar, zip")
           ["xztar"] " zip" [] Demo.files).
  - reflexivity.
  - by_computation.
  - by_computation.
Defined.

(** X3 on a tree in which [.hg] is a file. *)
Lemma run_without_vcs_witness :
  run (H := Edge.plain_host) (Options "xztar") Edge.plain
  = (Ok 1%Z, Edge.plain, [EvPrint "Dist currently only works with Git or Mercurial repos"]).
Proof.
  apply (run_without_vcs (H := Edge.plain_host) (Options "xztar") Edge.plain_build Edge.plain).
  - reflexivity.
  - by_computation.
  - vm_compute. reflexivity.
  - refute_by_computation.
Defined.

(** X4 on a request for xztar and zip. *)
Lemma produced_names_witness :
  let H := Demo.host Demo.git_ok in
  (determine_archives_to_generate (Options "xztar,zip") Demo.files).1.1 = Ok ["xztar"; "zip"]
  ∧ (∀ t names t' l,
       create_dist_git "proj-1.0" ["xztar"; "zip"] "/src" "/build" "/build/meson-dist"
         [Demo.stamp_hook] t = (Ok names, t', l) →
       ∃ first, list_first names = mret first)
  ∧ (∀ t names t' l,
       create_dist_hg "proj-1.0" ["xztar"; "zip"] "/hgsrc" "/build" "/build/meson-dist"
         [Demo.stamp_hook] t = (Ok names, t', l) →
       ∃ first, list_first names = mret first).
Proof.
  intros H. split; [vm_compute; reflexivity |].
  set (x := determine_archives_to_generate (Options "xztar,zip") Demo.files).
  apply (produced_names_never_empty (H := H) (Options "xztar,zip") Demo.files
           ["xztar"; "zip"] x.1.2 x.2).
  apply run_result. vm_compute. reflexivity.
Defined.

(** X5 on the two source trees, for zip and xztar. *)
Lemma strategies_name_archives_alike_witness :
  let H := Demo.host Demo.hg_ok in
  let xz := "/build/meson-dist/proj-1.0.tar.xz" in
  let zip := "/build/meson-dist/proj-1.0.zip" in
  let hg := create_dist_hg "proj-1.0" ["zip"; "xztar"] "/hgsrc" "/build" "/build/meson-dist"
              [] Demo.files in
  let git := create_dist_git "proj-1.0" ["zip"; "xztar"] "/src" "/build" "/build/meson-dist"
               [] Demo.files in
  hg.1.1 = Ok [xz; zip] ∧ git.1.1 = Ok [zip; xz] ∧ ∀ n, n ∈ [xz; zip] ↔ n ∈ [zip; xz].
Proof.
  intros H xz zip hg git.
  split; [vm_compute; reflexivity |]. split; [vm_compute; reflexivity |].
  apply (strategies_name_archives_alike (H := H) "proj-1.0" "/build/meson-dist" ["zip"; "xztar"]
           "/hgsrc" "/build" [] Demo.files [xz; zip] hg.1.2 hg.2
           "/src" "/build" [] Demo.files [zip; xz] git.1.2 git.2).
  - apply run_result. vm_compute. reflexivity.
  - apply run_result. vm_compute. reflexivity.
Defined.

(** X6 on the Git tree, which has a submodule, with one hook. *)
Lemma create_dist_git_children_witness :
  let H := Demo.host Demo.git_ok in
  let distdir := "/build/meson-dist/proj-1.0" in
  let x := create_dist_git "proj-1.0" ["xztar"] "/src" "/build" "/build/meson-dist"
             [Demo.stamp_hook] Demo.files in
  x.1.1 = Ok ["/build/meson-dist/proj-1.0.tar.xz"]
  ∧ length (spawned x.2) = 4
  ∧ ∃ updated : bool,
      (spawned x.2).*1
      = [diff_index_call "/src"; clone_call "/src" distdir]
        ++ (if updated then [submodule_update_call distdir] else [])
        ++ (hook_call distdir <$> [Demo.stamp_hook])
      ∧ Forall exited_0 (tail (spawned x.2).*2).
Proof.
  intros H distdir x.
  split; [vm_compute; reflexivity |]. split; [vm_compute; reflexivity |].
  apply (create_dist_git_children (H := H) "proj-1.0" ["xztar"] "/src" "/build"
           "/build/meson-dist" [Demo.stamp_hook] Demo.files
           ["/build/meson-dist/proj-1.0.tar.xz"] x.1.2 x.2).
  apply run_result. vm_compute. reflexivity.
Defined.

(** X7 on the same run. *)
Lemma hooks_run_on_the_stripped_snapshot_witness :
  let H := Demo.host Demo.git_ok in
  let distdir := "/build/meson-dist/proj-1.0" in
  let x := create_dist_git "proj-1.0" ["xztar"] "/src" "/build" "/build/meson-dist"
             [Demo.stamp_hook] Demo.files in
  x.1.1 = Ok ["/build/meson-dist/proj-1.0.tar.xz"]
  ∧ ∃ t1 t2 l0 l1 l2,
      x.2 = l0 ++ l1 ++ l2
      ∧ no_gitfiles_in t1 distdir
      ∧ run_dist_scripts distdir [Demo.stamp_hook] t1 = (Ok (), t2, l1)
      ∧ spawned l2 = [].
Proof.
  intros H distdir x. split; [vm_compute; reflexivity |].
  apply (hooks_run_on_the_stripped_snapshot (H := H) "proj-1.0" ["xztar"] "/src" "/build"
           "/build/meson-dist" [Demo.stamp_hook] Demo.files
           ["/build/meson-dist/proj-1.0.tar.xz"] x.1.2 x.2).
  - reflexivity.
  - apply run_result. vm_compute. reflexivity.
Defined.

Lemma pack_writes_archive s : archiver_writes_archive (H := Demo.host s).
Proof.
  intros base_name format root_dir base_dir ext t t2 Hext Hmade.
  simpl in Hmade. unfold Demo.pack in Hmade. rewrite Hext in Hmade.
  injection Hmade as <-. by eexists.
Qed.

(** X8 on a run for two formats. *)
Lemma create_dist_git_leaves_the_archives_witness :
  let H := Demo.host Demo.git_ok in
  let names := ["/build/meson-dist/proj-1.0.tar.xz"; "/build/meson-dist/proj-1.0.zip"] in
  let x := create_dist_git "proj-1.0" ["xztar"; "zip"] "/src" "/build" "/build/meson-dist"
             [Demo.stamp_hook] Demo.files in
  x.1.1 = Ok names
  ∧ absent x.1.2 (components (join "/build/meson-dist" "proj-1.0"))
  ∧ ∀ n, n ∈ names → ∃ data, x.1.2 !! components n = Some (File data).
Proof.
  intros H names x. split; [vm_compute; reflexivity |].
  apply (create_dist_git_leaves_the_archives (H := H) "proj-1.0" ["xztar"; "zip"] "/src"
           "/build" "/build/meson-dist" [Demo.stamp_hook] Demo.files names x.1.2 x.2).
  - apply pack_writes_archive.
  - reflexivity.
  - apply run_result. vm_compute. reflexivity.
Defined.

(** X10 on the Mercurial tree, for zip and xztar. *)
Lemma create_dist_hg_children_witness :
  let H := Demo.host Demo.hg_ok in
  let x := create_dist_hg "proj-1.0" ["zip"; "xztar"] "/hgsrc" "/build" "/build/meson-dist"
             [] Demo.files in
  x.1.1 = Ok ["/build/meson-dist/proj-1.0.tar.xz"; "/build/meson-dist/proj-1.0.zip"]
  ∧ (spawned x.2).*1
    = [hg_summary_call "/hgsrc";
       hg_archive_call "/hgsrc" "tar" (join "/build/meson-dist" ("proj-1.0" +:+ ".tar"))]
      ++ (if bool_decide ("zip" ∈ ["zip"; "xztar"])
          then [hg_archive_call "/hgsrc" "zip" (join "/build/meson-dist" ("proj-1.0" +:+ ".zip"))]
          else [])
  ∧ Forall exited_0 (spawned x.2).*2.
Proof.
  intros H x. split; [vm_compute; reflexivity |].
  apply (create_dist_hg_children (H := H) "proj-1.0" ["zip"; "xztar"] "/hgsrc" "/build"
           "/build/meson-dist" [] Demo.files
           ["/build/meson-dist/proj-1.0.tar.xz"; "/build/meson-dist/proj-1.0.zip"] x.1.2 x.2).
  apply run_result. vm_compute. reflexivity.
Defined.

(** X11 on a request for xztar and gztar: the two archives are there, with
    the compressed bytes of the tar archive, and the tar archive is not. *)
Lemma create_dist_hg_removes_tar_witness :
  let H := Demo.host Demo.hg_ok in
  let tarname := join "/build/meson-dist" ("proj-1.0" +:+ ".tar") in
  let zipname := join "/build/meson-dist" ("proj-1.0" +:+ ".zip") in
  let archives := ["xztar"; "gztar"] in
  let data := "tar archive of the working copy" in
  let t1 := (spawn (hg_summary_call "/hgsrc") Demo.files).2 in
  let t2 := (os_makedirs "/build/meson-dist" true t1).1.2 in
  let t3 := (spawn (hg_archive_call "/hgsrc" "tar" tarname) t2).2 in
  let packed := hg_compressed "proj-1.0" "/build/meson-dist" archives data t3 in
  let x := create_dist_hg "proj-1.0" archives "/hgsrc" "/build" "/build/meson-dist"
             [] Demo.files in
  (x.1.1 = Ok ["/build/meson-dist/proj-1.0.tar.xz"; "/build/meson-dist/proj-1.0.tar.gz"]
   ∧ lzma_compress data = "xz:tar archive of the working copy"
   ∧ gzip_compress data = "gz:tar archive of the working copy")
  ∧ x.1.2 = (if bool_decide ("zip" ∈ archives)
             then (spawn (hg_archive_call "/hgsrc" "zip" zipname) packed).2
             else packed)
  ∧ packed !! components tarname = None
  ∧ ("xztar" ∈ archives →
     packed !! components (tarname +:+ ".xz") = Some (File (lzma_compress data)))
  ∧ ("gztar" ∈ archives →
     packed !! components (tarname +:+ ".gz") = Some (File (gzip_compress data)))
  ∧ ("zip" ∉ archives →
     x.1.2 !! components tarname = None
     ∧ ("xztar" ∈ archives →
        x.1.2 !! components (tarname +:+ ".xz") = Some (File (lzma_compress data)))
     ∧ ("gztar" ∈ archives →
        x.1.2 !! components (tarname +:+ ".gz") = Some (File (gzip_compress data)))).
Proof.
  intros H tarname zipname archives data t1 t2 t3 packed x.
  split; [repeat split; vm_compute; reflexivity |].
  apply (create_dist_hg_removes_tar (H := H) "proj-1.0" archives "/hgsrc" "/build"
           "/build/meson-dist" [] Demo.files
           ("parent: 0:2f1c tip" +:+ NL +:+ "commit: (clean)" +:+ NL) t1 t2 "" t3 data).
  - apply pair_result. vm_compute. reflexivity.
  - apply pair_result. vm_compute. reflexivity.
  - apply pair_result. vm_compute. reflexivity.
  - vm_compute. reflexivity.
  - intros _. split; vm_compute; [reflexivity | exact I].
  - intros _. split; vm_compute; [reflexivity | exact I].
  - unfold archives. rewrite !elem_of_cons, elem_of_nil. intros [[=]|[[=]|[]]].
Defined.

(** C8 on the two source trees of the concrete world, each with one hook;
    Mercurial is asked for xztar and zip. *)
Lemma C8_hooks_by_strategy_witness :
  let H := Demo.host Demo.git_ok in
  let xz := "/build/meson-dist/proj-1.0.tar.xz" in
  let zip := "/build/meson-dist/proj-1.0.zip" in
  let hg := create_dist_hg "proj-1.0" ["xztar"; "zip"] "/hgsrc" "/build" "/build/meson-dist"
              [Demo.stamp_hook] Demo.files in
  let git := create_dist_git "proj-1.0" ["xztar"] "/src" "/build" "/build/meson-dist"
               [Demo.stamp_hook] Demo.files in
  (git.1.1 = Ok [xz]
   ∧ hg.1.2 !! components xz = Some (File "xz:tar archive of the working copy")
   ∧ hg.1.2 !! components zip = Some (File "zip archive of the working copy")
   ∧ hg.1.2 !! components "/build/meson-dist/proj-1.0/VERSION" = None)
  ∧ (hook_call "/build/meson-dist/proj-1.0" Demo.stamp_hook ∉ (spawned hg.2).*1)
  ∧ differ_by_warning (EvWarning hg_hooks_warning) hg
      (create_dist_hg "proj-1.0" ["xztar"; "zip"] "/hgsrc" "/build" "/build/meson-dist"
         [] Demo.files)
  ∧ hg.1.1 = Ok [xz; zip]
  ∧ EvWarning hg_hooks_warning ∈ hg.2
  ∧ Forall (λ d, ∃ out, (hook_call "/build/meson-dist/proj-1.0" d, Exited 0 out)
                        ∈ spawned git.2)
      [Demo.stamp_hook].
Proof.
  intros H xz zip hg git.
  assert (git.1.1 = Ok [xz]) as Hgit by (vm_compute; reflexivity).
  split; [split; [exact Hgit | repeat split; vm_compute; reflexivity] |].
  destruct (C8_hooks_skipped_by_hg_run_by_git (H := H) "proj-1.0" ["xztar"; "zip"]
              "/build/meson-dist" [Demo.stamp_hook]) as [Hskip _]; [discriminate |].
  destruct (C8_hooks_skipped_by_hg_run_by_git (H := H) "proj-1.0" ["xztar"]
              "/build/meson-dist" [Demo.stamp_hook]) as [_ Hrun]; [discriminate |].
  destruct (Hskip "/hgsrc" "/build" Demo.files) as (Hnone & Hdiffer & Hproduced).
  split; [apply Hnone |]. split; [exact Hdiffer |].
  set (t1 := (spawn (hg_summary_call "/hgsrc") Demo.files).2).
  set (t2 := (os_makedirs "/build/meson-dist" true t1).1.2).
  set (t3 := (spawn (hg_archive_call "/hgsrc" "tar" "/build/meson-dist/proj-1.0.tar") t2).2).
  destruct (Hproduced ("parent: 0:2f1c tip" +:+ NL +:+ "commit: (clean)" +:+ NL)
              t1 t2 "" t3 "tar archive of the working copy")
    as (Hnames & Hwarned & _).
  - apply pair_result. vm_compute. reflexivity.
  - apply pair_result. vm_compute. reflexivity.
  - apply pair_result. vm_compute. reflexivity.
  - vm_compute. reflexivity.
  - intros _. split; vm_compute; [reflexivity | exact I].
  - rewrite !elem_of_cons, elem_of_nil. intros [[=]|[[=]|[]]].
  - intros _. exists "". vm_compute. reflexivity.
  - split; [exact Hnames |]. split; [exact Hwarned |].
    exact (Hrun "/src" "/build" Demo.files [xz] git.1.2 git.2 (run_result _ _ Hgit)).
Defined.


(** X15 with a configure step that exits with status 2: one child
    process, started on the directory [proj-1.0] that the archive
    unpacks to, and the report of the first stage. *)
Lemma check_dist_runs_stages_in_order_witness :
  let H := Demo.checker 2 Demo.OneDirectory in
  let privdir := "/build/meson-private" in
  let package := "/build/meson-dist/proj-1.0.tar.xz" in
  let x := check_dist package ["meson"] privdir Demo.packed in
  let unpackdir := join privdir "dist-unpack" in
  let made := (recreate (scratch_dirs privdir) Demo.packed).1.2 in
  let unpacked := (unpack_archive package unpackdir made).2 in
  (x.1.1 = Ok 1%Z ∧ length (spawned x.2) = 1
   ∧ glob unpacked (join unpackdir "*") = ["/build/meson-private/dist-unpack/proj-1.0"])
  ∧ ∃ src outs,
      glob unpacked (join unpackdir "*") = [src]
      ∧ spawned x.2 = zip (stage_calls ["meson"] "ninja" src privdir) outs
      ∧ length outs ≤ 4
      ∧ ((1%Z = 0%Z ∧ length outs = 4 ∧ Forall exited_0 outs
          ∧ last x.2 = Some (EvPrint ("Distribution package " +:+ package +:+ " tested")))
         ∨ (1%Z = 1%Z
            ∧ ∃ pre n out report,
                outs = pre ++ [Exited n out] ∧ n ≠ 0%Z ∧ Forall exited_0 pre
                ∧ stage_reports !! length pre = Some report
                ∧ last x.2 = Some (EvPrint report))).
Proof.
  intros H privdir package x unpackdir made unpacked.
  split; [repeat split; vm_compute; reflexivity |].
  apply (check_dist_runs_stages_in_order (H := H) package ["meson"] privdir "ninja"
           Demo.packed 1%Z x.1.2 x.2).
  - reflexivity.
  - reflexivity.
  - apply run_result. vm_compute. reflexivity.
Defined.

(** X16 on a machine without ninja and with a configure step that
    fails. *)
Lemma check_dist_without_ninja_witness :
  let H := Edge.without_ninja in
  let x := check_dist "/build/meson-dist/proj-1.0.tar.xz" ["meson"] "/build/meson-private"
             Demo.packed in
  length (spawned x.2) ≤ 1
  ∧ x.1.1 ≠ Ok 0%Z
  ∧ ∀ rc, x.1.1 = Ok rc →
      rc = 1%Z ∧ ∃ c n out, n ≠ 0%Z ∧ spawned x.2 = [(c, Exited n out)].
Proof.
  intros H.
  apply (check_dist_without_ninja (H := H) "/build/meson-dist/proj-1.0.tar.xz" ["meson"]
           "/build/meson-private" Demo.packed).
  reflexivity.
Defined.

(** X17 on a private directory that is not there. *)
Lemma check_dist_without_private_directory_witness :
  let H := Demo.checker 0 Demo.OneDirectory in
  check_dist "/build/meson-dist/proj-1.0.tar.xz" ["meson"] "/nowhere/private" Demo.packed
  = (Raise (OSError FileNotFoundError "/nowhere/private/dist-unpack"), Demo.packed,
     [EvPrint "Testing distribution package /build/meson-dist/proj-1.0.tar.xz"]).
Proof.
  intros H.
  apply (check_dist_without_private_directory (H := H) "/build/meson-dist/proj-1.0.tar.xz"
           ["meson"] "/nowhere/private" Demo.packed).
  - refute_by_computation.
  - apply absent_of_prune. vm_compute. reflexivity.
Defined.

(** X18 on a private directory with a file named [dist-unpack]. *)
Lemma check_dist_with_occupied_scratch_path_witness :
  let H := Demo.checker 0 Demo.OneDirectory in
  check_dist "/build/meson-dist/proj-1.0.tar.xz" ["meson"] "/build/meson-private" Edge.occupied
  = (Raise (OSError NotADirectoryError "/build/meson-private/dist-unpack"), Edge.occupied,
     [EvPrint "Testing distribution package /build/meson-dist/proj-1.0.tar.xz"]).
Proof.
  intros H.
  apply (check_dist_with_occupied_scratch_path (H := H) "/build/meson-dist/proj-1.0.tar.xz"
           ["meson"] "/build/meson-private" Edge.occupied (File "left over")).
  - vm_compute. reflexivity.
  - done.
Defined.

(** X19 on an archive that was not made. *)
Lemma create_hash_of_unreadable_archive_witness :
  ∃ e, create_hash "/build/meson-dist/proj-1.0.tar.gz" Demo.packed
       = (Raise (OSError e "/build/meson-dist/proj-1.0.tar.gz"), Demo.packed, []).
Proof.
  apply (create_hash_of_unreadable_archive "/build/meson-dist/proj-1.0.tar.gz" Demo.packed).
  intros data.
  assert (stat Demo.packed "/build/meson-dist/proj-1.0.tar.gz" = None) as ->
    by (vm_compute; reflexivity).
  done.
Defined.

(** X20 on the zip archive of the packed world. *)
Lemma create_hash_keeps_the_archive_witness :
  let fname := "/build/meson-dist/proj-1.0.zip" in
  let data := "zip archive of proj-1.0" in
  let t' := <[components (sidecar fname) := File (sidecar_line data fname)]> Demo.packed in
  create_hash fname Demo.packed = (Ok (), t', [])
  ∧ components (sidecar fname) ≠ components fname
  ∧ read_file fname t' = (Ok data, t', [])
  ∧ create_hash fname t' = (Ok (), t', []).
Proof.
  intros fname data.
  apply (create_hash_keeps_the_archive fname data Demo.packed).
  - vm_compute. reflexivity.
  - split; vm_compute; [reflexivity | exact I].
Defined.

(** X22 on a build directory given by a relative path: the tree is cloned
    and stripped, and the run ends at the assertion. *)
Lemma create_dist_git_needs_absolute_root_witness :
  let H := Demo.host Demo.git_ok in
  let x := create_dist_git "proj-1.0" ["xztar"] "/src" "build" "build/meson-dist"
             [Demo.stamp_hook] Demo.files in
  (x.1.1 = Raise AssertionError ∧ length (spawned x.2) = 3)
  ∧ (∀ names, x.1.1 ≠ Ok names)
  ∧ ∀ t0, run_dist_scripts (join "build/meson-dist" "proj-1.0") [Demo.stamp_hook] t0
          = (Raise AssertionError, t0, []).
Proof.
  intros H x. split; [split; vm_compute; reflexivity |].
  apply (create_dist_git_needs_absolute_root (H := H) "proj-1.0" ["xztar"] "/src" "build"
           "build/meson-dist" [Demo.stamp_hook] Demo.files).
  reflexivity.
Defined.
